(** * JobScrape: a shallow embedding of [scrape.py]

    The script fetches one careers page, extracts a record per posting
    section, validates the collection and writes a two-sheet workbook.

    Modelling conventions.
    - Text is a Rocq [string]; the character classes ([\d], [\s],
      [str.strip], [str.lower], [re.IGNORECASE]) are the ASCII ones, so the
      development speaks about pages whose text is ASCII.
    - BeautifulSoup is an interface ([Soup]) whose calls may raise; the
      instance [tree_soup] gives its meaning on a concrete document tree
      made of elements and strings (no comments, scripts or style sheets).
    - A regular expression is compiled from its source text into the
      fragment of [re] that the four patterns of the script need.
    - [print] appends a structured message to the world's standard output;
      the clock and the file system are fields of the world.
    - The completion rate of the validator is computed in exact rationals.
    - The file system of the claims accepts every write ([write_file]);
      the exporter and the run on a file system that may refuse are given
      apart ([ExcelWriter], [save_jobs_to_excel_on], [scrape_jobs_on]).
    - A workbook is its sheets of values.  Cell styling (fonts, fills,
      borders, widths, heights) is modelled apart, on worksheets of styled
      cells ([Xl]): it never changes a cell's value or the number of
      rows. *)

From Stdlib Require Import List String Ascii Bool Arith ZArith Lia QArith Sorted
  Permutation DecimalString.
Import ListNotations.
Close Scope Q_scope.
Open Scope string_scope.
Open Scope list_scope.
Open Scope nat_scope.

(** ** Python strings *)

Module PyStr.

Definition is_digit (c : ascii) : bool :=
  let n := nat_of_ascii c in (48 <=? n) && (n <=? 57).

(** [str.isspace] restricted to ASCII: TAB..CR, FS..US and SPACE. *)
Definition is_space (c : ascii) : bool :=
  let n := nat_of_ascii c in
  ((9 <=? n) && (n <=? 13)) || ((28 <=? n) && (n <=? 32)).

Definition lower_char (c : ascii) : ascii :=
  let n := nat_of_ascii c in
  if (65 <=? n) && (n <=? 90) then ascii_of_nat (n + 32) else c.

Fixpoint lower (s : string) : string :=
  match s with
  | EmptyString => EmptyString
  | String c s' => String (lower_char c) (lower s')
  end.

Fixpoint startswith (p s : string) : bool :=
  match p, s with
  | EmptyString, _ => true
  | String a p', String b s' => Ascii.eqb a b && startswith p' s'
  | String _ _, EmptyString => false
  end.

(** [sub in s] *)
Fixpoint contains (sub s : string) : bool :=
  startswith sub s ||
  match s with
  | EmptyString => false
  | String _ s' => contains sub s'
  end.

Fixpoint drop (n : nat) (s : string) : string :=
  match n, s with
  | O, _ => s
  | S n', String _ s' => drop n' s'
  | S _, EmptyString => EmptyString
  end.

Fixpoint take (n : nat) (s : string) : string :=
  match n, s with
  | O, _ => EmptyString
  | S n', String c s' => String c (take n' s')
  | S _, EmptyString => EmptyString
  end.

Definition endswith (suffix s : string) : bool :=
  (String.length suffix <=? String.length s) &&
  String.eqb (drop (String.length s - String.length suffix) s) suffix.

Fixpoint lstrip (s : string) : string :=
  match s with
  | String c s' => if is_space c then lstrip s' else s
  | EmptyString => EmptyString
  end.

Fixpoint rstrip (s : string) : string :=
  match s with
  | EmptyString => EmptyString
  | String c s' =>
      match rstrip s' with
      | EmptyString => if is_space c then EmptyString else String c EmptyString
      | r => String c r
      end
  end.

Definition strip (s : string) : string := rstrip (lstrip s).

(** [sep.join(l)] *)
Fixpoint join (sep : string) (l : list string) : string :=
  match l with
  | [] => EmptyString
  | [x] => x
  | x :: rest => x ++ sep ++ join sep rest
  end.

(** [s.replace(old, new)] for a non-empty [old]: every non-overlapping
    occurrence, scanning from the left.  [skip] counts the characters of
    the occurrence just replaced that are still to be passed over. *)
Fixpoint replace_from (skip : nat) (old new s : string) : string :=
  match s with
  | EmptyString => EmptyString
  | String c s' =>
      match skip with
      | S k => replace_from k old new s'
      | O =>
          if startswith old s
          then new ++ replace_from (String.length old - 1) old new s'
          else String c (replace_from 0 old new s')
      end
  end.

(** With an empty [old] Python puts [new] before every character and at
    the end. *)
Fixpoint replace_empty (new s : string) : string :=
  match s with
  | EmptyString => new
  | String c s' => new ++ String c (replace_empty new s')
  end.

Definition replace (old new s : string) : string :=
  match old with
  | EmptyString => replace_empty new s
  | _ => replace_from 0 old new s
  end.

(** The maximal runs of non-whitespace characters ([\S+]). *)
Fixpoint tokens_from (cur : string) (s : string) : list string :=
  match s with
  | EmptyString => match cur with EmptyString => [] | _ => [cur] end
  | String c s' =>
      if is_space c
      then match cur with
           | EmptyString => tokens_from EmptyString s'
           | _ => cur :: tokens_from EmptyString s'
           end
      else tokens_from (cur ++ String c EmptyString) s'
  end.

Definition tokens (s : string) : list string := tokens_from EmptyString s.

(** Truthiness of a [str]. *)
Definition nonempty (s : string) : bool :=
  match s with EmptyString => false | _ => true end.

Definition digit_char (n : nat) : ascii := ascii_of_nat (48 + n mod 10).

Definition pad2 (n : nat) : string :=
  String (digit_char (n / 10)) (String (digit_char n) EmptyString).

Definition pad4 (n : nat) : string :=
  String (digit_char (n / 1000)) (String (digit_char (n / 100)) (pad2 n)).

End PyStr.

(** ** The fragment of [re] the script uses

    A pattern of the script is a sequence of single-character atoms, each
    with an optional greedy quantifier, wrapped in one capturing group.  The
    script only reads [group(0)], so the group does not change the result. *)

Module Re.

Inductive atom : Type :=
  | Digit              (* \d *)
  | Space              (* \s *)
  | Lit (c : ascii).   (* a literal character *)

Inductive quant : Type :=
  | One | Opt | Star | Plus.

Definition item : Type := (atom * quant)%type.

Definition meta_chars : string := ".^$*+?{}[]|()\".

Definition is_meta (c : ascii) : bool :=
  PyStr.contains (String c EmptyString) meta_chars.

Definition is_quantifier (c : ascii) : option quant :=
  if Ascii.eqb c "*" then Some Star
  else if Ascii.eqb c "+" then Some Plus
  else if Ascii.eqb c "?" then Some Opt
  else None.

Definition escaped_atom (c : ascii) : option atom :=
  if Ascii.eqb c "d" then Some Digit
  else if Ascii.eqb c "s" then Some Space
  else if is_meta c then Some (Lit c)
  else None.

Definition flush (pending : option atom) (rest : option (list item))
  : option (list item) :=
  match pending, rest with
  | _, None => None
  | None, Some l => Some l
  | Some a, Some l => Some ((a, One) :: l)
  end.

(** [re.compile] on the fragment, one character at a time.  [pending] is
    the atom read last, still waiting for a possible quantifier; [escaped]
    says that the previous character was a backslash; [depth] counts the
    open groups.  [None] stands for a pattern outside the fragment (a
    quantified group, an alternation, a class in brackets, an anchor, a
    lazy or stacked quantifier) or one [re] rejects. *)
Fixpoint compile_from (pending : option atom) (escaped : bool) (depth : nat)
  (s : string) : option (list item) :=
  match s with
  | EmptyString =>
      if escaped then None
      else match depth with
           | O => flush pending (Some [])
           | S _ => None
           end
  | String c s' =>
      if escaped then
        match escaped_atom c with
        | Some a => flush pending (compile_from (Some a) false depth s')
        | None => None
        end
      else if Ascii.eqb c "\" then compile_from pending true depth s'
      else match is_quantifier c with
           | Some q =>
               match pending, compile_from None false depth s' with
               | Some a, Some l => Some ((a, q) :: l)
               | _, _ => None
               end
           | None =>
               if Ascii.eqb c "(" then
                 flush pending (compile_from None false (S depth) s')
               else if Ascii.eqb c ")" then
                 match depth with
                 | O => None
                 | S d =>
                     match s' with
                     | String c' _ =>
                         match is_quantifier c' with
                         | Some _ => None
                         | None => flush pending (compile_from None false d s')
                         end
                     | EmptyString => flush pending (compile_from None false d s')
                     end
                 end
               else if is_meta c then None
               else flush pending (compile_from (Some (Lit c)) false depth s')
           end
  end.

Definition compile (pattern : string) : option (list item) :=
  compile_from None false 0 pattern.

Definition atom_matches (ignorecase : bool) (a : atom) (c : ascii) : bool :=
  match a with
  | Digit => PyStr.is_digit c
  | Space => PyStr.is_space c
  | Lit l =>
      if ignorecase
      then Ascii.eqb (PyStr.lower_char l) (PyStr.lower_char c)
      else Ascii.eqb l c
  end.

(** One step of the backtracking matcher: consume a character accepted by
    [a] and go on with [k]. *)
Definition eat (ic : bool) (a : atom) (k : string -> option nat) (s : string)
  : option nat :=
  match s with
  | String c s' => if atom_matches ic a c then option_map S (k s') else None
  | EmptyString => None
  end.

Definition or_else {A} (x y : option A) : option A :=
  match x with Some _ => x | None => y end.

(** Length of the match of [p] at the start of [s], found in the order
    [re] explores: a greedy quantifier first takes one more character and
    gives it back only when the rest of the pattern fails. *)
Fixpoint match_here (ic : bool) (p : list item) (s : string) {struct p}
  : option nat :=
  match p with
  | [] => Some 0
  | (a, q) :: rest =>
      let star :=
        fix star (t : string) {struct t} : option nat :=
          match t with
          | String c t' =>
              or_else
                (if atom_matches ic a c then option_map S (star t') else None)
                (match_here ic rest t)
          | EmptyString => match_here ic rest EmptyString
          end in
      match q with
      | One => eat ic a (match_here ic rest) s
      | Opt => or_else (eat ic a (match_here ic rest) s) (match_here ic rest s)
      | Star => star s
      | Plus => eat ic a star s
      end
  end.

(** The leftmost match: [group(0)] of [re.search], if any. *)
Fixpoint search_items (ic : bool) (p : list item) (s : string) : option string :=
  match match_here ic p s with
  | Some n => Some (PyStr.take n s)
  | None =>
      match s with
      | String _ s' => search_items ic p s'
      | EmptyString => None
      end
  end.

End Re.

(** ** Python values, exceptions and the world *)

Inductive pyval : Type :=
  | PNone
  | PStr (s : string).

(** [bool(v)] *)
Definition truthy (v : pyval) : bool :=
  match v with
  | PNone => false
  | PStr s => PyStr.nonempty s
  end.

Inductive exn : Type :=
  | AttributeError (msg : string)
  | ValueError (msg : string)
  | RequestException (msg : string)
  | ReError (msg : string)
  | OtherException (msg : string).

Definition str_of_exn (e : exn) : string :=
  match e with
  | AttributeError m | ValueError m | RequestException m
  | ReError m | OtherException m => m
  end.

Inductive outcome (A : Type) : Type :=
  | Ok (a : A)
  | Raise (e : exn).
Arguments Ok {A} a.
Arguments Raise {A} e.

(** A Python [dict] with [str] keys: insertion-ordered, one entry per key. *)
Definition dict : Type := list (string * pyval).

Fixpoint dict_set (k : string) (v : pyval) (d : dict) : dict :=
  match d with
  | [] => [(k, v)]
  | (k', v') :: d' =>
      if String.eqb k k' then (k, v) :: d' else (k', v') :: dict_set k v d'
  end.

Fixpoint dict_get (k : string) (d : dict) : option pyval :=
  match d with
  | [] => None
  | (k', v') :: d' => if String.eqb k k' then Some v' else dict_get k d'
  end.

Definition dict_keys (d : dict) : list string := map fst d.

(** [d.get(k)]: [None] for a missing key. *)
Definition dict_get_default (k : string) (d : dict) : pyval :=
  match dict_get k d with
  | Some v => v
  | None => PNone
  end.

Record datetime : Type := {
  year : nat; month : nat; day : nat;
  hour : nat; minute : nat; second : nat
}.

(** [d.strftime('%Y-%m-%d %H:%M:%S')] *)
Definition strftime (d : datetime) : string :=
  (PyStr.pad4 (year d) ++ "-" ++ PyStr.pad2 (month d) ++ "-" ++
   PyStr.pad2 (day d) ++ " " ++ PyStr.pad2 (hour d) ++ ":" ++
   PyStr.pad2 (minute d) ++ ":" ++ PyStr.pad2 (second d))%string.

(** A cell of a worksheet. *)
Inductive cell : Type :=
  | Blank
  | Text (s : string)
  | Number (n : nat).

Definition sheet : Type := list (list cell).

(** A workbook: its sheets by title, in the order of creation. *)
Definition workbook : Type := list (string * sheet).

Record response : Type := {
  status_code : nat;
  content : string
}.

(** The lines the script prints, one constructor per [print]. *)
Inductive message : Type :=
  | HtmlStructureIssue (e : string)
  | ExtractionError (e : string)
  | SavedJobs (n : nat) (filename : string)
  | SaveError (e : string)
  | NoJobsFound
  | DataCompleteness (complete total : nat)
  | LowCompletionRate
  | StartingScrape
  | PaginationDetected
  | FutureMultiPage
  | NoPaginationDetected
  | NoJobSections
  | FoundPostings (n : nat)
  | ProcessingJob (i n : nat)
  | SkippedJob (i : nat)
  | ExtractedJobs (k n : nat)
  | ValidationConcerns
  | ScrapingCompleted
  | FileSavedAs (filename : string)
  | TotalJobsScraped (n : nat)
  | NoJobDataExtracted
  | ErrorFetching (e : string)
  | CheckConnection
  | UnexpectedError (e : string).

(** What the script reads and writes outside itself. *)
Record world : Type := {
  clock : nat -> datetime;        (* the n-th reading of the wall clock *)
  ticks : nat;                    (* readings taken so far *)
  stdout : list message;
  files : list (string * workbook);   (* the files written, latest first *)
  http_get : string -> outcome response   (* what a GET of a URL gives *)
}.

(** ** Computations: state and exceptions *)

Definition io (A : Type) : Type := world -> outcome A * world.

Definition ret {A} (a : A) : io A := fun w => (Ok a, w).

Definition bind {A B} (c : io A) (k : A -> io B) : io B :=
  fun w =>
    match c w with
    | (Ok a, w') => k a w'
    | (Raise e, w') => (Raise e, w')
    end.

Definition raise {A} (e : exn) : io A := fun w => (Raise e, w).

Definition lift {A} (o : outcome A) : io A := fun w => (o, w).

(** [try: c  except Exception as e: h e] *)
Definition try_except {A} (c : io A) (h : exn -> io A) : io A :=
  fun w =>
    match c w with
    | (Ok a, w') => (Ok a, w')
    | (Raise e, w') => h e w'
    end.

Notation "x <- c ;; k" := (bind c (fun x => k))
  (at level 61, c at next level, right associativity).
Notation "c ;;; k" := (bind c (fun _ => k))
  (at level 61, right associativity).

Definition print (m : message) : io unit :=
  fun w =>
    (Ok tt, {| clock := clock w; ticks := ticks w;
               stdout := stdout w ++ [m]; files := files w;
               http_get := http_get w |}).

(** [datetime.now()] *)
Definition datetime_now : io datetime :=
  fun w =>
    (Ok (clock w (ticks w)),
     {| clock := clock w; ticks := S (ticks w);
        stdout := stdout w; files := files w; http_get := http_get w |}).

Definition write_file (name : string) (wb : workbook) : io unit :=
  fun w =>
    (Ok tt, {| clock := clock w; ticks := ticks w; stdout := stdout w;
               files := (name, wb) :: files w; http_get := http_get w |}).

(** [requests.get(url, ...)] followed by [raise_for_status()]. *)
Definition requests_get (url : string) : io response :=
  fun w =>
    match http_get w url with
    | Ok r =>
        if (400 <=? status_code r) && (status_code r <? 600)
        then (Raise (RequestException "HTTPError"), w)
        else (Ok r, w)
    | Raise e => (Raise e, w)
    end.

(** ** BeautifulSoup as an interface *)

(** The keyword filters the script passes to [find] and [find_all]. *)
Inductive selector : Type :=
  | Any
  | ClassIs (c : string)                          (* class_='...' *)
  | StringIs (p : option string -> bool)          (* string=... *)
  | AttrIs (a : string) (p : option string -> bool). (* href=lambda ... *)

(** [string='lit'] *)
Definition equals (lit : string) (text : option string) : bool :=
  match text with
  | Some t => String.eqb t lit
  | None => false
  end.

(** [lambda text: text and p(text)] *)
Definition and_then (p : string -> bool) (text : option string) : bool :=
  match text with
  | Some t => PyStr.nonempty t && p t
  | None => false
  end.

Class Soup (tag : Type) : Type := {
  BeautifulSoup : string -> outcome tag;
  find : tag -> string -> selector -> outcome (option tag);
  find_all : tag -> string -> selector -> outcome (list tag);
  get_text : tag -> bool -> outcome string;    (* the flag is [strip] *)
  get : tag -> string -> outcome pyval;
  parent : tag -> outcome (option tag);
  find_next_sibling : tag -> string -> outcome (option tag)
}.

Definition BASE_URL : string := "https://techversantinfotech.com/talent/".

Definition experience_patterns : list string :=
  [ "(\d+\+?\s*years?\s*of\s*experience)";
    "(Minimum\s*of\s*\d+\s*years)";
    "(\d+\+\s*years?\s*in)";
    "(minimum\s*\d+\s*years)" ].

Definition skills_keywords : list string :=
  [ "Preferred Skills"; "Required Skills"; "Must-Have Skills";
    "Technical Stack" ].

(** [re.search(pattern, text, re.IGNORECASE)], reduced to [group(0)]. *)
Definition re_search (pattern text : string) : outcome (option string) :=
  match Re.compile pattern with
  | Some p => Ok (Re.search_items true p text)
  | None => Raise (ReError "unsupported pattern")
  end.

(** The [for pattern in experience_patterns: ... break] loop. *)
Fixpoint first_experience (patterns : list string) (full_text : string)
  : outcome (option string) :=
  match patterns with
  | [] => Ok None
  | pattern :: rest =>
      match re_search pattern full_text with
      | Raise e => Raise e
      | Ok (Some m) => Ok (Some m)
      | Ok None => first_experience rest full_text
      end
  end.

(** [x if x else ''] for an optional string. *)
Definition or_empty (x : option string) : string :=
  match x with
  | Some s => s
  | None => EmptyString
  end.

Section Extractor.

Context {tag : Type} {lib : Soup tag}.

(** [o.m(...)] where [o] may be [None]. *)
Definition on_object {A} (attr : string) (o : option tag)
  (m : tag -> outcome A) : io A :=
  match o with
  | Some t => lift (m t)
  | None =>
      raise (AttributeError
               ("'NoneType' object has no attribute '" ++ attr ++ "'"))
  end.

(** [elem.get_text(strip=True) if elem else ''] *)
Definition text_or_empty (elem : option tag) : io pyval :=
  match elem with
  | Some e => t <- lift (get_text e true) ;; ret (PStr t)
  | None => ret (PStr EmptyString)
  end.

(** [button.get(attr) if button else ''] *)
Definition attr_or_empty (elem : option tag) (attr : string) : io pyval :=
  match elem with
  | Some e => lift (get e attr)
  | None => ret (PStr EmptyString)
  end.

(** The paragraph after the block that holds the heading [label]. *)
Definition paragraph_after (job_section : tag) (label : string) : io pyval :=
  heading <- lift (find job_section "strong" (StringIs (equals label))) ;;
  match heading with
  | Some h =>
      p <- lift (parent h) ;;
      para <- on_object "find_next_sibling" p
                (fun p => find_next_sibling p "p") ;;
      text_or_empty para
  | None => ret (PStr EmptyString)
  end.

Fixpoint texts_of (items : list tag) : io (list string) :=
  match items with
  | [] => ret []
  | li :: rest =>
      t <- lift (get_text li true) ;;
      ts <- texts_of rest ;;
      ret (t :: ts)
  end.

(** The body of [for skills_section in skills_sections]. *)
Fixpoint collect_skills (skills_sections : list tag) (all_skills : list string)
  : io (list string) :=
  match skills_sections with
  | [] => ret all_skills
  | skills_section :: rest =>
      p <- lift (parent skills_section) ;;
      skills_list <- on_object "find_next_sibling" p
                       (fun p => find_next_sibling p "ul") ;;
      match skills_list with
      | Some ul =>
          lis <- lift (find_all ul "li" Any) ;;
          skills <- texts_of lis ;;
          collect_skills rest (all_skills ++ skills)
      | None => collect_skills rest all_skills
      end
  end.

Definition is_skills_text (text : option string) : bool :=
  and_then (fun t => existsb (fun keyword => PyStr.contains keyword t)
                       skills_keywords) text.

Definition has_mailto (href : option string) : bool :=
  and_then (PyStr.contains "mailto:") href.

(** [v.replace(old, new)] on the result of [tag.get]. *)
Definition py_replace (old new : string) (v : pyval) : io pyval :=
  match v with
  | PStr s => ret (PStr (PyStr.replace old new s))
  | PNone =>
      raise (AttributeError "'NoneType' object has no attribute 'replace'")
  end.

(** The [try] block of [extract_job_data] (scrape.py, lines 19-97). *)
Definition extract_fields (job_section : tag) : io dict :=
  let job_data : dict := [] in
  job_title_elem <- lift (find job_section "h3" (ClassIs "crr_app_hh")) ;;
  v <- text_or_empty job_title_elem ;;
  let job_data := dict_set "JobTitle" v job_data in
  job_category_elem <-
    lift (find job_section "span" (ClassIs "crr_app_tp bluecrr")) ;;
  v <- text_or_empty job_category_elem ;;
  let job_data := dict_set "JobCategory" v job_data in
  location_elem <- lift (find job_section "span" (ClassIs "crr_app_plc")) ;;
  v <- text_or_empty location_elem ;;
  let job_data := dict_set "Location" v job_data in
  apply_button <- lift (find job_section "a" (ClassIs "crr_app_nw")) ;;
  v <- attr_or_empty apply_button "href" ;;
  let job_data := dict_set "JobURL" v job_data in
  v <- attr_or_empty apply_button "datatitle" ;;
  let job_data := dict_set "JobID" v job_data in
  posting_date_elem <-
    lift (find job_section "p"
            (StringIs (and_then (PyStr.contains "Posted on")))) ;;
  v <- text_or_empty posting_date_elem ;;
  let job_data := dict_set "PostingDate" v job_data in
  v <- paragraph_after job_section "What's important to us:" ;;
  let job_data := dict_set "JobDescriptionSummary" v job_data in
  full_text <- lift (get_text job_section false) ;;
  experience_found <- lift (first_experience experience_patterns full_text) ;;
  let job_data :=
    dict_set "ExperienceRequired"
      (PStr (match experience_found with
             | Some m => if PyStr.nonempty m then m else EmptyString
             | None => EmptyString
             end)) job_data in
  skills_sections <-
    lift (find_all job_section "strong" (StringIs is_skills_text)) ;;
  all_skills <- collect_skills skills_sections [] ;;
  let job_data :=
    dict_set "SkillsRequired"
      (PStr (match all_skills with
             | [] => EmptyString
             | _ => PyStr.join "; " all_skills
             end)) job_data in
  email_link <- lift (find job_section "a" (AttrIs "href" has_mailto)) ;;
  v <- match email_link with
       | Some a => href <- lift (get a "href") ;;
                   py_replace "mailto:" EmptyString href
       | None => ret (PStr EmptyString)
       end ;;
  let job_data := dict_set "ContactEmail" v job_data in
  v <- paragraph_after job_section "What Company Offers:" ;;
  let job_data := dict_set "CompanyBenefits" v job_data in
  let job_data := dict_set "Salary" (PStr EmptyString) job_data in
  now <- datetime_now ;;
  let job_data := dict_set "ScrapedDate" (PStr (strftime now)) job_data in
  let job_data := dict_set "SourceURL" (PStr BASE_URL) job_data in
  ret job_data.

(** [extract_job_data] (lines 16-107): the record, or [None] for a posting
    to skip. *)
Definition extract_job_data (job_section : tag) : io (option dict) :=
  try_except
    (job_data <- extract_fields job_section ;; ret (Some job_data))
    (fun e =>
       match e with
       | AttributeError m => print (HtmlStructureIssue m) ;;; ret None
       | _ => print (ExtractionError (str_of_exn e)) ;;; ret None
       end).

End Extractor.

(** ** pandas: the part of [DataFrame] the exporter uses *)

(** A value of an [object] column. [NaN] fills a key that a record lacks. *)
Inductive dfval : Type :=
  | NaN
  | VNone
  | VStr (s : string).

Record DataFrame : Type := {
  columns : list string;
  rows : list (list dfval)
}.

Definition mem (k : string) (l : list string) : bool :=
  existsb (String.eqb k) l.

Fixpoint add_new (acc ks : list string) : list string :=
  match ks with
  | [] => acc
  | k :: rest => add_new (if mem k acc then acc else acc ++ [k]) rest
  end.

Definition dfval_of (v : option pyval) : dfval :=
  match v with
  | None => NaN
  | Some PNone => VNone
  | Some (PStr s) => VStr s
  end.

(** [pd.DataFrame(jobs_data)]: the columns are the keys in the order of
    their first appearance. *)
Definition DataFrame_of_records (jobs_data : list dict) : DataFrame :=
  let cols := fold_left (fun acc d => add_new acc (dict_keys d)) jobs_data [] in
  {| columns := cols;
     rows := map (fun d => map (fun c => dfval_of (dict_get c d)) cols)
               jobs_data |}.

Fixpoint value_at (c : string) (cols : list string) (row : list dfval) : dfval :=
  match cols, row with
  | c' :: cols', v :: row' => if String.eqb c c' then v else value_at c cols' row'
  | _, _ => NaN
  end.

(** [df[cols]] *)
Definition select (df : DataFrame) (cols : list string) : DataFrame :=
  {| columns := cols;
     rows := map (fun row => map (fun c => value_at c (columns df) row) cols)
               (rows df) |}.

Definition empty_to_None (v : dfval) : dfval :=
  match v with
  | VStr EmptyString => VNone
  | _ => v
  end.

(** [df.replace('', None)], as pandas reads it since an explicit [None]
    is a value: every empty string becomes [None]. *)
Definition replace_empty_with_None (df : DataFrame) : DataFrame :=
  {| columns := columns df;
     rows := map (map empty_to_None) (rows df) |}.

(** [len(df)] *)
Definition len (df : DataFrame) : nat := List.length (rows df).

(** [df[c]] as the list of its values. *)
Definition column (df : DataFrame) (c : string) : list dfval :=
  map (value_at c (columns df)) (rows df).

Definition cell_of (v : dfval) : cell :=
  match v with
  | VStr s => Text s
  | NaN | VNone => Blank
  end.

(** [df.to_excel(writer, sheet_name=..., index=False)]: the header, then
    one row per row of the frame. *)
Definition to_excel (df : DataFrame) : sheet :=
  map Text (columns df) :: map (map cell_of) (rows df).

Fixpoint non_null (vals : list dfval) : list string :=
  match vals with
  | [] => []
  | VStr s :: rest => s :: non_null rest
  | _ :: rest => non_null rest
  end.

Fixpoint distinct (l : list string) : list string :=
  match l with
  | [] => []
  | x :: rest => x :: filter (fun y => negb (String.eqb x y)) (distinct rest)
  end.

Definition occurrences (x : string) (l : list string) : nat :=
  List.length (filter (String.eqb x) l).

Fixpoint insert_by_count (x : string * nat) (l : list (string * nat))
  : list (string * nat) :=
  match l with
  | [] => [x]
  | y :: rest =>
      if snd y <=? snd x then x :: y :: rest else y :: insert_by_count x rest
  end.

(** [Series.value_counts()]: the distinct non-null values with the number
    of their occurrences, most frequent first; values with equal counts
    stay in the order of their first appearance. *)
Definition value_counts (vals : list dfval) : list (string * nat) :=
  let present := non_null vals in
  fold_right insert_by_count []
    (map (fun v => (v, occurrences v present)) (distinct present)).

(** ** The exporter *)

Definition column_order : list string :=
  [ "JobTitle"; "JobCategory"; "Location"; "ExperienceRequired";
    "PostingDate"; "JobDescriptionSummary"; "SkillsRequired";
    "ContactEmail"; "CompanyBenefits"; "Salary"; "JobURL";
    "JobID"; "ScrapedDate"; "SourceURL" ].

Definition breakdown (df : DataFrame) (c : string) : list (list cell) :=
  if mem c (columns df)
  then map (fun kv => [Text ("  " ++ fst kv); Number (snd kv)])
         (value_counts (column df c))
  else [].

(** The rows that [create_summary_sheet] collects in [summary_data]; [now]
    is the capture time. *)
Definition summary_data (df : DataFrame) (now : datetime) : sheet :=
  [ [Text "Metric"; Text "Value"];
    [Text "Total Jobs"; Number (len df)];
    [Text "Scraping Date"; Text (strftime now)];
    [Text "Source"; Text "Techversant Infotech"];
    [Text "Source URL"; Text BASE_URL];
    [Text EmptyString];
    [Text "Jobs by Category"; Text EmptyString] ]
  ++ breakdown df "JobCategory"
  ++ [ [Text EmptyString];
       [Text "Jobs by Location"; Text EmptyString] ]
  ++ breakdown df "Location".

(** [create_summary_sheet] (lines 220-277): a new sheet titled Summary
    with those rows. *)
Definition create_summary_sheet (wb : workbook) (df : DataFrame) : io workbook :=
  now <- datetime_now ;;
  ret (wb ++ [("Summary", summary_data df now)]).

(** [[col for col in column_order if col in df.columns]] *)
Definition existing_columns (df : DataFrame) : list string :=
  filter (fun col => mem col (columns df)) column_order.

(** The frame that is written: the records as a frame, its columns in the
    fixed order, its empty strings turned into blanks. *)
Definition prepare_frame (jobs_data : list dict) : DataFrame :=
  let df := DataFrame_of_records jobs_data in
  let df := select df (existing_columns df) in
  replace_empty_with_None df.

(** [save_jobs_to_excel(jobs_data, filename)] (lines 123-176).  The file
    is written when the [with pd.ExcelWriter(...)] block is left. *)
Definition save_jobs_to_excel (jobs_data : list dict) (filename : option string)
  : io string :=
  match jobs_data with
  | [] => raise (ValueError "No job data provided to save")
  | _ =>
      let filename :=
        match filename with
        | None => "Techversant_Jobs.xlsx"
        | Some f => f
        end in
      let filename :=
        if PyStr.endswith ".xlsx" filename then filename
        else (filename ++ ".xlsx")%string in
      try_except
        (let df := prepare_frame jobs_data in
         let wb : workbook := [("Jobs", to_excel df)] in
         wb <- create_summary_sheet wb df ;;
         write_file filename wb ;;;
         print (SavedJobs (List.length jobs_data) filename) ;;;
         ret filename)
        (fun e => print (SaveError (str_of_exn e)) ;;; raise e)
  end.

(** ** The validator *)

Definition essential_fields : list string :=
  [ "JobTitle"; "JobCategory"; "Location" ].

(** [all(job.get(field) for field in essential_fields)] *)
Definition is_complete (job : dict) : bool :=
  forallb (fun field => truthy (dict_get_default field job)) essential_fields.

Definition complete_jobs (jobs_data : list dict) : nat :=
  List.length (filter is_complete jobs_data).

(** [(complete_jobs / len(jobs_data)) * 100], in exact arithmetic. *)
Definition completion_rate (jobs_data : list dict) : Q :=
  ((inject_Z (Z.of_nat (complete_jobs jobs_data)) /
    inject_Z (Z.of_nat (List.length jobs_data))) * inject_Z 100)%Q.

Definition Qltb (x y : Q) : bool := negb (Qle_bool y x).

(** [validate_scraped_data] (lines 279-299) *)
Definition validate_scraped_data (jobs_data : list dict) : io bool :=
  match jobs_data with
  | [] => print NoJobsFound ;;; ret false
  | _ =>
      print (DataCompleteness (complete_jobs jobs_data) (List.length jobs_data)) ;;;
      if Qltb (completion_rate jobs_data) (inject_Z 80)
      then print LowCompletionRate ;;; ret false
      else ret true
  end.

(** ** The run *)

Definition pagination_words : list string :=
  [ "next"; "more"; "»"; ">"; "page" ].

Definition is_some {A} (o : option A) : bool :=
  match o with Some _ => true | None => false end.

Section Run.

Context {tag : Type} {lib : Soup tag}.

(** [check_pagination] (lines 109-121); a [Tag] is always true. *)
Definition check_pagination (soup : tag) : io bool :=
  i1 <- lift (find soup "div" (ClassIs "pagination")) ;;
  i2 <- lift (find soup "nav" (ClassIs "pagination")) ;;
  i3 <- lift (find soup "div" (ClassIs "pager")) ;;
  i4 <- lift (find soup "ul" (ClassIs "pagination")) ;;
  i5 <- lift (find soup "a"
                (StringIs (and_then (fun text =>
                   existsb (fun word => PyStr.contains word (PyStr.lower text))
                     pagination_words)))) ;;
  i6 <- lift (find soup "button"
                (StringIs (and_then (fun text =>
                   PyStr.contains "load more" (PyStr.lower text))))) ;;
  let pagination_indicators := [i1; i2; i3; i4; i5; i6] in
  ret (existsb is_some pagination_indicators).

(** [for i, job_section in enumerate(job_sections, 1)], with [n] the
    number of sections found.  [if job_data:] holds for a [dict] that is
    not empty. *)
Fixpoint extract_all (job_sections : list tag) (i n : nat)
  (jobs_data : list dict) (successful_extractions : nat)
  : io (list dict * nat) :=
  match job_sections with
  | [] => ret (jobs_data, successful_extractions)
  | job_section :: rest =>
      print (ProcessingJob i n) ;;;
      job_data <- extract_job_data job_section ;;
      match job_data with
      | Some ((_ :: _) as d) =>
          extract_all rest (S i) n (jobs_data ++ [d]) (S successful_extractions)
      | _ =>
          print (SkippedJob i) ;;;
          extract_all rest (S i) n jobs_data successful_extractions
      end
  end.

(** The first half of the [try] block of [scrape_jobs]: fetch, parse, look
    for pagination, find the posting sections. *)
Definition fetch_sections : io (list tag) :=
  print StartingScrape ;;;
  response <- requests_get BASE_URL ;;
  soup <- lift (BeautifulSoup (content response)) ;;
  has_pagination <- check_pagination soup ;;
  (if has_pagination
   then print PaginationDetected ;;; print FutureMultiPage
   else print NoPaginationDetected) ;;;
  lift (find_all soup "section" (ClassIs "crr_app_stt")).

(** The second half: extract, validate, save. *)
Definition process_sections (job_sections : list tag) : io (option string) :=
  match job_sections with
  | [] => print NoJobSections ;;; ret None
  | _ =>
      print (FoundPostings (List.length job_sections)) ;;;
      r <- extract_all job_sections 1 (List.length job_sections) [] 0 ;;
      let jobs_data := fst r in
      let successful_extractions := snd r in
      print (ExtractedJobs successful_extractions (List.length job_sections)) ;;;
      healthy <- validate_scraped_data jobs_data ;;
      (if healthy then ret tt else print ValidationConcerns) ;;;
      match jobs_data with
      | _ :: _ =>
          filename <- save_jobs_to_excel jobs_data None ;;
          print ScrapingCompleted ;;;
          print (FileSavedAs filename) ;;;
          print (TotalJobsScraped (List.length jobs_data)) ;;;
          ret (Some filename)
      | [] => print NoJobDataExtracted ;;; ret None
      end
  end.

(** [scrape_jobs] (lines 301-373) *)
Definition scrape_jobs : io (option string) :=
  try_except
    (job_sections <- fetch_sections ;; process_sections job_sections)
    (fun e =>
       match e with
       | RequestException m =>
           print (ErrorFetching m) ;;; print CheckConnection ;;; ret None
       | _ => print (UnexpectedError (str_of_exn e)) ;;; ret None
       end).

End Run.

(** ** BeautifulSoup on a document tree *)

Module Tree.

#[warnings="-register-all"]
Inductive node : Type :=
  | NavigableString (s : string)
  | Tag (name : string) (attrs : list (string * string)) (contents : list node).

(** An element of a document: the node, its following siblings and the
    element that holds it. *)
#[warnings="-register-all"]
Inductive element : Type :=
  | At (n : node) (following : list node) (up : option element).

Definition node_of (e : element) : node :=
  match e with At n _ _ => n end.

Definition following_of (e : element) : list node :=
  match e with At _ f _ => f end.

Definition up_of (e : element) : option element :=
  match e with At _ _ u => u end.

(** The elements below [n], in document order; [here] is [n]'s element. *)
Fixpoint below (n : node) (here : element) {struct n} : list element :=
  match n with
  | NavigableString _ => []
  | Tag _ _ contents =>
      (fix each (l : list node) : list element :=
         match l with
         | [] => []
         | c :: rest =>
             let child := At c rest (Some here) in
             child :: below c child ++ each rest
         end) contents
  end.

Definition descendants (e : element) : list element :=
  below (node_of e) e.

(** [tag.string]: the only string below a chain of only children. *)
Fixpoint string_of (n : node) : option string :=
  match n with
  | NavigableString s => Some s
  | Tag _ _ [c] => string_of c
  | Tag _ _ _ => None
  end.

Fixpoint lookup (a : string) (attrs : list (string * string)) : option string :=
  match attrs with
  | [] => None
  | (k, v) :: rest => if String.eqb a k then Some v else lookup a rest
  end.

Definition attr (a : string) (n : node) : option string :=
  match n with
  | Tag _ attrs _ => lookup a attrs
  | NavigableString _ => None
  end.

Definition has_name (name : string) (n : node) : bool :=
  match n with
  | Tag nm _ _ => String.eqb nm name
  | NavigableString _ => false
  end.

(** A class filter accepts a tag when one of its classes, or the whole
    class list joined by spaces, is the wanted string. *)
Definition satisfies (sel : selector) (n : node) : bool :=
  match sel with
  | Any => true
  | ClassIs c =>
      match attr "class" n with
      | Some v =>
          let classes := PyStr.tokens v in
          mem c classes || String.eqb (PyStr.join " " classes) c
      | None => false
      end
  | StringIs p => p (string_of n)
  | AttrIs a p => p (attr a n)
  end.

Definition selects (name : string) (sel : selector) (e : element) : bool :=
  has_name name (node_of e) && satisfies sel (node_of e).

(** The strings below [n], in document order. *)
Fixpoint strings (n : node) : list string :=
  match n with
  | NavigableString s => [s]
  | Tag _ _ contents =>
      (fix each (l : list node) : list string :=
         match l with
         | [] => []
         | c :: rest => strings c ++ each rest
         end) contents
  end.

Definition text (strip : bool) (n : node) : string :=
  if strip
  then String.concat EmptyString
         (filter PyStr.nonempty (map PyStr.strip (strings n)))
  else String.concat EmptyString (strings n).

Fixpoint next_named (name : string) (l : list node) (up : option element)
  : option element :=
  match l with
  | [] => None
  | n :: rest =>
      if has_name name n then Some (At n rest up) else next_named name rest up
  end.

(** The document the parser builds from a page. *)
Definition document (contents : list node) : element :=
  At (Tag "[document]" [] contents) [] None.

End Tree.

Arguments Tree.text : simpl never.
Arguments Tree.descendants : simpl never.

(** Induction over a document tree. *)
Section NodeInduction.

Variable P : Tree.node -> Prop.
Hypothesis P_string : forall s, P (Tree.NavigableString s).
Hypothesis P_tag :
  forall name attrs contents, Forall P contents -> P (Tree.Tag name attrs contents).

Fixpoint node_induction (n : Tree.node) : P n :=
  match n with
  | Tree.NavigableString s => P_string s
  | Tree.Tag name attrs contents =>
      P_tag name attrs contents
        ((fix each (l : list Tree.node) : Forall P l :=
            match l with
            | [] => Forall_nil P
            | c :: rest => Forall_cons c (node_induction c) (each rest)
            end) contents)
  end.

End NodeInduction.

(** The library on document trees; [html_parser] gives the top-level nodes
    of a page.  No call raises. *)
Instance tree_soup (html_parser : string -> list Tree.node)
  : Soup Tree.element := {
  BeautifulSoup markup := Ok (Tree.document (html_parser markup));
  find e name sel :=
    Ok (List.find (Tree.selects name sel) (Tree.descendants e));
  find_all e name sel :=
    Ok (filter (Tree.selects name sel) (Tree.descendants e));
  get_text e strip := Ok (Tree.text strip (Tree.node_of e));
  get e a :=
    Ok (match Tree.attr a (Tree.node_of e) with
        | Some v => PStr v
        | None => PNone
        end);
  parent e := Ok (Tree.up_of e);
  find_next_sibling e name :=
    Ok (Tree.next_named name (Tree.following_of e) (Tree.up_of e))
}.

(** The same library over elements that have lost the link to their
    parent: [tag.parent] is [None]. *)
Definition orphan_soup (html_parser : string -> list Tree.node)
  : Soup Tree.element := {|
  BeautifulSoup := BeautifulSoup (Soup := tree_soup html_parser);
  find := find (Soup := tree_soup html_parser);
  find_all := find_all (Soup := tree_soup html_parser);
  get_text := get_text (Soup := tree_soup html_parser);
  get := get (Soup := tree_soup html_parser);
  parent := fun _ => Ok None;
  find_next_sibling := find_next_sibling (Soup := tree_soup html_parser)
|}.

(** ** The extraction rules in the words of the specification

    These definitions restate, on a document tree, what the specification
    says about three fields.  They are compared with [extract_job_data]
    below. *)

Module Rules.

Import Tree.

(** A heading: a [strong] element with a [string]; [wanted] decides on its
    text. *)
Definition is_heading (wanted : string -> bool) (e : element) : bool :=
  has_name "strong" (node_of e) &&
  match string_of (node_of e) with
  | Some t => wanted t
  | None => false
  end.

(** The heading text "equals one of" the keywords. *)
Definition equals_keyword (t : string) : bool :=
  existsb (String.eqb t) skills_keywords.

(** The heading text contains one of the keywords. *)
Definition contains_keyword (t : string) : bool :=
  existsb (fun keyword => PyStr.contains keyword t) skills_keywords.

(** The navigation of the extractor: the stripped text of every [li] below
    the first [ul] among the following siblings of [h]'s parent; nothing
    when [h] has no parent or its parent has no such sibling. *)
Definition items_after (h : element) : list string :=
  match up_of h with
  | Some p =>
      match next_named "ul" (following_of p) (up_of p) with
      | Some ul =>
          map (fun li => text true (node_of li))
            (filter (selects "li" Any) (descendants ul))
      | None => []
      end
  | None => []
  end.

(** The items of a list: the stripped text of its [li] elements. *)
Definition items_of (ul : element) : list string :=
  map (fun li => text true (node_of li))
    (filter (selects "li" Any) (descendants ul)).

(** The words of the specification, "for each heading, the following
    list's items": for every wanted heading among [elements], the items
    of the first list that comes after it, in document order. *)
Fixpoint items_following (wanted : string -> bool) (elements : list element)
  : list string :=
  match elements with
  | [] => []
  | e :: rest =>
      (if is_heading wanted e
       then match List.find (fun x => has_name "ul" (node_of x)) rest with
            | Some ul => items_of ul
            | None => []
            end
       else [])
      ++ items_following wanted rest
  end.

(** The skills of a section as the specification words them. *)
Definition stated_skills (wanted : string -> bool) (section : element)
  : list string :=
  items_following wanted (descendants section).

(** The items after every wanted heading of the section, in document
    order. *)
Definition skills_items (wanted : string -> bool) (section : element)
  : list string :=
  flat_map items_after (filter (is_heading wanted) (descendants section)).

(** A link whose [href] contains [mailto:]. *)
Definition is_mailto_link (e : element) : bool :=
  has_name "a" (node_of e) &&
  match attr "href" (node_of e) with
  | Some href => PyStr.contains "mailto:" href
  | None => false
  end.

(** "strip that prefix": the string without a leading [prefix]. *)
Definition strip_prefix (prefix s : string) : string :=
  if PyStr.startswith prefix s then PyStr.drop (String.length prefix) s else s.

End Rules.

(** ** Sample pages *)

Module Samples.

Import Tree.

Definition section_of (contents : list node) : node :=
  Tag "section" [("class", "crr_app_stt")] contents.

Definition heading (label : string) : node :=
  Tag "p" [] [Tag "strong" [] [NavigableString label]].

Definition bullets (items : list string) : node :=
  Tag "ul" [] (map (fun i => Tag "li" [] [NavigableString i]) items).

(** A posting with nothing in it. *)
Definition empty_posting : node := section_of [].

Definition experience_posting : node :=
  section_of [Tag "p" [] [NavigableString "5+ years of experience required"]].

(** The second pattern matches earlier and longer; the first one wins. *)
Definition two_patterns_posting : node :=
  section_of
    [Tag "p" [] [NavigableString "Minimum of 10 years; 3yearofexperience"]].

(** The text is in capitals; the second pattern is written with a capital
    M and small letters. *)
Definition shouting_posting : node :=
  section_of [Tag "p" [] [NavigableString "MINIMUM OF 4 YEARS in QA"]].

Definition skills_posting : node :=
  section_of [ heading "Required Skills"; bullets ["A"; "B"];
               heading "Technical Stack"; bullets ["C"] ].

(** The heading text contains a keyword without being equal to one. *)
Definition colon_heading_posting : node :=
  section_of [ heading "Required Skills:"; bullets ["Python"] ].

(** The heading stands directly in the section, its list right after it. *)
Definition direct_heading_posting : node :=
  section_of
    [ Tag "strong" [] [NavigableString "Required Skills"];
      bullets ["A"; "B"] ].

(** No list follows the skills heading's paragraph directly; the next list
    among the siblings belongs to another heading. *)
Definition later_list_posting : node :=
  section_of
    [ heading "Required Skills";
      Tag "div" [] [NavigableString "Ask us"];
      heading "What Company Offers:";
      bullets ["Free lunch"] ].

Definition mailto_posting : node :=
  section_of
    [Tag "a" [("href", "mailto:hr@x.com?cc=mailto:boss@x.com")]
       [NavigableString "Write to us"]].

Definition plain_mailto_posting : node :=
  section_of
    [ Tag "a" [("href", "/jobs")] [NavigableString "All jobs"];
      Tag "a" [("href", "mailto:hr@x.com")] [NavigableString "Write to us"] ].

(** An apply link without [href] and without [datatitle]. *)
Definition bare_apply_posting : node :=
  section_of [Tag "a" [("class", "crr_app_nw")] [NavigableString "Apply"]].

Definition complete_posting (category location : string) : node :=
  section_of
    [ Tag "h3" [("class", "crr_app_hh")] [NavigableString "Developer"];
      Tag "span" [("class", "crr_app_tp bluecrr")] [NavigableString category];
      Tag "span" [("class", "crr_app_plc")] [NavigableString location] ].

(** A posting with every part the extractor looks for. *)
Definition full_posting : node :=
  section_of
    [ Tag "h3" [("class", "crr_app_hh")] [NavigableString " Senior Developer "];
      Tag "span" [("class", "crr_app_tp bluecrr")] [NavigableString "Engineering"];
      Tag "span" [("class", "crr_app_plc")] [NavigableString "Kochi"];
      Tag "p" [] [NavigableString "Posted on 1 June"];
      heading "What's important to us:";
      Tag "p" [] [NavigableString "Minimum of 4 years in backend work."];
      heading "Must-Have Skills";
      bullets ["Python"; " SQL "];
      heading "What Company Offers:";
      Tag "p" [] [NavigableString "Health cover"];
      Tag "a" [("href", "mailto:jobs@example.com")] [NavigableString "Mail us"];
      Tag "a" [("class", "crr_app_nw"); ("href", "/apply/42");
               ("datatitle", "JOB-42")] [NavigableString "Apply"] ].

(** With [orphan_soup] the labelled heading makes the extraction fail. *)
Definition benefits_posting : node :=
  section_of [ heading "What Company Offers:";
               Tag "p" [] [NavigableString "Health cover"] ].

Definition at_top (n : node) : element := At n [] None.

Definition noon : datetime :=
  {| year := 2025; month := 6; day := 1; hour := 12; minute := 0; second := 0 |}.

(** A world in which the page is served. *)
Definition online : world :=
  {| clock := fun _ => noon; ticks := 0; stdout := []; files := [];
     http_get := fun _ => Ok {| status_code := 200; content := "<html>" |} |}.

Definition page (sections : list node) : string -> list node :=
  fun _ => sections.

(** A world in which the page is gone. *)
Definition not_found : world :=
  {| clock := fun _ => noon; ticks := 0; stdout := []; files := [];
     http_get := fun _ => Ok {| status_code := 404; content := EmptyString |} |}.

End Samples.

(** ** What the extractor reads off a document tree

    The record of a posting as a function of its section and of the capture
    time, field by field as [extract_job_data] assigns them. *)

Module OnTree.

Import Tree.

Definition first_selected (name : string) (sel : selector) (section : element)
  : option element :=
  List.find (selects name sel) (descendants section).

(** [elem.get_text(strip=True) if elem else ''] *)
Definition text_of (elem : option element) : string :=
  match elem with
  | Some e => text true (node_of e)
  | None => EmptyString
  end.

(** [button.get(a) if button else ''] *)
Definition attr_of (elem : option element) (a : string) : pyval :=
  match elem with
  | Some e =>
      match attr a (node_of e) with
      | Some v => PStr v
      | None => PNone
      end
  | None => PStr EmptyString
  end.

(** The paragraph after the block that holds the heading [label]. *)
Definition paragraph_text (section : element) (label : string) : string :=
  match first_selected "strong" (StringIs (equals label)) section with
  | Some h =>
      match up_of h with
      | Some p => text_of (next_named "p" (following_of p) (up_of p))
      | None => EmptyString
      end
  | None => EmptyString
  end.

Definition experience_of (full_text : string) : string :=
  match first_experience experience_patterns full_text with
  | Ok (Some m) => m
  | _ => EmptyString
  end.

Definition email_of (section : element) : string :=
  match List.find Rules.is_mailto_link (descendants section) with
  | Some a =>
      PyStr.replace "mailto:" EmptyString (or_empty (attr "href" (node_of a)))
  | None => EmptyString
  end.

Definition posting_record (section : element) (now : datetime) : dict :=
  let apply_button := first_selected "a" (ClassIs "crr_app_nw") section in
  [ ("JobTitle",
     PStr (text_of (first_selected "h3" (ClassIs "crr_app_hh") section)));
    ("JobCategory",
     PStr (text_of (first_selected "span" (ClassIs "crr_app_tp bluecrr") section)));
    ("Location",
     PStr (text_of (first_selected "span" (ClassIs "crr_app_plc") section)));
    ("JobURL", attr_of apply_button "href");
    ("JobID", attr_of apply_button "datatitle");
    ("PostingDate",
     PStr (text_of (first_selected "p"
                      (StringIs (and_then (PyStr.contains "Posted on")))
                      section)));
    ("JobDescriptionSummary",
     PStr (paragraph_text section "What's important to us:"));
    ("ExperienceRequired", PStr (experience_of (text false (node_of section))));
    ("SkillsRequired",
     PStr (PyStr.join "; " (Rules.skills_items Rules.contains_keyword section)));
    ("ContactEmail", PStr (email_of section));
    ("CompanyBenefits", PStr (paragraph_text section "What Company Offers:"));
    ("Salary", PStr EmptyString);
    ("ScrapedDate", PStr (strftime now));
    ("SourceURL", PStr BASE_URL) ].

End OnTree.

(** ** The vocabulary of the statements *)

(** A computation that only ever moves the world along [R]. *)
Definition frame (R : world -> world -> Prop) {A} (c : io A) : Prop :=
  forall w, R w (snd (c w)).

(** The relations used below: nothing changes; only the output grows; the
    files stay as they are. *)
Definition unchanged (w w' : world) : Prop := w' = w.

Definition says_only (w w' : world) : Prop :=
  clock w' = clock w /\ ticks w' = ticks w /\ files w' = files w /\
  http_get w' = http_get w.

Definition same_files (w w' : world) : Prop := files w' = files w.

Definition tick (w : world) : world := snd (datetime_now w).

(** The shape of a record: the fourteen keys in the order of assignment.
    Only the two attributes read from the apply link may be [None]. *)
Definition record_shape (d : dict) : Prop :=
  exists title category location url jobid posted summary experience skills
         email benefits now,
    d = [ ("JobTitle", PStr title); ("JobCategory", PStr category);
          ("Location", PStr location); ("JobURL", url); ("JobID", jobid);
          ("PostingDate", PStr posted);
          ("JobDescriptionSummary", PStr summary);
          ("ExperienceRequired", PStr experience);
          ("SkillsRequired", PStr skills); ("ContactEmail", PStr email);
          ("CompanyBenefits", PStr benefits); ("Salary", PStr EmptyString);
          ("ScrapedDate", PStr (strftime now)); ("SourceURL", PStr BASE_URL) ].

(** What [extract_fields] leaves behind: on success a full record and one
    reading of the clock; on failure the world it started from. *)
Definition extract_post (w : world) (r : outcome dict * world) : Prop :=
  match r with
  | (Ok d, w') => w' = tick w /\ record_shape d
  | (Raise _, w') => w' = w
  end.

(** What [extract_fields] returns on a tree: it always succeeds, and three
    of the fields are given by the rules. *)
Definition extracted (section : Tree.element) (w : world)
  (r : outcome dict * world) : Prop :=
  exists title category location url jobid posted summary found benefits,
    first_experience experience_patterns
      (Tree.text false (Tree.node_of section)) = Ok found /\
    r = (Ok [ ("JobTitle", PStr title); ("JobCategory", PStr category);
              ("Location", PStr location); ("JobURL", url); ("JobID", jobid);
              ("PostingDate", PStr posted);
              ("JobDescriptionSummary", PStr summary);
              ("ExperienceRequired",
               PStr (match found with
                     | Some m => if PyStr.nonempty m then m else EmptyString
                     | None => EmptyString
                     end));
              ("SkillsRequired",
               PStr (PyStr.join "; "
                       (Rules.skills_items Rules.contains_keyword section)));
              ("ContactEmail",
               PStr (match List.find Rules.is_mailto_link
                             (Tree.descendants section) with
                     | Some a =>
                         PyStr.replace "mailto:" EmptyString
                           (or_empty (Tree.attr "href" (Tree.node_of a)))
                     | None => EmptyString
                     end));
              ("CompanyBenefits", PStr benefits);
              ("Salary", PStr EmptyString);
              ("ScrapedDate", PStr (strftime (clock w (ticks w))));
              ("SourceURL", PStr BASE_URL) ],
         tick w).

Definition same_time (w1 w2 : world) : Prop :=
  clock w1 = clock w2 /\ ticks w1 = ticks w2.

(** [c1] and [c2] return the same result, and stay at the same time,
    whenever they start at the same time. *)
Definition agree {A} (c1 c2 : io A) : Prop :=
  forall w1 w2,
    same_time w1 w2 ->
    fst (c1 w1) = fst (c2 w2) /\ same_time (snd (c1 w1)) (snd (c2 w2)).

(** The value written for field [c] of record [d]. *)
Definition written (c : string) (d : dict) : dfval :=
  empty_to_None (dfval_of (dict_get c d)).

(** A record that binds every field of the schema. *)
Definition has_all_columns (d : dict) : bool :=
  forallb (fun c => is_some (dict_get c d)) column_order.

(** Most frequent first. *)
Definition by_count_descending (a b : string * nat) : Prop := snd b <= snd a.

(** Record [d] holds the string [v] in field [c]. *)
Definition holds (c v : string) (d : dict) : bool :=
  match dict_get c d with
  | Some (PStr t) => String.eqb v t
  | _ => false
  end.

(** A breakdown by field [c]: one entry per distinct non-empty value of
    the field, with the number of records that hold it, most frequent
    first. *)
Definition is_breakdown (c : string) (jobs : list dict)
  (counts : list (string * nat)) : Prop :=
  NoDup (map fst counts) /\
  (forall v, In v (map fst counts) <->
             v <> EmptyString /\
             exists d, In d jobs /\ dict_get c d = Some (PStr v)) /\
  (forall v n, In (v, n) counts -> n = List.length (filter (holds c v) jobs)) /\
  StronglySorted by_count_descending counts.

Definition breakdown_row (kv : string * nat) : list cell :=
  [Text ("  " ++ fst kv); Number (snd kv)].

Definition default_name : string := "Techversant_Jobs.xlsx".

(** ** openpyxl: styled cells, column widths and row heights *)

Module Xl.

Record Font : Type := {
  bold : bool;
  color : option string;
  size : option nat
}.

Inductive PatternFill : Type :=
  | no_fill
  | solid (start_color end_color : string).

Record Side : Type := { style : option string }.

Record Border : Type := {
  left : Side;
  right : Side;
  top : Side;
  bottom : Side
}.

Record Alignment : Type := {
  horizontal : option string;
  vertical : option string;
  wrap_text : bool
}.

Record Cell : Type := {
  value : cell;
  font : Font;
  fill : PatternFill;
  border : Border;
  alignment : Alignment
}.

(** A worksheet: the cell of every row and column, counted from 1, with
    the last row and column that hold a cell; the widths set for columns
    and the heights set for rows.  A column is named by its number, for
    which openpyxl writes a letter. *)
Record Worksheet : Type := {
  max_row : nat;
  max_column : nat;
  cell_at : nat -> nat -> Cell;
  column_dimensions : nat -> option nat;
  row_dimensions : nat -> option nat
}.

Definition no_side : Side := {| style := None |}.

(** A cell as openpyxl creates it. *)
Definition new_cell : Cell :=
  {| value := Blank;
     font := {| bold := false; color := None; size := None |};
     fill := no_fill;
     border := {| left := no_side; right := no_side;
                  top := no_side; bottom := no_side |};
     alignment := {| horizontal := None; vertical := None;
                     wrap_text := false |} |}.

(** [workbook.create_sheet(...)] *)
Definition create_sheet : Worksheet :=
  {| max_row := 0; max_column := 0;
     cell_at := fun _ _ => new_cell;
     column_dimensions := fun _ => None;
     row_dimensions := fun _ => None |}.

(** [for x in l: body] on a state. *)
Definition for_each {A S : Type} (l : list A) (body : A -> S -> S) (s : S) : S :=
  fold_left (fun s x => body x s) l s.

(** [enumerate(l, 1)] *)
Definition enumerate {A : Type} (l : list A) : list (nat * A) :=
  combine (seq 1 (List.length l)) l.

(** An assignment to attributes of the cell in row [r] and column [c] of
    a sheet that has it. *)
Definition restyle (r c : nat) (f : Cell -> Cell) (ws : Worksheet) : Worksheet :=
  {| max_row := max_row ws; max_column := max_column ws;
     cell_at := fun r' c' =>
       if (r' =? r) && (c' =? c) then f (cell_at ws r' c') else cell_at ws r' c';
     column_dimensions := column_dimensions ws;
     row_dimensions := row_dimensions ws |}.

(** [ws.cell(row=r, column=c, value=v)]: the cell is created if the sheet
    lacks it; a value other than [None] is stored. *)
Definition put (r c : nat) (v : cell) (ws : Worksheet) : Worksheet :=
  {| max_row := Nat.max r (max_row ws); max_column := Nat.max c (max_column ws);
     cell_at := fun r' c' =>
       if (r' =? r) && (c' =? c)
       then match v with
            | Blank => cell_at ws r' c'
            | _ => {| value := v; font := font (cell_at ws r' c');
                      fill := fill (cell_at ws r' c');
                      border := border (cell_at ws r' c');
                      alignment := alignment (cell_at ws r' c') |}
            end
       else cell_at ws r' c';
     column_dimensions := column_dimensions ws;
     row_dimensions := row_dimensions ws |}.

(** [ws.column_dimensions[letter].width = w] *)
Definition set_width (c w : nat) (ws : Worksheet) : Worksheet :=
  {| max_row := max_row ws; max_column := max_column ws;
     cell_at := cell_at ws;
     column_dimensions := fun c' => if c' =? c then Some w else column_dimensions ws c';
     row_dimensions := row_dimensions ws |}.

(** [ws.row_dimensions[r].height = h] *)
Definition set_height (r h : nat) (ws : Worksheet) : Worksheet :=
  {| max_row := max_row ws; max_column := max_column ws;
     cell_at := cell_at ws;
     column_dimensions := column_dimensions ws;
     row_dimensions := fun r' => if r' =? r then Some h else row_dimensions ws r' |}.

(** The truth value of a cell's value: [None], the empty string and 0 are
    false. *)
Definition truth (v : cell) : bool :=
  match v with
  | Blank => false
  | Text s => PyStr.nonempty s
  | Number n => negb (n =? 0)
  end.

(** [str(value)] *)
Definition str (v : cell) : string :=
  match v with
  | Blank => "None"
  | Text s => s
  | Number n => NilZero.string_of_uint (Nat.to_uint n)
  end.

(** One turn of the search for the longest value of a column:
    [if cell.value and len(str(cell.value)) > max_length: max_length = ...] *)
Definition longer (v : cell) (max_length : nat) : nat :=
  if truth v && (max_length <? String.length (str v))
  then String.length (str v)
  else max_length.

Definition header_font : Font :=
  {| bold := true; color := Some "FFFFFF"; size := Some 12 |}.

Definition header_fill : PatternFill := solid "366092" "366092".

Definition thin : Side := {| style := Some "thin" |}.

(** The [border] of [format_excel_worksheet]. *)
Definition thin_border : Border :=
  {| left := thin; right := thin; top := thin; bottom := thin |}.

(** The four assignments to a cell of the first row (lines 190-194). *)
Definition format_header (cell : Cell) : Cell :=
  {| value := value cell;
     font := header_font;
     fill := header_fill;
     border := thin_border;
     alignment := {| horizontal := Some "center"; vertical := Some "center";
                     wrap_text := true |} |}.

(** The assignments to a cell of row [r] in the loop over the columns
    (lines 202-204). *)
Definition format_cell (r : nat) (cell : Cell) : Cell :=
  {| value := value cell;
     font := font cell;
     fill := fill cell;
     border := thin_border;
     alignment := if 1 <? r
                  then {| horizontal := None; vertical := Some "top";
                          wrap_text := true |}
                  else alignment cell |}.

(** [format_excel_worksheet] (lines 178-218).  [str] and [len] of a cell
    value do not raise, so the [try] around them is transparent. *)
Definition format_excel_worksheet (worksheet : Worksheet) (df : DataFrame)
  : Worksheet :=
  let worksheet :=
    for_each (seq 1 (max_column worksheet))
      (fun c => restyle 1 c format_header) worksheet in
  let worksheet :=
    for_each (seq 1 (max_column worksheet))
      (fun c worksheet =>
         let '(worksheet, max_length) :=
           for_each (seq 1 (max_row worksheet))
             (fun r '(worksheet, max_length) =>
                let worksheet := restyle r c (format_cell r) worksheet in
                (worksheet, longer (value (cell_at worksheet r c)) max_length))
             (worksheet, 0) in
         let adjusted_width := Nat.min (Nat.max (max_length + 2) 15) 80 in
         set_width c adjusted_width worksheet)
      worksheet in
  for_each (seq 2 (len df)) (fun row => set_height row 60) worksheet.

(** [row_idx == 1 or (len(row_data) == 2 and row_data[1] == '')] *)
Definition is_header_row (row_idx : nat) (row_data : list cell) : bool :=
  (row_idx =? 1) ||
  ((List.length row_data =? 2) &&
   match nth 1 row_data Blank with
   | Text EmptyString => true
   | _ => false
   end).

(** The font and fill given to a cell of a header row (lines 259-262). *)
Definition format_summary_header (row_idx : nat) (cell : Cell) : Cell :=
  if row_idx =? 1
  then {| value := value cell;
          font := {| bold := true; color := Some "FFFFFF"; size := None |};
          fill := header_fill;
          border := border cell; alignment := alignment cell |}
  else {| value := value cell;
          font := {| bold := true; color := None; size := None |};
          fill := fill cell;
          border := border cell; alignment := alignment cell |}.

(** The worksheet that [create_summary_sheet] builds from the rows it has
    collected in [summary_data] (lines 222, 252-277). *)
Definition summary_sheet (summary_data : sheet) : Worksheet :=
  let summary_sheet := create_sheet in
  let summary_sheet :=
    for_each (enumerate summary_data)
      (fun '(row_idx, row_data) summary_sheet =>
         for_each (enumerate row_data)
           (fun '(col_idx, v) summary_sheet =>
              let summary_sheet := put row_idx col_idx v summary_sheet in
              if is_header_row row_idx row_data
              then restyle row_idx col_idx (format_summary_header row_idx)
                     summary_sheet
              else summary_sheet)
           summary_sheet)
      summary_sheet in
  for_each (seq 1 (max_column summary_sheet))
    (fun c summary_sheet =>
       let max_length :=
         for_each (seq 1 (max_row summary_sheet))
           (fun r max_length =>
              longer (value (cell_at summary_sheet r c)) max_length)
           0 in
       let adjusted_width := Nat.max (max_length + 2) 15 in
       set_width c adjusted_width summary_sheet)
    summary_sheet.

(** The worksheet that holds the rows of [s] in freshly created cells. *)
Definition worksheet_of (s : sheet) : Worksheet :=
  for_each (enumerate s)
    (fun '(row_idx, row_data) ws =>
       for_each (enumerate row_data)
         (fun '(col_idx, v) ws => put row_idx col_idx v ws) ws)
    create_sheet.

End Xl.

(** ** Saving on a file system that may refuse

    [write_file] is a file system that accepts every write.  Here the
    exporter and the run are given for any file system: opening the
    workbook file, when [pd.ExcelWriter(filename, ...)] is built, and
    saving it, when the [with] block is left, may each raise. *)

Record ExcelWriter : Type := {
  enter : string -> io unit;
  leave : string -> workbook -> io unit
}.


(** A file system that lets no file be opened for writing. *)
Definition read_only : ExcelWriter :=
  {| enter := fun _ => raise (OtherException "Permission denied");
     leave := write_file |}.

(** [save_jobs_to_excel(jobs_data, filename)] (lines 123-176) on the file
    system [fs]. *)
Definition save_jobs_to_excel_on (fs : ExcelWriter) (jobs_data : list dict)
  (filename : option string) : io string :=
  match jobs_data with
  | [] => raise (ValueError "No job data provided to save")
  | _ =>
      let filename :=
        match filename with
        | None => "Techversant_Jobs.xlsx"
        | Some f => f
        end in
      let filename :=
        if PyStr.endswith ".xlsx" filename then filename
        else (filename ++ ".xlsx")%string in
      try_except
        (let df := prepare_frame jobs_data in
         enter fs filename ;;;
         let wb : workbook := [("Jobs", to_excel df)] in
         wb <- create_summary_sheet wb df ;;
         leave fs filename wb ;;;
         print (SavedJobs (List.length jobs_data) filename) ;;;
         ret filename)
        (fun e => print (SaveError (str_of_exn e)) ;;; raise e)
  end.

Section RunOn.

Context {tag : Type} {lib : Soup tag}.
Variable fs : ExcelWriter.

(** The second half of the run on the file system [fs]. *)
Definition process_sections_on (job_sections : list tag) : io (option string) :=
  match job_sections with
  | [] => print NoJobSections ;;; ret None
  | _ =>
      print (FoundPostings (List.length job_sections)) ;;;
      r <- extract_all job_sections 1 (List.length job_sections) [] 0 ;;
      let jobs_data := fst r in
      let successful_extractions := snd r in
      print (ExtractedJobs successful_extractions (List.length job_sections)) ;;;
      healthy <- validate_scraped_data jobs_data ;;
      (if healthy then ret tt else print ValidationConcerns) ;;;
      match jobs_data with
      | _ :: _ =>
          filename <- save_jobs_to_excel_on fs jobs_data None ;;
          print ScrapingCompleted ;;;
          print (FileSavedAs filename) ;;;
          print (TotalJobsScraped (List.length jobs_data)) ;;;
          ret (Some filename)
      | [] => print NoJobDataExtracted ;;; ret None
      end
  end.

(** [scrape_jobs] (lines 301-373) on the file system [fs]. *)
Definition scrape_jobs_on : io (option string) :=
  try_except
    (job_sections <- fetch_sections ;; process_sections_on job_sections)
    (fun e =>
       match e with
       | RequestException m =>
           print (ErrorFetching m) ;;; print CheckConnection ;;; ret None
       | _ => print (UnexpectedError (str_of_exn e)) ;;; ret None
       end).

End RunOn.



(** ** Vocabulary of the further properties *)

(** A pattern that starts with a character to consume. *)
Definition starts_with_a_character (p : list Re.item) : bool :=
  match p with
  | (_, Re.One) :: _ | (_, Re.Plus) :: _ => true
  | _ => false
  end.

Definition first_not_space (sub : string) : bool :=
  match sub with
  | String c _ => negb (PyStr.is_space c)
  | EmptyString => false
  end.

Fixpoint last_not_space (sub : string) : bool :=
  match sub with
  | EmptyString => false
  | String c EmptyString => negb (PyStr.is_space c)
  | String _ rest => last_not_space rest
  end.

Definition is_processing (m : message) : bool :=
  match m with ProcessingJob _ _ => true | _ => false end.

Definition is_skipped (m : message) : bool :=
  match m with SkippedJob _ => true | _ => false end.

(** [w] after printing the lines [out]. *)
Definition with_output (w : world) (out : list message) : world :=
  {| clock := clock w; ticks := ticks w; stdout := stdout w ++ out;
     files := files w; http_get := http_get w |}.

Module Markers.

Import Tree.

(** The element carries the class [c]. *)
Definition has_class (c : string) (e : element) : bool :=
  match attr "class" (node_of e) with
  | Some v => mem c (PyStr.tokens v)
  | None => false
  end.

(** The element has a string that, in lower case, contains one of [words]. *)
Definition text_mentions (words : list string) (e : element) : bool :=
  match string_of (node_of e) with
  | Some t => existsb (fun word => PyStr.contains word (PyStr.lower t)) words
  | None => false
  end.

Definition is_pagination_marker (e : element) : bool :=
  let named name := has_name name (node_of e) in
  ((named "div" || named "nav" || named "ul") && has_class "pagination" e)
  || (named "div" && has_class "pager" e)
  || (named "a" && text_mentions pagination_words e)
  || (named "button" && text_mentions ["load more"] e).

End Markers.

(** The schema fields that some record binds, in the schema's order. *)
Definition kept_columns (jobs : list dict) : list string :=
  filter (fun c => existsb (fun d => is_some (dict_get c d)) jobs) column_order.

(** The cell for field [c] of record [d]: its text when the record holds a
    non-empty string there, blank otherwise. *)
Definition cell_for (c : string) (d : dict) : cell :=
  match dict_get c d with
  | Some (PStr (String a s)) => Text (String a s)
  | _ => Blank
  end.

(** The count that a row of a breakdown shows. *)
Definition count_of (row : list cell) : nat :=
  match row with
  | [_; Number n] => n
  | _ => 0
  end.

(** Record [d] holds a non-empty string in field [c]. *)
Definition is_filled (c : string) (d : dict) : bool :=
  match dict_get c d with
  | Some (PStr (String _ _)) => true
  | _ => false
  end.



(** ** Vocabulary of the worksheets *)

(** The values of column [c] in the rows [1..max_row]. *)
Definition column_values (ws : Xl.Worksheet) (c : nat) : list cell :=
  map (fun r => Xl.value (Xl.cell_at ws r c)) (seq 1 (Xl.max_row ws)).

(** The width that [format_excel_worksheet] gives to column [c]. *)
Definition jobs_width (ws : Xl.Worksheet) (c : nat) : nat :=
  Nat.min (Nat.max (Xl.for_each (column_values ws c) Xl.longer 0 + 2) 15) 80.

Definition format_column (c : nat) (worksheet : Xl.Worksheet) : Xl.Worksheet :=
  let '(worksheet, max_length) :=
    Xl.for_each (seq 1 (Xl.max_row worksheet))
      (fun r '(worksheet, max_length) =>
         let worksheet := Xl.restyle r c (Xl.format_cell r) worksheet in
         (worksheet, Xl.longer (Xl.value (Xl.cell_at worksheet r c)) max_length))
      (worksheet, 0) in
  let adjusted_width := Nat.min (Nat.max (max_length + 2) 15) 80 in
  Xl.set_width c adjusted_width worksheet.

Section Writing.

Variable is_header : nat -> list cell -> bool.
Variable header : nat -> Xl.Cell -> Xl.Cell.

(** What a written cell becomes. *)
Definition stamp (r : nat) (row : list cell) (v : cell) (old : Xl.Cell) : Xl.Cell :=
  let written :=
    match v with
    | Blank => old
    | _ => {| Xl.value := v; Xl.font := Xl.font old; Xl.fill := Xl.fill old;
              Xl.border := Xl.border old; Xl.alignment := Xl.alignment old |}
    end in
  if is_header r row then header r written else written.

Definition write_cell (r : nat) (row : list cell) (cv : nat * cell)
  (ws : Xl.Worksheet) : Xl.Worksheet :=
  let '(c, v) := cv in
  let ws := Xl.put r c v ws in
  if is_header r row then Xl.restyle r c (header r) ws else ws.

Definition write_row (rr : nat * list cell) (ws : Xl.Worksheet) : Xl.Worksheet :=
  let '(r, row) := rr in
  Xl.for_each (Xl.enumerate row) (write_cell r row) ws.

End Writing.

(** The width that [create_summary_sheet] gives to column [c]. *)
Definition summary_width (ws : Xl.Worksheet) (c : nat) : nat :=
  Nat.max (Xl.for_each (column_values ws c) Xl.longer 0 + 2) 15.

Definition size_column (c : nat) (summary_sheet : Xl.Worksheet) : Xl.Worksheet :=
  let max_length :=
    Xl.for_each (seq 1 (Xl.max_row summary_sheet))
      (fun r max_length =>
         Xl.longer (Xl.value (Xl.cell_at summary_sheet r c)) max_length)
      0 in
  let adjusted_width := Nat.max (max_length + 2) 15 in
  Xl.set_width c adjusted_width summary_sheet.

(** The cells of the Summary sheet before the widths are set. *)
Definition summary_cells (summary_data : sheet) : Xl.Worksheet :=
  Xl.for_each (Xl.enumerate summary_data)
    (write_row Xl.is_header_row Xl.format_summary_header) Xl.create_sheet.

(** A row of two cells whose second is the empty text. *)
Definition is_section_row (row : list cell) : bool :=
  (List.length row =? 2) &&
  match nth 1 row Blank with
  | Text EmptyString => true
  | _ => false
  end.

(** * Properties *)

(** ** The model at work *)

Example compile_first_pattern :
  Re.compile "(\d+\+?\s*years?\s*of\s*experience)" =
  Some ([ (Re.Digit, Re.Plus); (Re.Lit "+", Re.Opt); (Re.Space, Re.Star);
          (Re.Lit "y", Re.One); (Re.Lit "e", Re.One); (Re.Lit "a", Re.One);
          (Re.Lit "r", Re.One); (Re.Lit "s", Re.Opt); (Re.Space, Re.Star);
          (Re.Lit "o", Re.One); (Re.Lit "f", Re.One); (Re.Space, Re.Star) ]
        ++ map (fun c => (Re.Lit c, Re.One))
             (list_ascii_of_string "experience")).
Proof. reflexivity. Qed.

Example search_ignores_case :
  re_search "(minimum\s*\d+\s*years)" "We ask for a MINIMUM  3 Years here" =
  Ok (Some "MINIMUM  3 Years").
Proof. reflexivity. Qed.

Example search_is_leftmost_and_greedy :
  re_search "(\d+\+\s*years?\s*in)" "2+ year in QA, 10+   years in all" =
  Ok (Some "2+ year in").
Proof. reflexivity. Qed.

Example search_without_match :
  re_search "(Minimum\s*of\s*\d+\s*years)" "Minimum of five years" = Ok None.
Proof. reflexivity. Qed.

Example search_backtracks :
  re_search "(\d+\+?\s*years?\s*of\s*experience)" "12 3 years of experience" =
  Ok (Some "3 years of experience").
Proof. reflexivity. Qed.

Example alternation_is_outside_the_fragment :
  re_search "(a|b)" "a" = Raise (ReError "unsupported pattern").
Proof. reflexivity. Qed.

Example replace_every_occurrence :
  PyStr.replace "ab" "-" "abcabab" = "-c--".
Proof. reflexivity. Qed.

Example strip_both_ends :
  PyStr.strip (String (ascii_of_nat 10) "  Senior  Developer  ") =
  "Senior  Developer".
Proof. reflexivity. Qed.

Example class_filter_on_two_classes :
  Tree.satisfies (ClassIs "crr_app_tp bluecrr")
    (Tree.Tag "span" [("class", "crr_app_tp   bluecrr")] []) = true /\
  Tree.satisfies (ClassIs "bluecrr")
    (Tree.Tag "span" [("class", "crr_app_tp bluecrr")] []) = true /\
  Tree.satisfies (ClassIs "crr_app_tp bluecrr")
    (Tree.Tag "span" [("class", "bluecrr crr_app_tp")] []) = false.
Proof. repeat split. Qed.

Example text_of_a_tree :
  Tree.text false
    (Tree.Tag "p" [] [ Tree.NavigableString " a ";
                       Tree.Tag "b" [] [Tree.NavigableString " b "];
                       Tree.NavigableString "  " ]) = " a  b   " /\
  Tree.text true
    (Tree.Tag "p" [] [ Tree.NavigableString " a ";
                       Tree.Tag "b" [] [Tree.NavigableString " b "];
                       Tree.NavigableString "  " ]) = "ab".
Proof. split; reflexivity. Qed.

(** A whole posting, extracted. *)
Example extract_full_posting :
  fst (extract_job_data (lib := tree_soup (Samples.page []))
         (Samples.at_top Samples.full_posting) Samples.online) =
  Ok (Some
        [ ("JobTitle", PStr "Senior Developer");
          ("JobCategory", PStr "Engineering");
          ("Location", PStr "Kochi");
          ("JobURL", PStr "/apply/42");
          ("JobID", PStr "JOB-42");
          ("PostingDate", PStr "Posted on 1 June");
          ("JobDescriptionSummary", PStr "Minimum of 4 years in backend work.");
          ("ExperienceRequired", PStr "Minimum of 4 years");
          ("SkillsRequired", PStr "Python; SQL");
          ("ContactEmail", PStr "jobs@example.com");
          ("CompanyBenefits", PStr "Health cover");
          ("Salary", PStr EmptyString);
          ("ScrapedDate", PStr "2025-06-01 12:00:00");
          ("SourceURL", PStr "https://techversantinfotech.com/talent/") ]).
Proof. vm_compute. reflexivity. Qed.

(** The same posting under [orphan_soup]: skipped, with one line printed. *)
Example extract_orphaned_posting :
  let r := extract_job_data (lib := orphan_soup (Samples.page []))
             (Samples.at_top Samples.full_posting) Samples.online in
  fst r = Ok None /\
  stdout (snd r) =
  [HtmlStructureIssue "'NoneType' object has no attribute 'find_next_sibling'"].
Proof. split; vm_compute; reflexivity. Qed.

(** A page of two postings, scraped. *)
Example scrape_two_postings :
  let r := scrape_jobs
             (lib := tree_soup
                       (Samples.page [ Samples.full_posting;
                                       Samples.complete_posting "QA" "Pune" ]))
             Samples.online in
  fst r = Ok (Some "Techversant_Jobs.xlsx") /\
  stdout (snd r) =
  [ StartingScrape; NoPaginationDetected; FoundPostings 2;
    ProcessingJob 1 2; ProcessingJob 2 2; ExtractedJobs 2 2;
    DataCompleteness 2 2; SavedJobs 2 "Techversant_Jobs.xlsx";
    ScrapingCompleted; FileSavedAs "Techversant_Jobs.xlsx";
    TotalJobsScraped 2 ] /\
  map fst (files (snd r)) = ["Techversant_Jobs.xlsx"].
Proof. repeat split; vm_compute; reflexivity. Qed.

(** A server error ends the run without a file. *)
Example scrape_server_error :
  let offline :=
    {| clock := clock Samples.online; ticks := 0; stdout := []; files := [];
       http_get := fun _ => Ok {| status_code := 503; content := EmptyString |} |} in
  let r := scrape_jobs (lib := tree_soup (Samples.page [Samples.full_posting]))
             offline in
  fst r = Ok None /\
  stdout (snd r) = [StartingScrape; ErrorFetching "HTTPError"; CheckConnection] /\
  files (snd r) = [].
Proof. repeat split. Qed.

(** ** Computations *)

Lemma bind_ok {A B} (c : io A) (k : A -> io B) w b w' :
  bind c k w = (Ok b, w') ->
  exists a w1, c w = (Ok a, w1) /\ k a w1 = (Ok b, w').
Proof.
  unfold bind. destruct (c w) as [[a|e] w1]; intros E.
  - exists a, w1. split; [reflexivity | exact E].
  - discriminate E.
Qed.

Lemma bind_eq {A B} (c : io A) (k : A -> io B) w a w1 :
  c w = (Ok a, w1) -> bind c k w = k a w1.
Proof. unfold bind. intros ->. reflexivity. Qed.

Section Frames.

Variable R : world -> world -> Prop.
Hypothesis R_refl : forall w, R w w.
Hypothesis R_trans : forall w1 w2 w3, R w1 w2 -> R w2 w3 -> R w1 w3.

Lemma frame_ret {A} (a : A) : frame R (ret a).
Proof. intros w. apply R_refl. Qed.

Lemma frame_lift {A} (o : outcome A) : frame R (lift o).
Proof. intros w. apply R_refl. Qed.

Lemma frame_bind {A B} (c : io A) (k : A -> io B) :
  frame R c -> (forall a, frame R (k a)) -> frame R (bind c k).
Proof.
  intros Hc Hk w. unfold bind. specialize (Hc w).
  destruct (c w) as [[a|e] w1]; cbn in *.
  - eapply R_trans; [exact Hc | apply Hk].
  - exact Hc.
Qed.

End Frames.

Lemma unchanged_refl w : unchanged w w.
Proof. reflexivity. Qed.

Lemma unchanged_trans w1 w2 w3 :
  unchanged w1 w2 -> unchanged w2 w3 -> unchanged w1 w3.
Proof. unfold unchanged. congruence. Qed.

Lemma same_files_refl w : same_files w w.
Proof. reflexivity. Qed.

Lemma same_files_trans w1 w2 w3 :
  same_files w1 w2 -> same_files w2 w3 -> same_files w1 w3.
Proof. unfold same_files. congruence. Qed.

Lemma same_files_print m : frame same_files (print m).
Proof. intros w. reflexivity. Qed.

Lemma same_files_requests_get url : frame same_files (requests_get url).
Proof.
  intros w. unfold requests_get.
  destruct (http_get w url) as [r|e]; [|reflexivity].
  destruct (_ && _); reflexivity.
Qed.

Lemma quiet_ret {A} (a : A) : frame unchanged (ret a).
Proof. exact (frame_ret unchanged unchanged_refl a). Qed.

Lemma quiet_bind {A B} (c : io A) (k : A -> io B) :
  frame unchanged c -> (forall a, frame unchanged (k a)) ->
  frame unchanged (bind c k).
Proof. exact (frame_bind unchanged unchanged_trans c k). Qed.

Lemma same_files_ret {A} (a : A) : frame same_files (ret a).
Proof. exact (frame_ret same_files same_files_refl a). Qed.

Lemma same_files_lift {A} (o : outcome A) : frame same_files (lift o).
Proof. exact (frame_lift same_files same_files_refl o). Qed.

Lemma same_files_bind {A B} (c : io A) (k : A -> io B) :
  frame same_files c -> (forall a, frame same_files (k a)) ->
  frame same_files (bind c k).
Proof. exact (frame_bind same_files same_files_trans c k). Qed.

Lemma bind_assoc {A B C} (c : io A) (k1 : A -> io B) (k2 : B -> io C) w :
  bind (bind c k1) k2 w = bind c (fun a => bind (k1 a) k2) w.
Proof. unfold bind. destruct (c w) as [[a|e] w1]; reflexivity. Qed.

Lemma bind_ext {A B} (c : io A) (k1 k2 : A -> io B) w :
  (forall a w', k1 a w' = k2 a w') -> bind c k1 w = bind c k2 w.
Proof.
  intros Hk. unfold bind. destruct (c w) as [[a|e] w1]; [apply Hk | reflexivity].
Qed.

(** A bind whose first part leaves the world alone. *)
Lemma bind_quiet_case {A B} (c : io A) (k : A -> io B) w
  (P : outcome B * world -> Prop) :
  frame unchanged c ->
  (forall e, c w = (Raise e, w) -> P (Raise e, w)) ->
  (forall a, c w = (Ok a, w) -> P (k a w)) ->
  P (bind c k w).
Proof.
  intros Hq Hr Hk. unfold bind. specialize (Hq w). unfold unchanged in Hq.
  destruct (c w) as [[a|e] w1] eqn:E; cbn in Hq; subst w1.
  - apply Hk. reflexivity.
  - apply Hr. reflexivity.
Qed.

Section ExtractorFacts.

Context {tag : Type} {lib : Soup tag}.

Lemma quiet_lift {A} (o : outcome A) : frame unchanged (lift o).
Proof. intros w. reflexivity. Qed.

Lemma quiet_on_object {A} attr o (m : tag -> outcome A) :
  frame unchanged (on_object attr o m).
Proof. intros w. destruct o; reflexivity. Qed.

Lemma quiet_text_or_empty o : frame unchanged (text_or_empty o).
Proof.
  intros w. destruct o as [e|]; cbn; [|reflexivity].
  unfold bind, lift. destruct (get_text e true); reflexivity.
Qed.

Lemma quiet_attr_or_empty o a : frame unchanged (attr_or_empty o a).
Proof. intros w. destruct o; reflexivity. Qed.

Lemma quiet_paragraph_after s label : frame unchanged (paragraph_after s label).
Proof.
  unfold paragraph_after.
  apply quiet_bind; [apply quiet_lift|].
  intros [h|]; [|apply quiet_ret].
  apply quiet_bind; [apply quiet_lift|]. intros p.
  apply quiet_bind; [apply quiet_on_object|]. intros para.
  apply quiet_text_or_empty.
Qed.

Lemma quiet_texts_of items : frame unchanged (texts_of items).
Proof.
  induction items as [|li rest IH]; cbn [texts_of].
  - apply quiet_ret.
  - apply quiet_bind; [apply quiet_lift|]. intros t.
    apply quiet_bind; [exact IH|]. intros ts.
    apply quiet_ret.
Qed.

Lemma quiet_collect_skills sections acc :
  frame unchanged (collect_skills sections acc).
Proof.
  revert acc. induction sections as [|h rest IH]; intros acc;
    cbn [collect_skills].
  - apply quiet_ret.
  - apply quiet_bind; [apply quiet_lift|]. intros p.
    apply quiet_bind; [apply quiet_on_object|].
    intros [ul|]; [|apply IH].
    apply quiet_bind; [apply quiet_lift|]. intros lis.
    apply quiet_bind; [apply quiet_texts_of|]. intros sk.
    apply IH.
Qed.

Lemma quiet_py_replace old new v : frame unchanged (py_replace old new v).
Proof. intros w. destruct v; reflexivity. Qed.

Lemma text_or_empty_str o w v w' :
  text_or_empty o w = (Ok v, w') -> exists t, v = PStr t.
Proof.
  destruct o as [e|]; cbn.
  - unfold bind, lift. destruct (get_text e true) as [t|]; [|discriminate].
    cbn. intros E. inversion E. eauto.
  - intros E. inversion E. eauto.
Qed.

Lemma paragraph_after_str s label w v w' :
  paragraph_after s label w = (Ok v, w') -> exists t, v = PStr t.
Proof.
  unfold paragraph_after. intros E.
  apply bind_ok in E as (h & w1 & _ & E). destruct h as [h|].
  - apply bind_ok in E as (p & w2 & _ & E).
    apply bind_ok in E as (para & w3 & _ & E).
    eapply text_or_empty_str; eassumption.
  - inversion E. eauto.
Qed.

Lemma py_replace_str old new v w r w' :
  py_replace old new v w = (Ok r, w') -> exists t, r = PStr t.
Proof. destruct v; cbn; intros E; inversion E. eauto. Qed.

Lemma extract_fields_post job_section w :
  extract_post w (extract_fields job_section w).
Proof.
  unfold extract_fields.
  apply bind_quiet_case; [apply quiet_lift | reflexivity | intros e1 _].
  apply bind_quiet_case; [apply quiet_text_or_empty | reflexivity | intros v1 H1].
  apply text_or_empty_str in H1 as [title ->].
  apply bind_quiet_case; [apply quiet_lift | reflexivity | intros e2 _].
  apply bind_quiet_case; [apply quiet_text_or_empty | reflexivity | intros v2 H2].
  apply text_or_empty_str in H2 as [category ->].
  apply bind_quiet_case; [apply quiet_lift | reflexivity | intros e3 _].
  apply bind_quiet_case; [apply quiet_text_or_empty | reflexivity | intros v3 H3].
  apply text_or_empty_str in H3 as [location ->].
  apply bind_quiet_case; [apply quiet_lift | reflexivity | intros button _].
  apply bind_quiet_case; [apply quiet_attr_or_empty | reflexivity | intros url _].
  apply bind_quiet_case; [apply quiet_attr_or_empty | reflexivity | intros jobid _].
  apply bind_quiet_case; [apply quiet_lift | reflexivity | intros e4 _].
  apply bind_quiet_case; [apply quiet_text_or_empty | reflexivity | intros v4 H4].
  apply text_or_empty_str in H4 as [posted ->].
  apply bind_quiet_case; [apply quiet_paragraph_after | reflexivity | intros v5 H5].
  apply paragraph_after_str in H5 as [summary ->].
  apply bind_quiet_case; [apply quiet_lift | reflexivity | intros full_text _].
  apply bind_quiet_case; [apply quiet_lift | reflexivity | intros found _].
  apply bind_quiet_case; [apply quiet_lift | reflexivity | intros sections _].
  apply bind_quiet_case; [apply quiet_collect_skills | reflexivity | intros skills _].
  apply bind_quiet_case; [apply quiet_lift | reflexivity | intros link _].
  apply bind_quiet_case.
  { destruct link as [a|]; [|apply quiet_ret].
    apply quiet_bind; [apply quiet_lift|]. intros href.
    apply quiet_py_replace. }
  { reflexivity. }
  intros v6 H6.
  assert (exists email, v6 = PStr email) as [email ->].
  { destruct link as [a|].
    - apply bind_ok in H6 as (href & w1 & _ & H6).
      eapply py_replace_str; eassumption.
    - inversion H6. eauto. }
  apply bind_quiet_case; [apply quiet_paragraph_after | reflexivity | intros v7 H7].
  apply paragraph_after_str in H7 as [benefits ->].
  cbn. split; [reflexivity|].
  unfold record_shape. do 12 eexists. reflexivity.
Qed.

End ExtractorFacts.

(** ** Document trees *)

(** Every element found below another has a parent. *)
Lemma below_has_parent n :
  forall here e, In e (Tree.below n here) -> exists p, Tree.up_of e = Some p.
Proof.
  induction n as [s | name attrs contents IH] using node_induction;
    intros here e; cbn [Tree.below].
  - intros [].
  - induction IH as [|c rest Hc _ IHrest]; [intros []|].
    intros [<- | Hin].
    + exists here. reflexivity.
    + apply in_app_or in Hin as [Hin | Hin].
      * eapply Hc; eassumption.
      * apply IHrest; assumption.
Qed.

Lemma descendants_have_parent section e :
  In e (Tree.descendants section) -> exists p, Tree.up_of e = Some p.
Proof. apply below_has_parent. Qed.

Lemma found_has_parent section name sel e :
  List.find (Tree.selects name sel) (Tree.descendants section) = Some e ->
  exists p, Tree.up_of e = Some p.
Proof.
  intros Hf. apply find_some in Hf as [Hin _].
  eapply descendants_have_parent; eassumption.
Qed.

(** ** The experience patterns *)

Lemma patterns_compile pattern :
  In pattern experience_patterns -> exists p, Re.compile pattern = Some p.
Proof.
  intros Hin. repeat (destruct Hin as [<- | Hin]; [eexists; vm_compute; reflexivity|]).
  destruct Hin.
Qed.

Lemma re_search_total pattern text :
  In pattern experience_patterns -> exists r, re_search pattern text = Ok r.
Proof.
  intros Hin. apply patterns_compile in Hin as [p Hp].
  unfold re_search. rewrite Hp. eauto.
Qed.

Lemma first_experience_total_on patterns text :
  (forall pattern, In pattern patterns -> exists r, re_search pattern text = Ok r) ->
  exists found, first_experience patterns text = Ok found.
Proof.
  induction patterns as [|pattern rest IH]; intros Hall; cbn.
  - eauto.
  - destruct (Hall pattern (or_introl eq_refl)) as [[m|] ->]; [eauto|].
    apply IH. intros q Hq. apply Hall. right. exact Hq.
Qed.

Lemma first_experience_total text :
  exists found, first_experience experience_patterns text = Ok found.
Proof.
  apply first_experience_total_on. intros pattern. apply re_search_total.
Qed.

(** The loop stops at the first pattern that matches. *)
Lemma first_experience_first patterns text found i pattern m :
  first_experience patterns text = Ok found ->
  nth_error patterns i = Some pattern ->
  re_search pattern text = Ok (Some m) ->
  (forall j earlier, j < i -> nth_error patterns j = Some earlier ->
                     re_search earlier text = Ok None) ->
  found = Some m.
Proof.
  revert i. induction patterns as [|p rest IH]; intros i Hf Hi Hm Hbefore.
  - destruct i; discriminate Hi.
  - cbn in Hf. destruct i as [|i]; cbn in Hi.
    + inversion Hi; subst p. rewrite Hm in Hf. congruence.
    + rewrite (Hbefore 0 p) in Hf by (cbn; auto; lia).
      eapply IH; try eassumption.
      intros j q Hj Hq. apply (Hbefore (S j) q); [lia | exact Hq].
Qed.

Lemma first_experience_none patterns text :
  (forall pattern, In pattern patterns -> re_search pattern text = Ok None) ->
  first_experience patterns text = Ok None.
Proof.
  induction patterns as [|p rest IH]; intros Hall; cbn; [reflexivity|].
  rewrite (Hall p) by (left; reflexivity).
  apply IH. intros q Hq. apply Hall. right. exact Hq.
Qed.

(** A bind whose first part returns without touching the world. *)
Lemma bind_ok_case {A B} (c : io A) (k : A -> io B) w
  (P : outcome B * world -> Prop) :
  (exists a, c w = (Ok a, w)) ->
  (forall a, c w = (Ok a, w) -> P (k a w)) ->
  P (bind c k w).
Proof.
  intros [a Ha] Hk. rewrite (bind_eq _ _ _ _ _ Ha). apply Hk. exact Ha.
Qed.

Lemma lift_value {A} (x a : A) (w w' : world) :
  lift (Ok x) w = (Ok a, w') -> a = x.
Proof. intros E. inversion E. reflexivity. Qed.

Lemma find_pointwise {A} (f g : A -> bool) l :
  (forall x, f x = g x) -> List.find f l = List.find g l.
Proof.
  intros Hfg. induction l as [|x l IH]; cbn; [reflexivity|].
  rewrite Hfg, IH. reflexivity.
Qed.

Lemma filter_pointwise {A} (f g : A -> bool) l :
  (forall x, f x = g x) -> filter f l = filter g l.
Proof.
  intros Hfg. induction l as [|x l IH]; cbn; [reflexivity|].
  rewrite Hfg, IH. reflexivity.
Qed.

(** The filters of the script, seen from the rules. *)
Lemma skills_filter_is_heading e :
  Tree.selects "strong" (StringIs is_skills_text) e =
  Rules.is_heading Rules.contains_keyword e.
Proof.
  unfold Tree.selects, Rules.is_heading. f_equal. cbn [Tree.satisfies].
  destruct (Tree.string_of (Tree.node_of e)) as [[|c t]|]; reflexivity.
Qed.

Lemma mailto_filter_is_link e :
  Tree.selects "a" (AttrIs "href" has_mailto) e = Rules.is_mailto_link e.
Proof.
  unfold Tree.selects, Rules.is_mailto_link. f_equal. cbn [Tree.satisfies].
  destruct (Tree.attr "href" (Tree.node_of e)) as [[|c t]|]; reflexivity.
Qed.

Lemma join_or_empty l :
  match l with [] => EmptyString | _ => PyStr.join "; " l end = PyStr.join "; " l.
Proof. destruct l; reflexivity. Qed.

(** ** The extractor on document trees *)

Section TreeFacts.

Variable html_parser : string -> list Tree.node.

Local Abbreviation tree := (tree_soup html_parser).

Lemma tree_text_or_empty o w :
  exists t, text_or_empty (lib := tree) o w = (Ok (PStr t), w).
Proof. destruct o as [e|]; cbn; eexists; reflexivity. Qed.

Lemma tree_paragraph_after section label w :
  exists t, paragraph_after (lib := tree) section label w = (Ok (PStr t), w).
Proof.
  unfold paragraph_after. cbn.
  destruct (List.find _ _) as [h|] eqn:Hf; cbn; [|eexists; reflexivity].
  apply found_has_parent in Hf as [p Hp]. rewrite Hp. cbn.
  apply tree_text_or_empty.
Qed.

Lemma tree_text_or_empty_any o w :
  exists v, text_or_empty (lib := tree) o w = (Ok v, w).
Proof. destruct (tree_text_or_empty o w) as [t Ht]. eauto. Qed.

Lemma tree_paragraph_after_any section label w :
  exists v, paragraph_after (lib := tree) section label w = (Ok v, w).
Proof. destruct (tree_paragraph_after section label w) as [t Ht]. eauto. Qed.

Lemma tree_texts_of items w :
  texts_of (lib := tree) items w =
  (Ok (map (fun li => Tree.text true (Tree.node_of li)) items), w).
Proof.
  induction items as [|li rest IH]; cbn [texts_of]; [reflexivity|].
  erewrite bind_eq by reflexivity.
  erewrite bind_eq by exact IH. reflexivity.
Qed.

Lemma tree_collect_skills headings acc w :
  Forall (fun h => exists p, Tree.up_of h = Some p) headings ->
  collect_skills (lib := tree) headings acc w =
  (Ok (acc ++ flat_map Rules.items_after headings), w).
Proof.
  intros Hup. revert acc.
  induction Hup as [|h rest [p Hp] _ IH]; intros acc; cbn [collect_skills flat_map].
  - cbn. rewrite app_nil_r. reflexivity.
  - erewrite bind_eq by reflexivity. cbn [parent tree_soup].
    unfold Rules.items_after at 1. rewrite Hp.
    erewrite bind_eq by reflexivity. cbn [find_next_sibling tree_soup].
    destruct (Tree.next_named _ _ _) as [ul|].
    + erewrite bind_eq by reflexivity.
      erewrite bind_eq by apply tree_texts_of.
      rewrite IH, app_assoc. reflexivity.
    + rewrite IH. reflexivity.
Qed.

Lemma tree_extract_fields section w :
  extracted section w (extract_fields (lib := tree) section w).
Proof.
  unfold extract_fields.
  apply bind_ok_case; [eexists; reflexivity | intros e1 _].
  apply bind_ok_case; [apply tree_text_or_empty_any | intros v1 H1].
  apply text_or_empty_str in H1 as [title ->].
  apply bind_ok_case; [eexists; reflexivity | intros e2 _].
  apply bind_ok_case; [apply tree_text_or_empty_any | intros v2 H2].
  apply text_or_empty_str in H2 as [category ->].
  apply bind_ok_case; [eexists; reflexivity | intros e3 _].
  apply bind_ok_case; [apply tree_text_or_empty_any | intros v3 H3].
  apply text_or_empty_str in H3 as [location ->].
  apply bind_ok_case; [eexists; reflexivity | intros button _].
  apply bind_ok_case; [destruct button; eexists; reflexivity | intros url _].
  apply bind_ok_case; [destruct button; eexists; reflexivity | intros jobid _].
  apply bind_ok_case; [eexists; reflexivity | intros e4 _].
  apply bind_ok_case; [apply tree_text_or_empty_any | intros v4 H4].
  apply text_or_empty_str in H4 as [posted ->].
  apply bind_ok_case; [apply tree_paragraph_after_any | intros v5 H5].
  apply paragraph_after_str in H5 as [summary ->].
  apply bind_ok_case; [eexists; reflexivity | intros full_text Hft].
  apply lift_value in Hft. subst full_text.
  destruct (first_experience_total (Tree.text false (Tree.node_of section)))
    as [found Hfound].
  apply bind_ok_case.
  { exists found. cbn [get_text tree_soup] in *. rewrite Hfound. reflexivity. }
  intros found' Hf'. cbn [get_text tree_soup] in *. rewrite Hfound in Hf'.
  apply lift_value in Hf'. subst found'.
  apply bind_ok_case; [eexists; reflexivity | intros headings Hh].
  apply lift_value in Hh. subst headings.
  assert (Hskills :
    collect_skills (lib := tree)
      (filter (Tree.selects "strong" (StringIs is_skills_text))
         (Tree.descendants section)) [] w =
    (Ok (Rules.skills_items Rules.contains_keyword section), w)).
  { rewrite tree_collect_skills.
    - unfold Rules.skills_items.
      rewrite (filter_pointwise _ _ _ skills_filter_is_heading). reflexivity.
    - apply Forall_forall. intros h Hin. apply filter_In in Hin as [Hin _].
      eapply descendants_have_parent; eassumption. }
  apply bind_ok_case; [eexists; exact Hskills | intros skills Hsk].
  rewrite Hskills in Hsk. inversion Hsk; subst skills. clear Hsk.
  rewrite join_or_empty.
  apply bind_ok_case; [eexists; reflexivity | intros link Hl].
  apply lift_value in Hl.
  rewrite (find_pointwise _ _ _ mailto_filter_is_link) in Hl. subst link.
  set (email := match List.find Rules.is_mailto_link (Tree.descendants section) with
                | Some a =>
                    PyStr.replace "mailto:" EmptyString
                      (or_empty (Tree.attr "href" (Tree.node_of a)))
                | None => EmptyString
                end).
  assert (Hemail :
    match List.find Rules.is_mailto_link (Tree.descendants section) with
    | Some a =>
        href <- lift (get (Soup := tree) a "href") ;;
        py_replace "mailto:" EmptyString href
    | None => ret (PStr EmptyString)
    end w = (Ok (PStr email), w)).
  { unfold email. destruct (List.find _ _) as [a|] eqn:Ha; [|reflexivity].
    apply find_some in Ha as [_ Ha]. unfold Rules.is_mailto_link in Ha.
    apply andb_prop in Ha as [_ Ha]. cbn [get tree_soup].
    destruct (Tree.attr "href" (Tree.node_of a)) as [href|]; [|discriminate].
    reflexivity. }
  apply bind_ok_case; [eexists; exact Hemail | intros v6 H6].
  rewrite Hemail in H6. inversion H6; subst v6. clear H6.
  apply bind_ok_case; [apply tree_paragraph_after_any | intros v7 H7].
  apply paragraph_after_str in H7 as [benefits ->].
  unfold extracted. exists title, category, location, url, jobid, posted,
    summary, found, benefits.
  split; [exact Hfound | reflexivity].
Qed.

End TreeFacts.

(** On a tree the extractor always returns a record. *)
Lemma tree_extract_job_data html_parser section w :
  exists d,
    extract_job_data (lib := tree_soup html_parser) section w =
      (Ok (Some d), tick w) /\
    extracted section w (Ok d, tick w).
Proof.
  destruct (tree_extract_fields html_parser section w)
    as (title & category & location & url & jobid & posted & summary & found &
        benefits & Hfound & E).
  eexists. split.
  - unfold extract_job_data, try_except.
    rewrite (bind_eq _ _ _ _ _ E). reflexivity.
  - unfold extracted. exists title, category, location, url, jobid, posted,
      summary, found, benefits. split; [exact Hfound | reflexivity].
Qed.

(** ** Strings *)

Lemma replace_from_absent old new s :
  PyStr.contains old s = false -> PyStr.replace_from 0 old new s = s.
Proof.
  induction s as [|c s IH]; intros Hc; [reflexivity|].
  cbn [PyStr.contains] in Hc. apply orb_false_iff in Hc as [Hs Hc].
  cbn [PyStr.replace_from]. rewrite Hs, (IH Hc). reflexivity.
Qed.

Lemma replace_mailto_prefix rest :
  PyStr.contains "mailto:" rest = false ->
  PyStr.replace "mailto:" EmptyString ("mailto:" ++ rest) = rest.
Proof. intros Hc. cbn. apply replace_from_absent. exact Hc. Qed.

Lemma find_first {A} (f : A -> bool) before a after :
  (forall b, In b before -> f b = false) -> f a = true ->
  List.find f (before ++ a :: after) = Some a.
Proof.
  intros Hb Ha. induction before as [|b before IH]; cbn.
  - rewrite Ha. reflexivity.
  - rewrite (Hb b) by (left; reflexivity).
    apply IH. intros x Hx. apply Hb. right. exact Hx.
Qed.

Lemma find_nothing {A} (f : A -> bool) l :
  (forall x, In x l -> f x = false) -> List.find f l = None.
Proof.
  intros Hl. induction l as [|x l IH]; cbn; [reflexivity|].
  rewrite (Hl x) by (left; reflexivity).
  apply IH. intros y Hy. apply Hl. right. exact Hy.
Qed.

(** ** The fields of a posting on a document tree *)

(** ** Letter case in the patterns' matches *)

Lemma lower_char_idem c :
  PyStr.lower_char (PyStr.lower_char c) = PyStr.lower_char c.
Proof. destruct c as [[] [] [] [] [] [] [] []]; reflexivity. Qed.

Lemma is_digit_lower c : PyStr.is_digit (PyStr.lower_char c) = PyStr.is_digit c.
Proof. destruct c as [[] [] [] [] [] [] [] []]; reflexivity. Qed.

Lemma is_space_lower c : PyStr.is_space (PyStr.lower_char c) = PyStr.is_space c.
Proof. destruct c as [[] [] [] [] [] [] [] []]; reflexivity. Qed.

Lemma atom_matches_lower a c :
  Re.atom_matches true a (PyStr.lower_char c) = Re.atom_matches true a c.
Proof.
  destruct a; cbn [Re.atom_matches].
  - apply is_digit_lower.
  - apply is_space_lower.
  - rewrite lower_char_idem. reflexivity.
Qed.

Lemma eat_lower a (k : string -> option nat) s :
  (forall t, k (PyStr.lower t) = k t) ->
  Re.eat true a k (PyStr.lower s) = Re.eat true a k s.
Proof.
  intros Hk. destruct s as [|c s]; [reflexivity|].
  cbn [PyStr.lower Re.eat]. rewrite atom_matches_lower, Hk. reflexivity.
Qed.

(** With [re.IGNORECASE] a pattern matches a text where it matches the
    text in lower case. *)
Lemma match_here_lower p :
  forall s, Re.match_here true p (PyStr.lower s) = Re.match_here true p s.
Proof.
  induction p as [|[a q] rest IH]; intros s; cbn [Re.match_here]; [reflexivity|].
  set (star := fix star (t : string) : option nat :=
                 match t with
                 | String c t' =>
                     Re.or_else
                       (if Re.atom_matches true a c
                        then option_map S (star t') else None)
                       (Re.match_here true rest t)
                 | EmptyString => Re.match_here true rest EmptyString
                 end).
  assert (Hstar : forall t, star (PyStr.lower t) = star t).
  { induction t as [|c t IHt]; [reflexivity|].
    cbn [PyStr.lower star]. rewrite atom_matches_lower, IHt.
    change (String (PyStr.lower_char c) (PyStr.lower t))
      with (PyStr.lower (String c t)).
    rewrite IH. reflexivity. }
  destruct q.
  - apply eat_lower. exact IH.
  - rewrite (eat_lower a _ s IH), IH. reflexivity.
  - apply Hstar.
  - apply eat_lower. exact Hstar.
Qed.

Lemma take_lower n : forall s,
  PyStr.take n (PyStr.lower s) = PyStr.lower (PyStr.take n s).
Proof.
  induction n as [|n IH]; intros [|c s]; cbn; try reflexivity.
  rewrite IH. reflexivity.
Qed.

Lemma search_items_lower p s :
  Re.search_items true p (PyStr.lower s) =
  option_map PyStr.lower (Re.search_items true p s).
Proof.
  induction s as [|c s IH].
  - cbn. destruct (Re.match_here true p EmptyString) as [[|n]|]; reflexivity.
  - change (PyStr.lower (String c s))
      with (String (PyStr.lower_char c) (PyStr.lower s)).
    cbn [Re.search_items].
    change (String (PyStr.lower_char c) (PyStr.lower s))
      with (PyStr.lower (String c s)).
    rewrite (match_here_lower p (String c s)).
    destruct (Re.match_here true p (String c s)) as [n|].
    + cbn [option_map]. rewrite take_lower. reflexivity.
    + exact IH.
Qed.

(** The search of a pattern of the script does not depend on the letter
    case of the text: the match in the lower-cased text is the match in
    the text, lower-cased. *)
Lemma re_search_lower pattern text :
  re_search pattern (PyStr.lower text) =
  match re_search pattern text with
  | Ok (Some m) => Ok (Some (PyStr.lower m))
  | other => other
  end.
Proof.
  unfold re_search. destruct (Re.compile pattern) as [p|]; [|reflexivity].
  rewrite search_items_lower.
  destruct (Re.search_items true p text); reflexivity.
Qed.

Lemma first_experience_lower patterns text :
  first_experience patterns (PyStr.lower text) =
  match first_experience patterns text with
  | Ok (Some m) => Ok (Some (PyStr.lower m))
  | other => other
  end.
Proof.
  induction patterns as [|pattern rest IH]; [reflexivity|].
  cbn [first_experience]. rewrite re_search_lower.
  destruct (re_search pattern text) as [[m|]|e]; [reflexivity | exact IH | reflexivity].
Qed.

(** C1. On every posting section the extractor returns a record whose
    ExperienceRequired is the match of the first of the four patterns, in
    their fixed order, that matches the full text of the section, whatever
    later patterns would match; it is the empty string when no pattern
    matches.  The patterns are matched without regard to letter case: a
    pattern matches a text exactly where it matches the text in lower
    case, the match being the piece of the text as it is written, so the
    result for the lower-cased text is the result in lower case.  For the
    full text "5+ years of experience required" the result is
    "5+ years of experience", and for "MINIMUM OF 4 YEARS in QA" it is
    "MINIMUM OF 4 YEARS". *)
Theorem experience_is_first_match html_parser section w :
  exists d w' v,
    extract_job_data (lib := tree_soup html_parser) section w =
      (Ok (Some d), w') /\
    dict_get "ExperienceRequired" d = Some (PStr v) /\
    let full_text := Tree.text false (Tree.node_of section) in
    (forall i pattern m,
        nth_error experience_patterns i = Some pattern ->
        re_search pattern full_text = Ok (Some m) ->
        (forall j earlier,
            j < i -> nth_error experience_patterns j = Some earlier ->
            re_search earlier full_text = Ok None) ->
        v = m) /\
    ((forall pattern,
         In pattern experience_patterns ->
         re_search pattern full_text = Ok None) ->
     v = EmptyString) /\
    (full_text = "5+ years of experience required" ->
     v = "5+ years of experience") /\
    (forall pattern text,
        re_search pattern (PyStr.lower text) =
        match re_search pattern text with
        | Ok (Some m) => Ok (Some (PyStr.lower m))
        | other => other
        end) /\
    (forall found,
        first_experience experience_patterns (PyStr.lower full_text) = Ok found ->
        or_empty found = PyStr.lower v) /\
    (full_text = "MINIMUM OF 4 YEARS in QA" -> v = "MINIMUM OF 4 YEARS").
Proof.
  destruct (tree_extract_job_data html_parser section w) as (d & He & Hx).
  destruct Hx as (title & category & location & url & jobid & posted &
                  summary & found & benefits & Hfound & E).
  inversion E; subst d; clear E.
  eexists _, (tick w), _. split; [exact He|]. split; [reflexivity|].
  cbv zeta. repeat split.
  - intros i pattern m Hi Hm Hbefore.
    rewrite (first_experience_first _ _ _ _ _ _ Hfound Hi Hm Hbefore).
    destruct m; reflexivity.
  - intros Hnone. rewrite (first_experience_none _ _ Hnone) in Hfound.
    inversion Hfound. reflexivity.
  - intros Htext. rewrite Htext in Hfound. vm_compute in Hfound.
    inversion Hfound. reflexivity.
  - intros pattern text. apply re_search_lower.
  - intros found' Hlower. rewrite first_experience_lower, Hfound in Hlower.
    destruct found as [[|c m]|]; inversion Hlower; reflexivity.
  - intros Htext. rewrite Htext in Hfound. vm_compute in Hfound.
    inversion Hfound. reflexivity.
Qed.

Lemma experience_is_first_match_witness :
  (exists d w',
     extract_job_data (lib := tree_soup (Samples.page []))
       (Samples.at_top Samples.experience_posting) Samples.online =
       (Ok (Some d), w') /\
     dict_get "ExperienceRequired" d = Some (PStr "5+ years of experience")) /\
  (exists d w',
     extract_job_data (lib := tree_soup (Samples.page []))
       (Samples.at_top Samples.two_patterns_posting) Samples.online =
       (Ok (Some d), w') /\
     re_search "(Minimum\s*of\s*\d+\s*years)"
       "Minimum of 10 years; 3yearofexperience" =
       Ok (Some "Minimum of 10 years") /\
     dict_get "ExperienceRequired" d = Some (PStr "3yearofexperience")) /\
  (exists d w',
     extract_job_data (lib := tree_soup (Samples.page []))
       (Samples.at_top Samples.shouting_posting) Samples.online =
       (Ok (Some d), w') /\
     dict_get "ExperienceRequired" d = Some (PStr "MINIMUM OF 4 YEARS")).
Proof.
  split; [|split].
  - destruct (experience_is_first_match (Samples.page [])
                (Samples.at_top Samples.experience_posting) Samples.online)
      as (d & w' & v & He & Hv & _ & _ & Hexample & _).
    exists d, w'. split; [exact He|].
    rewrite Hv, (Hexample eq_refl). reflexivity.
  - destruct (experience_is_first_match (Samples.page [])
                (Samples.at_top Samples.two_patterns_posting) Samples.online)
      as (d & w' & v & He & Hv & Hfirst & _ & _).
    exists d, w'. split; [exact He|]. split; [reflexivity|].
    rewrite Hv.
    rewrite (Hfirst 0 "(\d+\+?\s*years?\s*of\s*experience)"
               "3yearofexperience" eq_refl eq_refl).
    + reflexivity.
    + intros j earlier Hj. inversion Hj.
  - destruct (experience_is_first_match (Samples.page [])
                (Samples.at_top Samples.shouting_posting) Samples.online)
      as (d & w' & v & He & Hv & _ & _ & _ & _ & _ & Hcapitals).
    exists d, w'. split; [exact He|].
    rewrite Hv, (Hcapitals eq_refl). reflexivity.
Defined.

Example stated_skills_of_two_headings :
  Rules.stated_skills Rules.equals_keyword
    (Samples.at_top Samples.skills_posting) = ["A"; "B"; "C"].
Proof. reflexivity. Qed.

(** The list read for a heading need not stand next to it: it is the first
    list among the siblings that follow the heading's paragraph. *)
Example skills_from_a_later_list :
  exists d w',
    extract_job_data (lib := tree_soup (Samples.page []))
      (Samples.at_top Samples.later_list_posting) Samples.online =
      (Ok (Some d), w') /\
    dict_get "SkillsRequired" d = Some (PStr "Free lunch").
Proof. eexists _, _. split; [vm_compute; reflexivity | reflexivity]. Qed.

(** C2, as stated: SkillsRequired joins, for the headings whose text
    equals one of the four keywords, the items of the list that follows
    the heading.  Two postings refute it.  In the first the heading reads
    "Required Skills:": no heading text equals a keyword, and
    SkillsRequired is "Python".  In the second the heading "Required
    Skills" stands directly in the section with its list right after it:
    the list that follows the heading holds A and B, and SkillsRequired
    is empty, because the extractor looks for the list after the
    heading's parent; this holds as well when "equals" is read as
    "contains". *)
Lemma skills_of_equal_headings_refuted :
  ~ (forall html_parser section w,
        exists d w',
          extract_job_data (lib := tree_soup html_parser) section w =
            (Ok (Some d), w') /\
          dict_get "SkillsRequired" d =
            Some (PStr (PyStr.join "; "
                          (Rules.stated_skills Rules.equals_keyword section)))) /\
  (exists d w',
      extract_job_data (lib := tree_soup (Samples.page []))
        (Samples.at_top Samples.colon_heading_posting) Samples.online =
        (Ok (Some d), w') /\
      dict_get "SkillsRequired" d = Some (PStr "Python") /\
      Rules.stated_skills Rules.equals_keyword
        (Samples.at_top Samples.colon_heading_posting) = []) /\
  (exists d w',
      extract_job_data (lib := tree_soup (Samples.page []))
        (Samples.at_top Samples.direct_heading_posting) Samples.online =
        (Ok (Some d), w') /\
      dict_get "SkillsRequired" d = Some (PStr EmptyString) /\
      Rules.stated_skills Rules.equals_keyword
        (Samples.at_top Samples.direct_heading_posting) = ["A"; "B"] /\
      Rules.stated_skills Rules.contains_keyword
        (Samples.at_top Samples.direct_heading_posting) = ["A"; "B"]).
Proof.
  split; [|split].
  - intros claim.
    destruct (claim (Samples.page [])
                (Samples.at_top Samples.colon_heading_posting) Samples.online)
      as (d & w' & He & Hs).
    vm_compute in He. inversion He; subst d. vm_compute in Hs. discriminate Hs.
  - eexists _, _. split; [vm_compute; reflexivity|]. split; reflexivity.
  - eexists _, _. split; [vm_compute; reflexivity|]. repeat split.
Qed.

(** C2, amended.  On every posting section the extractor returns a record
    whose SkillsRequired joins with "; ", over the [strong] elements of
    the section in document order whose string contains one of "Preferred
    Skills", "Required Skills", "Must-Have Skills", "Technical Stack", the
    stripped texts of all [li] elements below the first [ul] among the
    following siblings of the heading's parent; a heading whose parent has
    no such sibling adds nothing.  Two such headings whose lists hold
    [A, B] and [C] give "A; B; C", and no such heading gives the empty
    string. *)
Theorem skills_from_headings html_parser section w :
  exists d w',
    extract_job_data (lib := tree_soup html_parser) section w =
      (Ok (Some d), w') /\
    dict_get "SkillsRequired" d =
      Some (PStr (PyStr.join "; "
                    (Rules.skills_items Rules.contains_keyword section))) /\
    (forall h1 h2 A B C,
        filter (Rules.is_heading Rules.contains_keyword)
          (Tree.descendants section) = [h1; h2] ->
        Rules.items_after h1 = [A; B] ->
        Rules.items_after h2 = [C] ->
        dict_get "SkillsRequired" d =
          Some (PStr (A ++ "; " ++ B ++ "; " ++ C)%string)) /\
    (filter (Rules.is_heading Rules.contains_keyword)
       (Tree.descendants section) = [] ->
     dict_get "SkillsRequired" d = Some (PStr EmptyString)).
Proof.
  destruct (tree_extract_job_data html_parser section w) as (d & He & Hx).
  destruct Hx as (title & category & location & url & jobid & posted &
                  summary & found & benefits & Hfound & E).
  inversion E; subst d; clear E.
  eexists _, (tick w). split; [exact He|]. split; [reflexivity|]. split.
  - intros h1 h2 A B C Hh H1 H2. cbn [dict_get String.eqb Ascii.eqb Bool.eqb].
    unfold Rules.skills_items. rewrite Hh. cbn [flat_map].
    rewrite H1, H2. reflexivity.
  - intros Hh. cbn [dict_get String.eqb Ascii.eqb Bool.eqb].
    unfold Rules.skills_items. rewrite Hh. reflexivity.
Qed.

Lemma skills_from_headings_witness :
  exists d w',
    extract_job_data (lib := tree_soup (Samples.page []))
      (Samples.at_top Samples.skills_posting) Samples.online =
      (Ok (Some d), w') /\
    dict_get "SkillsRequired" d = Some (PStr "A; B; C") /\
  exists d0 w0,
    extract_job_data (lib := tree_soup (Samples.page []))
      (Samples.at_top Samples.empty_posting) Samples.online =
      (Ok (Some d0), w0) /\
    dict_get "SkillsRequired" d0 = Some (PStr EmptyString).
Proof.
  destruct (skills_from_headings (Samples.page [])
              (Samples.at_top Samples.skills_posting) Samples.online)
    as (d & w' & He & _ & Htwo & _).
  exists d, w'. split; [exact He|]. split.
  - exact (Htwo _ _ "A" "B" "C" eq_refl eq_refl eq_refl).
  - destruct (skills_from_headings (Samples.page [])
                (Samples.at_top Samples.empty_posting) Samples.online)
      as (d0 & w0 & He0 & _ & _ & Hnone).
    exists d0, w0. split; [exact He0 | exact (Hnone eq_refl)].
Defined.

(** C9, as stated: ContactEmail is the href of the first mailto link with
    its leading "mailto:" removed and the rest unchanged.  The posting whose
    link reads "mailto:hr@x.com?cc=mailto:boss@x.com" refutes it: the second
    "mailto:" is removed as well. *)
Lemma contact_email_prefix_only_refuted :
  ~ (forall html_parser section w,
        exists d w',
          extract_job_data (lib := tree_soup html_parser) section w =
            (Ok (Some d), w') /\
          dict_get "ContactEmail" d =
            Some (PStr
                    match List.find Rules.is_mailto_link
                            (Tree.descendants section) with
                    | Some a =>
                        Rules.strip_prefix "mailto:"
                          (or_empty (Tree.attr "href" (Tree.node_of a)))
                    | None => EmptyString
                    end)).
Proof.
  intros claim.
  destruct (claim (Samples.page [])
              (Samples.at_top Samples.mailto_posting) Samples.online)
    as (d & w' & He & Hs).
  vm_compute in He. inversion He; subst d. vm_compute in Hs. discriminate Hs.
Qed.

(** C9, amended.  On every posting section the extractor returns a record
    whose ContactEmail is the href of the first link, in document order,
    whose href contains "mailto:", with every occurrence of "mailto:"
    removed; when that href starts with "mailto:" and holds no other
    occurrence, this is the href without the prefix.  Without such a link
    ContactEmail is the empty string. *)
Theorem contact_email_from_first_mailto_link html_parser section w :
  exists d w' v,
    extract_job_data (lib := tree_soup html_parser) section w =
      (Ok (Some d), w') /\
    dict_get "ContactEmail" d = Some (PStr v) /\
    (forall before a after href,
        Tree.descendants section = before ++ a :: after ->
        (forall b, In b before -> Rules.is_mailto_link b = false) ->
        Rules.is_mailto_link a = true ->
        Tree.attr "href" (Tree.node_of a) = Some href ->
        v = PyStr.replace "mailto:" EmptyString href /\
        (forall rest,
            href = ("mailto:" ++ rest)%string ->
            PyStr.contains "mailto:" rest = false ->
            v = rest)) /\
    ((forall e, In e (Tree.descendants section) ->
                Rules.is_mailto_link e = false) ->
     v = EmptyString).
Proof.
  destruct (tree_extract_job_data html_parser section w) as (d & He & Hx).
  destruct Hx as (title & category & location & url & jobid & posted &
                  summary & found & benefits & Hfound & E).
  inversion E; subst d; clear E.
  eexists _, (tick w), _. split; [exact He|]. split; [reflexivity|]. split.
  - intros before a after href Hsplit Hbefore Ha Hhref.
    rewrite Hsplit, (find_first _ _ _ _ Hbefore Ha), Hhref. cbn [or_empty].
    split; [reflexivity|].
    intros rest -> Hrest. apply replace_mailto_prefix. exact Hrest.
  - intros Hnone. rewrite (find_nothing _ _ Hnone). reflexivity.
Qed.

Lemma contact_email_from_first_mailto_link_witness :
  exists d w',
    extract_job_data (lib := tree_soup (Samples.page []))
      (Samples.at_top Samples.plain_mailto_posting) Samples.online =
      (Ok (Some d), w') /\
    dict_get "ContactEmail" d = Some (PStr "hr@x.com").
Proof.
  destruct (contact_email_from_first_mailto_link (Samples.page [])
              (Samples.at_top Samples.plain_mailto_posting) Samples.online)
    as (d & w' & v & He & Hv & Hfirst & _).
  exists d, w'. split; [exact He|]. rewrite Hv.
  set (top := Samples.at_top Samples.plain_mailto_posting).
  set (jobs := Tree.At (Tree.Tag "a" [("href", "/jobs")]
                          [Tree.NavigableString "All jobs"])
                 [Tree.Tag "a" [("href", "mailto:hr@x.com")]
                    [Tree.NavigableString "Write to us"]] (Some top)).
  set (mail := Tree.At (Tree.Tag "a" [("href", "mailto:hr@x.com")]
                          [Tree.NavigableString "Write to us"]) [] (Some top)).
  destruct (Hfirst
              [jobs; Tree.At (Tree.NavigableString "All jobs") [] (Some jobs)]
              mail
              [Tree.At (Tree.NavigableString "Write to us") [] (Some mail)]
              "mailto:hr@x.com" eq_refl) as [_ Hrest].
  - intros b [<- | [<- | []]]; reflexivity.
  - reflexivity.
  - reflexivity.
  - rewrite (Hrest "hr@x.com" eq_refl eq_refl). reflexivity.
Defined.

(** ** The extractor over any implementation of the library *)

Section ExtractorResults.

Context {tag : Type} {lib : Soup tag}.

(** [extract_job_data] never raises: it returns a full record after one
    reading of the clock, or [None] after printing one line. *)
Lemma extract_job_data_cases (job_section : tag) w :
  (exists d,
      extract_job_data job_section w = (Ok (Some d), tick w) /\
      record_shape d) \/
  (exists w',
      extract_job_data job_section w = (Ok None, w') /\ says_only w w').
Proof.
  pose proof (extract_fields_post job_section w) as Hpost.
  unfold extract_job_data, try_except, bind.
  destruct (extract_fields job_section w) as [[d|e] w1]; cbn in Hpost.
  - destruct Hpost as [-> Hshape]. left. exists d. split; [reflexivity | exact Hshape].
  - subst w1. right. destruct e; eexists; (split; [reflexivity | repeat split]).
Qed.

Lemma extract_job_data_record (job_section : tag) w d w' :
  extract_job_data job_section w = (Ok (Some d), w') ->
  w' = tick w /\ record_shape d.
Proof.
  intros He.
  destruct (extract_job_data_cases job_section w)
    as [(d0 & E & Hshape) | (w0 & E & _)]; rewrite E in He; inversion He.
  subst. split; [reflexivity | exact Hshape].
Qed.

End ExtractorResults.

Lemma strftime_length now : String.length (strftime now) = 19.
Proof. reflexivity. Qed.

(** C3. Whenever extraction returns a record, its ScrapedDate is a
    non-empty string (the nineteen characters of the formatted capture
    time) and its SourceURL is the non-empty base URL, whatever the other
    fields hold. *)
Theorem metadata_is_populated {tag : Type} {lib : Soup tag}
  (job_section : tag) w d w' :
  extract_job_data job_section w = (Ok (Some d), w') ->
  exists scraped,
    dict_get "ScrapedDate" d = Some (PStr scraped) /\
    scraped <> EmptyString /\
    String.length scraped = 19 /\
    dict_get "SourceURL" d = Some (PStr BASE_URL) /\
    BASE_URL <> EmptyString.
Proof.
  intros He. apply extract_job_data_record in He as [_ Hshape].
  destruct Hshape as (title & category & location & url & jobid & posted &
                      summary & experience & skills & email & benefits & now & ->).
  exists (strftime now). repeat split.
  - intros Hempty. pose proof (strftime_length now) as Hlen.
    rewrite Hempty in Hlen. discriminate Hlen.
  - discriminate.
Qed.

(** The record of a posting with nothing in it: every extracted field is
    empty, the two metadata fields are not. *)
Lemma metadata_is_populated_witness :
  exists d w',
    extract_job_data (lib := tree_soup (Samples.page []))
      (Samples.at_top Samples.empty_posting) Samples.online =
      (Ok (Some d), w') /\
    (forall field,
        In field [ "JobTitle"; "JobCategory"; "Location"; "ExperienceRequired";
                   "PostingDate"; "JobDescriptionSummary"; "SkillsRequired";
                   "ContactEmail"; "CompanyBenefits"; "Salary"; "JobURL";
                   "JobID" ] ->
        dict_get field d = Some (PStr EmptyString)) /\
    exists scraped,
      dict_get "ScrapedDate" d = Some (PStr scraped) /\
      scraped <> EmptyString /\
      String.length scraped = 19 /\
      dict_get "SourceURL" d = Some (PStr BASE_URL) /\
      BASE_URL <> EmptyString.
Proof.
  eexists _, _. split; [vm_compute; reflexivity|]. split.
  - intros field Hin.
    repeat (destruct Hin as [<- | Hin]; [reflexivity|]). destruct Hin.
  - eapply (metadata_is_populated (lib := tree_soup (Samples.page []))
              (Samples.at_top Samples.empty_posting) Samples.online).
    vm_compute. reflexivity.
Defined.

(** ** Two runs that read the same clock *)

Lemma says_only_same_time w w' : says_only w w' -> same_time w' w.
Proof. intros (Hc & Ht & _). split; assumption. Qed.

Lemma agree_ret {A} (a : A) : agree (ret a) (ret a).
Proof. intros w1 w2 Hw. split; [reflexivity | exact Hw]. Qed.

Lemma agree_lift {A} (o : outcome A) : agree (lift o) (lift o).
Proof. intros w1 w2 Hw. split; [reflexivity | exact Hw]. Qed.

Lemma agree_raise {A} e : agree (@raise A e) (raise e).
Proof. intros w1 w2 Hw. split; [reflexivity | exact Hw]. Qed.

Lemma agree_print m1 m2 : agree (print m1) (print m2).
Proof. intros w1 w2 Hw. split; [reflexivity | exact Hw]. Qed.

Lemma agree_now : agree datetime_now datetime_now.
Proof.
  intros w1 w2 [Hc Ht]. unfold datetime_now, same_time. cbn.
  rewrite Hc, Ht. repeat split.
Qed.

Lemma agree_bind {A B} (c1 c2 : io A) (k1 k2 : A -> io B) :
  agree c1 c2 -> (forall a, agree (k1 a) (k2 a)) ->
  agree (bind c1 k1) (bind c2 k2).
Proof.
  intros Hc Hk w1 w2 Hw. unfold bind. destruct (Hc w1 w2 Hw) as [Hr Hw'].
  destruct (c1 w1) as [[a1|e1] u1], (c2 w2) as [[a2|e2] u2]; cbn in *;
    try discriminate Hr.
  - inversion Hr; subst a2. apply Hk. exact Hw'.
  - inversion Hr; subst e2. split; [reflexivity | exact Hw'].
Qed.

Lemma agree_try {A} (c1 c2 : io A) (h1 h2 : exn -> io A) :
  agree c1 c2 -> (forall e, agree (h1 e) (h2 e)) ->
  agree (try_except c1 h1) (try_except c2 h2).
Proof.
  intros Hc Hh w1 w2 Hw. unfold try_except. destruct (Hc w1 w2 Hw) as [Hr Hw'].
  destruct (c1 w1) as [[a1|e1] u1], (c2 w2) as [[a2|e2] u2]; cbn in *;
    try discriminate Hr.
  - split; assumption.
  - inversion Hr; subst e2. apply Hh. exact Hw'.
Qed.

Ltac agree_step :=
  first [ apply agree_ret | apply agree_lift | apply agree_raise
        | apply agree_print | apply agree_now
        | apply agree_bind; [|intro] ].

Section ExtractorAgrees.

Context {tag : Type} {lib : Soup tag}.

Lemma agree_on_object {A} attr o (m : tag -> outcome A) :
  agree (on_object attr o m) (on_object attr o m).
Proof. destruct o; cbn; agree_step. Qed.

Lemma agree_text_or_empty o : agree (text_or_empty o) (text_or_empty o).
Proof. destruct o; cbn; repeat agree_step. Qed.

Lemma agree_attr_or_empty o a : agree (attr_or_empty o a) (attr_or_empty o a).
Proof. destruct o; cbn; agree_step. Qed.

Lemma agree_paragraph_after s label :
  agree (paragraph_after s label) (paragraph_after s label).
Proof.
  unfold paragraph_after. agree_step; [agree_step|].
  destruct a as [h|]; [|agree_step].
  agree_step; [agree_step|]. agree_step; [apply agree_on_object|].
  apply agree_text_or_empty.
Qed.

Lemma agree_texts_of items : agree (texts_of items) (texts_of items).
Proof.
  induction items as [|li rest IH]; cbn [texts_of]; [agree_step|].
  agree_step; [agree_step|]. agree_step; [exact IH|]. agree_step.
Qed.

Lemma agree_collect_skills sections acc :
  agree (collect_skills sections acc) (collect_skills sections acc).
Proof.
  revert acc. induction sections as [|h rest IH]; intros acc;
    cbn [collect_skills]; [agree_step|].
  agree_step; [agree_step|]. agree_step; [apply agree_on_object|].
  destruct a0 as [ul|]; [|apply IH].
  agree_step; [agree_step|]. agree_step; [apply agree_texts_of|]. apply IH.
Qed.

Lemma agree_py_replace old new v :
  agree (py_replace old new v) (py_replace old new v).
Proof. destruct v; cbn; agree_step. Qed.

Lemma agree_extract_fields s : agree (extract_fields s) (extract_fields s).
Proof.
  unfold extract_fields.
  repeat first
    [ apply agree_text_or_empty | apply agree_attr_or_empty
    | apply agree_paragraph_after | apply agree_collect_skills
    | match goal with
      | |- agree (match ?x with Some _ => _ | None => _ end) _ =>
          destruct x; [agree_step; [agree_step | apply agree_py_replace]
                      | agree_step]
      end
    | agree_step ].
Qed.

Lemma agree_extract_job_data s :
  agree (extract_job_data s) (extract_job_data s).
Proof.
  unfold extract_job_data. apply agree_try.
  - agree_step; [apply agree_extract_fields | agree_step].
  - intros e. destruct e; repeat agree_step.
Qed.

End ExtractorAgrees.

(** ** The loop over the posting sections *)

Section LoopFacts.

Context {tag : Type} {lib : Soup tag}.

Lemma record_shape_cons d : record_shape d -> exists kv rest, d = kv :: rest.
Proof.
  intros (title & category & location & url & jobid & posted & summary &
          experience & skills & email & benefits & now & ->).
  eauto.
Qed.

(** The loop never raises; it appends full records, at most one per
    section, and leaves the files alone. *)
Lemma extract_all_total (sections : list tag) :
  forall i n acc k0 w,
  exists new w',
    extract_all sections i n acc k0 w =
      (Ok (acc ++ new, k0 + List.length new), w') /\
    Forall record_shape new /\
    List.length new <= List.length sections /\
    same_files w w'.
Proof.
  induction sections as [|s rest IH]; intros i n acc k0 w; cbn [extract_all].
  - exists [], w. rewrite app_nil_r, Nat.add_0_r. repeat split; auto.
  - erewrite bind_eq by reflexivity.
    set (w1 := {| clock := clock w; ticks := ticks w;
                  stdout := stdout w ++ [ProcessingJob i n];
                  files := files w; http_get := http_get w |}).
    destruct (extract_job_data_cases s w1) as [(d & E & Hd) | (w2 & E & Hs)];
      rewrite (bind_eq _ _ _ _ _ E).
    + destruct (record_shape_cons d Hd) as (kv & tl & ->). cbv beta iota.
      match goal with
      | |- context [extract_all rest (S i) n ?a (S k0) ?w2] =>
          destruct (IH (S i) n a (S k0) w2)
            as (new & w' & Hrun & Hnew & Hlen & Hfiles)
      end.
      exists ((kv :: tl) :: new), w'. rewrite Hrun.
      rewrite <- app_assoc. cbn [app List.length].
      rewrite Nat.add_succ_r. repeat split.
      * constructor; assumption.
      * lia.
      * unfold same_files in *. rewrite Hfiles. reflexivity.
    + cbv beta iota. erewrite bind_eq by reflexivity.
      match goal with
      | |- context [extract_all rest (S i) n acc k0 ?w3] =>
          destruct (IH (S i) n acc k0 w3) as (new & w' & Hrun & Hnew & Hlen & Hfiles)
      end.
      exists new, w'. rewrite Hrun.
      split; [reflexivity|]. split; [exact Hnew|]. split; [cbn; lia|].
      unfold same_files in *. rewrite Hfiles. cbn.
      destruct Hs as (_ & _ & Hf & _). exact Hf.
Qed.

Lemma agree_extract_all (sections : list tag) :
  forall i i' n n' acc k,
    agree (extract_all sections i n acc k) (extract_all sections i' n' acc k).
Proof.
  induction sections as [|s rest IH]; intros i i' n n' acc k;
    cbn [extract_all]; [agree_step|].
  agree_step; [agree_step|]. agree_step; [apply agree_extract_job_data|].
  destruct a0 as [[|kv d]|].
  - agree_step; [agree_step | apply IH].
  - apply IH.
  - agree_step; [agree_step | apply IH].
Qed.

Lemma extract_all_app (l1 l2 : list tag) :
  forall i n acc k w,
    extract_all (l1 ++ l2) i n acc k w =
    bind (extract_all l1 i n acc k)
      (fun r => extract_all l2 (i + List.length l1) n (fst r) (snd r)) w.
Proof.
  induction l1 as [|s rest IH]; intros i n acc k w; cbn [app extract_all List.length].
  - rewrite Nat.add_0_r. reflexivity.
  - rewrite bind_assoc. apply bind_ext. intros _ w1.
    rewrite bind_assoc. apply bind_ext. intros job_data w2.
    rewrite Nat.add_succ_r.
    destruct job_data as [[|kv d]|]; apply IH.
Qed.

(** A section whose extraction fails is skipped, and the records of the
    other sections are those of the run without it. *)
Lemma extract_all_skips (before after : list tag) (s : tag)
  i n acc k w acc1 k1 w1 :
  extract_all before i n acc k w = (Ok (acc1, k1), w1) ->
  fst (extract_job_data s w1) = Ok None ->
  fst (extract_all (before ++ s :: after) i n acc k w) =
  fst (extract_all (before ++ after) i n acc k w).
Proof.
  intros Hbefore Hfail.
  rewrite !extract_all_app, !(bind_eq _ _ _ _ _ Hbefore).
  cbn [fst snd extract_all].
  erewrite bind_eq by reflexivity.
  set (w1' := {| clock := clock w1; ticks := ticks w1;
                 stdout := stdout w1 ++ [ProcessingJob (i + List.length before) n];
                 files := files w1; http_get := http_get w1 |}).
  assert (Hfail' : fst (extract_job_data s w1') = Ok None).
  { rewrite <- Hfail. symmetry.
    apply (agree_extract_job_data s w1 w1'). split; reflexivity. }
  destruct (extract_job_data_cases s w1') as [(d & E & _) | (w2 & E & Hs)];
    rewrite E in Hfail'; [discriminate Hfail'|].
  rewrite (bind_eq _ _ _ _ _ E).
  erewrite bind_eq by reflexivity.
  apply agree_extract_all.
  apply says_only_same_time in Hs. destruct Hs as [Hc Ht].
  split; cbn; [rewrite Hc | rewrite Ht]; reflexivity.
Qed.

(** A section whose extraction gives a record contributes that record,
    right after the records of the sections before it. *)
Lemma extract_all_keeps (before after : list tag) (s : tag)
  i n acc k w acc1 k1 w1 d :
  extract_all before i n acc k w = (Ok (acc1, k1), w1) ->
  fst (extract_job_data s w1) = Ok (Some d) ->
  exists rest w',
    extract_all (before ++ s :: after) i n acc k w =
      (Ok (acc1 ++ d :: rest, S k1 + List.length rest), w') /\
    List.length rest <= List.length after.
Proof.
  intros Hbefore Hgood.
  rewrite extract_all_app, (bind_eq _ _ _ _ _ Hbefore).
  cbn [fst snd extract_all].
  erewrite bind_eq by reflexivity.
  set (w1' := {| clock := clock w1; ticks := ticks w1;
                 stdout := stdout w1 ++ [ProcessingJob (i + List.length before) n];
                 files := files w1; http_get := http_get w1 |}).
  assert (Hgood' : fst (extract_job_data s w1') = Ok (Some d)).
  { rewrite <- Hgood. symmetry.
    apply (agree_extract_job_data s w1 w1'). split; reflexivity. }
  destruct (extract_job_data_cases s w1') as [(d' & E & Hshape) | (w2 & E & _)];
    rewrite E in Hgood'; [|discriminate Hgood'].
  cbn [fst] in Hgood'. inversion Hgood'. subst d'.
  rewrite (bind_eq _ _ _ _ _ E).
  destruct (record_shape_cons d Hshape) as (kv & tl & ->).
  destruct (extract_all_total after (S (i + List.length before)) n
              (acc1 ++ [kv :: tl]) (S k1) (tick w1'))
    as (rest & w' & Hrun & _ & Hlen & _).
  exists rest, w'. split; [|exact Hlen].
  etransitivity; [exact Hrun|]. rewrite <- app_assoc. reflexivity.
Qed.

End LoopFacts.

(** ** Frames *)

Lemma mem_In k l : mem k l = true <-> In k l.
Proof.
  unfold mem. rewrite existsb_exists. split.
  - intros (x & Hin & Heq). apply String.eqb_eq in Heq. subst x. exact Hin.
  - intros Hin. exists k. split; [exact Hin | apply String.eqb_refl].
Qed.

Lemma mem_add_new k ks : forall acc,
  mem k (add_new acc ks) = mem k acc || mem k ks.
Proof.
  induction ks as [|x rest IH]; intros acc; cbn [add_new].
  - cbn. rewrite orb_false_r. reflexivity.
  - rewrite IH. cbn [mem existsb]. fold (mem k rest).
    destruct (mem x acc) eqn:Hx.
    + destruct (String.eqb k x) eqn:Hk; [|reflexivity].
      apply String.eqb_eq in Hk. subst x. rewrite Hx. reflexivity.
    + unfold mem at 1. rewrite existsb_app. cbn. fold (mem k acc).
      rewrite orb_false_r, orb_assoc. reflexivity.
Qed.

Lemma mem_fold_keys k jobs : forall acc,
  mem k (fold_left (fun acc d => add_new acc (dict_keys d)) jobs acc) =
  mem k acc || existsb (fun d => mem k (dict_keys d)) jobs.
Proof.
  induction jobs as [|d rest IH]; intros acc; cbn [fold_left existsb].
  - rewrite orb_false_r. reflexivity.
  - rewrite IH, mem_add_new, orb_assoc. reflexivity.
Qed.

Lemma mem_columns k jobs :
  mem k (columns (DataFrame_of_records jobs)) =
  existsb (fun d => mem k (dict_keys d)) jobs.
Proof. cbn [DataFrame_of_records columns]. rewrite mem_fold_keys. reflexivity. Qed.

Lemma mem_dict_keys k d : mem k (dict_keys d) = is_some (dict_get k d).
Proof.
  induction d as [|[k' v] d IH]; [reflexivity|].
  cbn. destruct (String.eqb k k'); [reflexivity | exact IH].
Qed.

Lemma value_at_map c (f : string -> dfval) cols :
  value_at c cols (map f cols) = if mem c cols then f c else NaN.
Proof.
  induction cols as [|c' cols IH]; [reflexivity|].
  cbn. destruct (String.eqb c c') eqn:Hc.
  - apply String.eqb_eq in Hc. subst c'. reflexivity.
  - exact IH.
Qed.

Lemma filter_all {A} (f : A -> bool) l :
  (forall x, In x l -> f x = true) -> filter f l = l.
Proof.
  intros Hall. induction l as [|x l IH]; [reflexivity|].
  cbn. rewrite (Hall x) by (left; reflexivity).
  f_equal. apply IH. intros y Hy. apply Hall. right. exact Hy.
Qed.

Lemma prepare_frame_rows jobs :
  rows (prepare_frame jobs) =
  map (fun d => map (fun c => written c d)
                  (existing_columns (DataFrame_of_records jobs))) jobs.
Proof.
  unfold prepare_frame. cbn [replace_empty_with_None select rows columns].
  cbn [DataFrame_of_records rows].
  rewrite !map_map. apply map_ext. intros d.
  rewrite map_map. apply map_ext_in. intros c Hc.
  unfold existing_columns in Hc. apply filter_In in Hc as [_ Hc].
  cbn [DataFrame_of_records columns] in Hc.
  rewrite (value_at_map c (fun c => dfval_of (dict_get c d))), Hc.
  reflexivity.
Qed.

Lemma prepare_frame_len jobs : len (prepare_frame jobs) = List.length jobs.
Proof. unfold len. rewrite prepare_frame_rows. apply length_map. Qed.

Lemma absent_column jobs c :
  In c column_order ->
  mem c (existing_columns (DataFrame_of_records jobs)) = false ->
  forall d, In d jobs -> dict_get c d = None.
Proof.
  intros Hc Hm d Hd. destruct (dict_get c d) eqn:Hg; [|reflexivity].
  assert (Hin : mem c (existing_columns (DataFrame_of_records jobs)) = true).
  { apply mem_In. unfold existing_columns. apply filter_In.
    split; [exact Hc|]. rewrite mem_columns. apply existsb_exists.
    exists d. split; [exact Hd|]. rewrite mem_dict_keys, Hg. reflexivity. }
  congruence.
Qed.

(** The column of a schema field: one value per record, blank where the
    record has none. *)
Lemma prepare_frame_column jobs c :
  In c column_order ->
  column (prepare_frame jobs) c = map (written c) jobs.
Proof.
  intros Hc. unfold column. rewrite prepare_frame_rows, map_map.
  change (columns (prepare_frame jobs))
    with (existing_columns (DataFrame_of_records jobs)).
  apply map_ext_in. intros d Hd.
  rewrite (value_at_map c (fun c => written c d)).
  destruct (mem c (existing_columns (DataFrame_of_records jobs))) eqn:Hm;
    [reflexivity|].
  unfold written. rewrite (absent_column jobs c Hc Hm d Hd). reflexivity.
Qed.

Lemma record_shape_all_columns d : record_shape d -> has_all_columns d = true.
Proof.
  intros (title & category & location & url & jobid & posted & summary &
          experience & skills & email & benefits & now & ->).
  reflexivity.
Qed.

Lemma existing_columns_full jobs :
  jobs <> [] ->
  (forall d, In d jobs -> has_all_columns d = true) ->
  existing_columns (DataFrame_of_records jobs) = column_order.
Proof.
  intros Hne Hall. unfold existing_columns. apply filter_all. intros c Hc.
  rewrite mem_columns. destruct jobs as [|d rest]; [contradiction|].
  cbn [existsb]. rewrite mem_dict_keys.
  specialize (Hall d (or_introl eq_refl)). unfold has_all_columns in Hall.
  rewrite forallb_forall in Hall. rewrite (Hall c Hc). reflexivity.
Qed.

(** ** Counting values *)

Lemma distinct_In x l : In x (distinct l) <-> In x l.
Proof.
  induction l as [|y r IH]; cbn [distinct]; [reflexivity|].
  cbn [In]. rewrite filter_In, IH. split.
  - intros [Hy | [Hr _]]; auto.
  - intros [Hy | Hr]; [left; exact Hy|].
    destruct (String.eqb y x) eqn:Hyx.
    + left. apply String.eqb_eq. exact Hyx.
    + right. split; [exact Hr | reflexivity].
Qed.

Lemma distinct_NoDup l : NoDup (distinct l).
Proof.
  induction l as [|y r IH]; cbn [distinct]; constructor.
  - rewrite filter_In. intros [_ Hy]. rewrite String.eqb_refl in Hy.
    discriminate Hy.
  - apply NoDup_filter. exact IH.
Qed.

Lemma insert_by_count_perm x l : Permutation (insert_by_count x l) (x :: l).
Proof.
  induction l as [|y r IH]; cbn [insert_by_count]; [reflexivity|].
  destruct (snd y <=? snd x); [reflexivity|].
  rewrite IH. apply perm_swap.
Qed.

Lemma sort_by_count_perm l : Permutation (fold_right insert_by_count [] l) l.
Proof.
  induction l as [|x r IH]; cbn [fold_right]; [reflexivity|].
  rewrite insert_by_count_perm. constructor. exact IH.
Qed.

Lemma insert_by_count_sorted x l :
  StronglySorted by_count_descending l ->
  StronglySorted by_count_descending (insert_by_count x l).
Proof.
  induction 1 as [|y r Hr IH Hy]; cbn [insert_by_count].
  - constructor; constructor.
  - destruct (snd y <=? snd x) eqn:Hle.
    + apply Nat.leb_le in Hle. constructor; [constructor; assumption|].
      constructor; [exact Hle|].
      eapply Forall_impl; [|exact Hy]. unfold by_count_descending.
      intros z Hz. lia.
    + apply Nat.leb_gt in Hle. constructor; [exact IH|].
      eapply Permutation_Forall.
      * symmetry. apply insert_by_count_perm.
      * constructor; [unfold by_count_descending; lia | exact Hy].
Qed.

Lemma sort_by_count_sorted l :
  StronglySorted by_count_descending (fold_right insert_by_count [] l).
Proof.
  induction l as [|x r IH]; cbn [fold_right]; [constructor|].
  apply insert_by_count_sorted. exact IH.
Qed.

Lemma non_null_In s vals : In s (non_null vals) <-> In (VStr s) vals.
Proof.
  induction vals as [|v r IH]; cbn [non_null]; [reflexivity|].
  destruct v as [| |t]; cbn [In]; rewrite IH; split;
    try (intros [H|H]; [discriminate H | exact H]); auto.
  - intros [<- | H]; auto.
  - intros [H | H]; [inversion H|]; auto.
Qed.

Lemma value_counts_perm vals :
  Permutation (value_counts vals)
    (map (fun v => (v, occurrences v (non_null vals)))
       (distinct (non_null vals))).
Proof. apply sort_by_count_perm. Qed.

Lemma value_counts_keys vals :
  NoDup (map fst (value_counts vals)) /\
  (forall v, In v (map fst (value_counts vals)) <-> In (VStr v) vals).
Proof.
  pose proof (Permutation_map fst (value_counts_perm vals)) as Hp.
  rewrite map_map, map_id in Hp. split.
  - eapply Permutation_NoDup; [symmetry; exact Hp | apply distinct_NoDup].
  - intros v. split; intros Hin.
    + apply non_null_In, distinct_In.
      eapply Permutation_in; [exact Hp | exact Hin].
    + apply non_null_In, distinct_In in Hin.
      eapply Permutation_in; [symmetry; exact Hp | exact Hin].
Qed.

Lemma value_counts_count vals v n :
  In (v, n) (value_counts vals) -> n = occurrences v (non_null vals).
Proof.
  intros Hin. eapply Permutation_in in Hin; [|apply value_counts_perm].
  apply in_map_iff in Hin as (x & Hx & _). inversion Hx. reflexivity.
Qed.

Lemma value_counts_sorted vals :
  StronglySorted by_count_descending (value_counts vals).
Proof. apply sort_by_count_sorted. Qed.

(** ** The breakdowns of the summary *)

Lemma written_VStr c d s :
  written c d = VStr s <-> dict_get c d = Some (PStr s) /\ s <> EmptyString.
Proof.
  unfold written. destruct (dict_get c d) as [[|[|a t]]|]; cbn; split;
    try (intros H; discriminate H); try (intros [H _]; discriminate H).
  - intros [H Hne]. inversion H. subst s. contradiction.
  - intros H. inversion H. split; [reflexivity | discriminate].
  - intros [H _]. inversion H. reflexivity.
Qed.

Lemma written_values c jobs v :
  In (VStr v) (map (written c) jobs) <->
  v <> EmptyString /\ exists d, In d jobs /\ dict_get c d = Some (PStr v).
Proof.
  rewrite in_map_iff. split.
  - intros (d & Hw & Hd). apply written_VStr in Hw as [Hg Hne].
    split; [exact Hne | exists d; split; assumption].
  - intros (Hne & d & Hd & Hg). exists d. split; [|exact Hd].
    apply written_VStr. split; assumption.
Qed.

Lemma occurrences_written c v jobs :
  v <> EmptyString ->
  occurrences v (non_null (map (written c) jobs)) =
  List.length (filter (holds c v) jobs).
Proof.
  intros Hne. unfold occurrences.
  induction jobs as [|d rest IH]; [reflexivity|].
  cbn [map filter]. unfold written at 1, holds at 1.
  destruct (dict_get c d) as [[|[|a t]]|]; cbn [dfval_of empty_to_None non_null].
  - exact IH.
  - destruct (String.eqb v EmptyString) eqn:Hv; [|exact IH].
    apply String.eqb_eq in Hv. contradiction.
  - cbn [filter]. destruct (String.eqb v (String a t)); cbn [List.length];
      rewrite IH; reflexivity.
  - exact IH.
Qed.

Lemma breakdown_prepared jobs c :
  In c column_order ->
  exists counts,
    breakdown (prepare_frame jobs) c = map breakdown_row counts /\
    is_breakdown c jobs counts.
Proof.
  intros Hc. unfold breakdown.
  change (columns (prepare_frame jobs))
    with (existing_columns (DataFrame_of_records jobs)).
  destruct (mem c (existing_columns (DataFrame_of_records jobs))) eqn:Hm.
  - exists (value_counts (column (prepare_frame jobs) c)).
    split; [reflexivity|].
    rewrite (prepare_frame_column jobs c Hc).
    destruct (value_counts_keys (map (written c) jobs)) as [Hnd Hkeys].
    split; [exact Hnd|]. split; [|split].
    + intros v. rewrite Hkeys. apply written_values.
    + intros v n Hin. pose proof Hin as Hn.
      apply value_counts_count in Hn. rewrite Hn.
      apply occurrences_written.
      apply (in_map fst) in Hin. apply Hkeys, written_values in Hin.
      apply Hin.
    + apply value_counts_sorted.
  - exists []. split; [reflexivity|]. split; [constructor|]. split; [|split].
    + intros v. split; [intros []|].
      intros (_ & d & Hd & Hg).
      rewrite (absent_column jobs c Hc Hm d Hd) in Hg. discriminate Hg.
    + intros v n [].
    + constructor.
Qed.

(** ** Saving *)

(** For a non-empty collection the exporter returns the file name and adds
    one file: the Jobs sheet of the prepared frame and its Summary. *)
Lemma save_jobs_to_excel_ok jobs filename w :
  jobs <> [] ->
  exists name,
    fst (save_jobs_to_excel jobs filename w) = Ok name /\
    (filename = None -> name = "Techversant_Jobs.xlsx") /\
    files (snd (save_jobs_to_excel jobs filename w)) =
      (name,
       [ ("Jobs", to_excel (prepare_frame jobs));
         ("Summary",
          summary_data (prepare_frame jobs) (clock w (ticks w))) ])
      :: files w.
Proof.
  intros Hne. destruct jobs as [|d rest]; [contradiction|].
  eexists. split; [reflexivity|]. split; [|reflexivity].
  intros ->. reflexivity.
Qed.

Lemma save_jobs_to_excel_empty filename w :
  save_jobs_to_excel [] filename w =
  (Raise (ValueError "No job data provided to save"), w).
Proof. reflexivity. Qed.

(** ** The validator *)

Lemma validate_says_only jobs : frame says_only (validate_scraped_data jobs).
Proof.
  intros w. unfold validate_scraped_data. destruct jobs as [|d rest].
  - repeat split.
  - unfold bind. cbn [print]. destruct (Qltb _ _); repeat split.
Qed.

Lemma validate_total jobs w :
  exists healthy, fst (validate_scraped_data jobs w) = Ok healthy.
Proof.
  unfold validate_scraped_data. destruct jobs as [|d rest].
  - exists false. reflexivity.
  - unfold bind. cbn [print]. destruct (Qltb _ _); eexists; reflexivity.
Qed.

(** The rate is below 80 exactly when fewer than 80 in 100 records are
    complete. *)
Lemma low_rate_iff jobs :
  jobs <> [] ->
  Qltb (completion_rate jobs) (inject_Z 80) = true <->
  100 * complete_jobs jobs < 80 * List.length jobs.
Proof.
  intros Hne. unfold Qltb, completion_rate.
  assert (Hlen : 0 < List.length jobs) by (destruct jobs; [contradiction | cbn; lia]).
  destruct (List.length jobs) as [|n] eqn:Hn; [lia|].
  generalize (complete_jobs jobs). intros c.
  rewrite negb_true_iff, <- not_true_iff_false, Qle_bool_iff.
  unfold Qle, Qmult, Qdiv, Qinv, inject_Z. cbn [Qnum Qden].
  rewrite Nat2Z.inj_succ. unfold Z.succ.
  destruct (Z.of_nat n + 1)%Z as [|p|p] eqn:Hp; try lia.
  unfold Qmult. cbn [Qnum Qden].
  rewrite ?Pos.mul_1_l, ?Pos.mul_1_r, ?Z.mul_1_r. lia.
Qed.

Lemma validate_run jobs w :
  exists healthy w',
    validate_scraped_data jobs w = (Ok healthy, w') /\ says_only w w'.
Proof.
  destruct (validate_total jobs w) as [healthy Hh].
  pose proof (validate_says_only jobs w) as Hs.
  destruct (validate_scraped_data jobs w) as [r w']. cbn in Hh, Hs. subst r.
  exists healthy, w'. split; [reflexivity | exact Hs].
Qed.

(** ** The run *)

Section RunFacts.

Context {tag : Type} {lib : Soup tag}.

(** What the second half of the run does with the records that survive
    extraction: without any, no result and no file; with some, the file. *)
Lemma process_sections_cases (sections : list tag) w jobs k :
  sections <> [] ->
  fst (extract_all sections 1 (List.length sections) [] 0 w) = Ok (jobs, k) ->
  (jobs = [] ->
   fst (process_sections sections w) = Ok None /\
   files (snd (process_sections sections w)) = files w) /\
  (jobs <> [] ->
   fst (process_sections sections w) = Ok (Some default_name) /\
   exists now,
     files (snd (process_sections sections w)) =
       (default_name,
        [ ("Jobs", to_excel (prepare_frame jobs));
          ("Summary", summary_data (prepare_frame jobs) now) ])
       :: files w).
Proof.
  intros Hne Hjobs. destruct sections as [|s rest]; [contradiction|].
  set (sections := s :: rest) in *.
  unfold process_sections. fold sections. cbv iota.
  change (match sections with [] => _ | _ :: _ => ?X end) with X.
  erewrite bind_eq by reflexivity.
  set (w1 := {| clock := clock w; ticks := ticks w;
                stdout := stdout w ++ [FoundPostings (List.length sections)];
                files := files w; http_get := http_get w |}).
  destruct (extract_all_total sections 1 (List.length sections) [] 0 w1)
    as (new & w2 & Hrun & _ & _ & Hfiles2).
  assert (Hsame : fst (extract_all sections 1 (List.length sections) [] 0 w1) =
                  Ok (jobs, k)).
  { rewrite <- Hjobs.
    apply (agree_extract_all sections 1 1 _ _ [] 0 w1 w). split; reflexivity. }
  rewrite Hrun in Hsame. cbn [fst app] in Hsame. inversion Hsame; subst new.
  clear Hsame. cbn [app] in Hrun.
  rewrite (bind_eq _ _ _ _ _ Hrun). cbn [fst snd].
  erewrite bind_eq by reflexivity.
  match goal with
  | |- context [bind (validate_scraped_data jobs) _ ?w3] =>
      destruct (validate_run jobs w3) as (healthy & w4 & Hv & Hs4);
      set (w3' := w3) in *
  end.
  rewrite (bind_eq _ _ _ _ _ Hv).
  assert (Hfiles4 : files w4 = files w).
  { destruct Hs4 as (_ & _ & Hf & _). rewrite Hf. cbn. exact Hfiles2. }
  assert (Hclose :
    exists w5, (if healthy then ret tt else print ValidationConcerns) w4 =
               (Ok tt, w5) /\ files w5 = files w /\
               clock w5 = clock w4 /\ ticks w5 = ticks w4).
  { destruct healthy; eexists; (split; [reflexivity|]); cbn; auto. }
  destruct Hclose as (w5 & Hc & Hfiles5 & Hclock5 & Hticks5).
  rewrite (bind_eq _ _ _ _ _ Hc). split.
  - intros ->. cbn. split; [reflexivity | exact Hfiles5].
  - intros Hsome. destruct jobs as [|d tl] eqn:Hj; [contradiction|].
    rewrite <- Hj in *.
    destruct (save_jobs_to_excel_ok jobs None w5)
      as (name & Hname & Hdefault & Hsaved); [rewrite Hj; discriminate|].
    rewrite (Hdefault eq_refl) in *.
    destruct (save_jobs_to_excel jobs None w5) as [r w6] eqn:Hsave.
    cbn [fst snd] in Hname, Hsaved. subst r.
    replace (match jobs with
             | [] => print NoJobDataExtracted ;;; ret None
             | _ :: _ =>
                 filename <- save_jobs_to_excel jobs None ;;
                 print ScrapingCompleted ;;;
                 print (FileSavedAs filename) ;;;
                 print (TotalJobsScraped (List.length jobs)) ;;;
                 ret (Some filename)
             end)
      with (filename <- save_jobs_to_excel jobs None ;;
            print ScrapingCompleted ;;;
            print (FileSavedAs filename) ;;;
            print (TotalJobsScraped (List.length jobs)) ;;;
            ret (Some filename)) by (rewrite Hj; reflexivity).
    rewrite (bind_eq _ _ _ _ _ Hsave). cbn.
    split; [reflexivity|].
    exists (clock w5 (ticks w5)). rewrite Hsaved, Hfiles5. reflexivity.
Qed.

Lemma process_sections_total (sections : list tag) w :
  exists r, fst (process_sections sections w) = Ok r.
Proof.
  destruct sections as [|s rest] eqn:Hs; [eexists; reflexivity|].
  rewrite <- Hs.
  destruct (extract_all_total sections 1 (List.length sections) [] 0 w)
    as (new & w2 & Hrun & _).
  assert (Hne : sections <> []) by (rewrite Hs; discriminate).
  destruct (process_sections_cases sections w new (List.length new) Hne)
    as [Hnone Hsome]; [rewrite Hrun; reflexivity|].
  destruct new as [|d tl].
  - exists None. apply Hnone. reflexivity.
  - exists (Some default_name). apply Hsome. discriminate.
Qed.

Lemma same_files_check_pagination (soup : tag) :
  frame same_files (check_pagination soup).
Proof.
  unfold check_pagination.
  repeat (apply same_files_bind; [apply same_files_lift | intro]).
  apply same_files_ret.
Qed.

Lemma same_files_fetch_sections : frame same_files fetch_sections.
Proof.
  unfold fetch_sections.
  apply same_files_bind; [apply same_files_print | intro].
  apply same_files_bind; [apply same_files_requests_get | intro].
  apply same_files_bind; [apply same_files_lift | intro].
  apply same_files_bind; [apply same_files_check_pagination | intro].
  apply same_files_bind; [|intro; apply same_files_lift].
  destruct a2.
  - apply same_files_bind; [apply same_files_print | intro].
    apply same_files_print.
  - apply same_files_print.
Qed.

(** The run never raises. *)
Lemma scrape_jobs_total w : exists r w', scrape_jobs w = (Ok r, w').
Proof.
  unfold scrape_jobs, try_except.
  destruct (bind fetch_sections _ w) as [[r|e] w1].
  - eexists _, _; reflexivity.
  - destruct e; eexists _, _; reflexivity.
Qed.

(** Once the sections are found, the run is their processing. *)
Lemma scrape_jobs_processes w sections w1 :
  fetch_sections w = (Ok sections, w1) ->
  scrape_jobs w = process_sections sections w1.
Proof.
  intros Hf. unfold scrape_jobs, try_except.
  rewrite (bind_eq _ _ _ _ _ Hf).
  destruct (process_sections_total sections w1) as [r Hr].
  destruct (process_sections sections w1) as [o w2]. cbn in Hr. subst o.
  reflexivity.
Qed.

Lemma fetched_files w sections w1 :
  fetch_sections w = (Ok sections, w1) -> files w1 = files w.
Proof.
  intros Hf. pose proof (same_files_fetch_sections w) as Hs.
  rewrite Hf in Hs. exact Hs.
Qed.

End RunFacts.

(** ** Failures of single postings *)

(** C4. Extraction of one section never raises: it returns either a full
    record (all fourteen fields) or the skip signal, never a partial
    record.  The loop over the sections never raises either and collects
    full records only; a section whose extraction fails contributes
    nothing, and the records and the count collected from the other
    sections are exactly those of the run without it; a section whose
    extraction gives a record contributes that record, right after the
    records of the sections before it, whatever happened to those and
    whatever follows.  The run as a whole never raises, and returns the
    file name as soon as one record survives. *)
Theorem failed_sections_are_skipped {tag : Type} {lib : Soup tag} :
  (forall (s : tag) w,
      (exists d, extract_job_data s w = (Ok (Some d), tick w) /\ record_shape d) \/
      (exists w', extract_job_data s w = (Ok None, w') /\ says_only w w')) /\
  (forall (sections : list tag) i n acc k w,
      exists new w',
        extract_all sections i n acc k w =
          (Ok (acc ++ new, k + List.length new), w') /\
        Forall record_shape new) /\
  (forall (before after : list tag) (s : tag) i n acc k w acc1 k1 w1,
      extract_all before i n acc k w = (Ok (acc1, k1), w1) ->
      fst (extract_job_data s w1) = Ok None ->
      fst (extract_all (before ++ s :: after) i n acc k w) =
      fst (extract_all (before ++ after) i n acc k w)) /\
  (forall w, exists r w', scrape_jobs w = (Ok r, w')) /\
  (forall w (sections : list tag) w1 jobs k,
      fetch_sections w = (Ok sections, w1) ->
      fst (extract_all sections 1 (List.length sections) [] 0 w1) = Ok (jobs, k) ->
      jobs <> [] ->
      fst (scrape_jobs w) = Ok (Some default_name)) /\
  (forall (before after : list tag) (s : tag) i n acc k w acc1 k1 w1 d,
      extract_all before i n acc k w = (Ok (acc1, k1), w1) ->
      fst (extract_job_data s w1) = Ok (Some d) ->
      exists rest w',
        extract_all (before ++ s :: after) i n acc k w =
          (Ok (acc1 ++ d :: rest, S k1 + List.length rest), w') /\
        List.length rest <= List.length after).
Proof.
  split; [exact extract_job_data_cases|]. split; [|split; [|split; [|split]]].
  - intros sections i n acc k w.
    destruct (extract_all_total sections i n acc k w)
      as (new & w' & Hrun & Hnew & _).
    exists new, w'. split; assumption.
  - intros before after s i n acc k w acc1 k1 w1.
    apply extract_all_skips.
  - exact scrape_jobs_total.
  - intros w sections w1 jobs k Hfetch Hjobs Hsome.
    rewrite (scrape_jobs_processes w sections w1 Hfetch).
    assert (Hne : sections <> []).
    { intros ->. cbn in Hjobs. inversion Hjobs. subst jobs. contradiction. }
    apply (process_sections_cases sections w1 jobs k Hne Hjobs). exact Hsome.
  - intros before after s i n acc k w acc1 k1 w1 d.
    apply extract_all_keeps.
Qed.

(** Three postings, the second of which cannot be extracted: the records
    collected are those of the first and the third, and no other. *)
Lemma failed_sections_are_skipped_witness :
  fst (extract_all (lib := orphan_soup (Samples.page []))
         ([Samples.at_top (Samples.complete_posting "QA" "Kochi")] ++
          Samples.at_top Samples.benefits_posting ::
          [Samples.at_top (Samples.complete_posting "Dev" "Pune")])
         1 3 [] 0 Samples.online) =
  fst (extract_all (lib := orphan_soup (Samples.page []))
         ([Samples.at_top (Samples.complete_posting "QA" "Kochi")] ++
          [Samples.at_top (Samples.complete_posting "Dev" "Pune")])
         1 3 [] 0 Samples.online) /\
  exists first third w',
    extract_all (lib := orphan_soup (Samples.page []))
      ([ Samples.at_top (Samples.complete_posting "QA" "Kochi");
         Samples.at_top Samples.benefits_posting ] ++
       Samples.at_top (Samples.complete_posting "Dev" "Pune") :: [])
      1 3 [] 0 Samples.online = (Ok ([first; third], 2), w') /\
    dict_get "JobCategory" first = Some (PStr "QA") /\
    dict_get "JobCategory" third = Some (PStr "Dev").
Proof.
  pose proof (failed_sections_are_skipped (lib := orphan_soup (Samples.page [])))
    as (_ & _ & Hskip & _ & _ & Hkeep).
  split.
  - eapply Hskip; vm_compute; reflexivity.
  - edestruct (Hkeep [ Samples.at_top (Samples.complete_posting "QA" "Kochi");
                       Samples.at_top Samples.benefits_posting ] []
                 (Samples.at_top (Samples.complete_posting "Dev" "Pune"))
                 1 3 [] 0 Samples.online)
      as (rest & w' & Hrun & Hlen);
      [vm_compute; reflexivity | vm_compute; reflexivity |].
    destruct rest as [|extra rest]; [|cbn in Hlen; lia].
    eexists _, _, w'. split; [exact Hrun|]. split; reflexivity.
Defined.

(** ** Runs without data *)

(** C7. When no posting section is found on the page, or no record
    survives extraction, the run returns no result and creates no file. *)
Theorem no_data_no_file {tag : Type} {lib : Soup tag}
  w (sections : list tag) w1 :
  fetch_sections w = (Ok sections, w1) ->
  sections = [] \/
  (exists k,
      fst (extract_all sections 1 (List.length sections) [] 0 w1) = Ok ([], k)) ->
  fst (scrape_jobs w) = Ok None /\
  files (snd (scrape_jobs w)) = files w.
Proof.
  intros Hfetch Hnone.
  rewrite (scrape_jobs_processes w sections w1 Hfetch).
  rewrite <- (fetched_files w sections w1 Hfetch).
  destruct Hnone as [-> | [k Hk]].
  - split; reflexivity.
  - destruct sections as [|s rest] eqn:Hs; [split; reflexivity|].
    rewrite <- Hs in *.
    apply (process_sections_cases sections w1 [] k); [rewrite Hs; discriminate| |];
      [exact Hk | reflexivity].
Qed.

Lemma no_data_no_file_witness :
  (fst (scrape_jobs (lib := tree_soup (Samples.page [])) Samples.online) = Ok None /\
   files (snd (scrape_jobs (lib := tree_soup (Samples.page [])) Samples.online)) =
   files Samples.online) /\
  (fst (scrape_jobs (lib := orphan_soup (Samples.page [Samples.benefits_posting]))
          Samples.online) = Ok None /\
   files (snd (scrape_jobs
                 (lib := orphan_soup (Samples.page [Samples.benefits_posting]))
                 Samples.online)) =
   files Samples.online).
Proof.
  split.
  - eapply (no_data_no_file (lib := tree_soup (Samples.page []))).
    + vm_compute. reflexivity.
    + left. reflexivity.
  - eapply (no_data_no_file
              (lib := orphan_soup (Samples.page [Samples.benefits_posting]))).
    + vm_compute. reflexivity.
    + right. exists 0. vm_compute. reflexivity.
Defined.

(** ** Validation *)

Lemma is_complete_iff job :
  is_complete job = true <->
  forall field,
    In field ["JobTitle"; "JobCategory"; "Location"] ->
    exists s, dict_get field job = Some (PStr s) /\ s <> EmptyString.
Proof.
  unfold is_complete, essential_fields. rewrite forallb_forall. split.
  - intros Hall field Hin. specialize (Hall field Hin).
    unfold dict_get_default in Hall.
    destruct (dict_get field job) as [[|[|a s]]|]; try discriminate Hall.
    eexists. split; [reflexivity | discriminate].
  - intros Hall field Hin. destruct (Hall field Hin) as (s & Hs & Hne).
    unfold dict_get_default. rewrite Hs. destruct s; [contradiction | reflexivity].
Qed.

Lemma validate_result jobs w :
  jobs <> [] ->
  validate_scraped_data jobs w =
  if Qltb (completion_rate jobs) (inject_Z 80)
  then (Ok false,
        {| clock := clock w; ticks := ticks w;
           stdout := (stdout w ++
                      [DataCompleteness (complete_jobs jobs) (List.length jobs)])
                     ++ [LowCompletionRate];
           files := files w; http_get := http_get w |})
  else (Ok true,
        {| clock := clock w; ticks := ticks w;
           stdout := stdout w ++
                     [DataCompleteness (complete_jobs jobs) (List.length jobs)];
           files := files w; http_get := http_get w |}).
Proof.
  intros Hne. destruct jobs as [|d rest]; [contradiction|].
  unfold validate_scraped_data, bind. cbn [print].
  destruct (Qltb _ _); reflexivity.
Qed.

(** C5. For a non-empty collection the validator returns true exactly when
    at least 80 in 100 of the records have JobTitle, JobCategory and
    Location all non-empty; below that it returns false and prints the
    warning.  The export does not depend on it: a run whose records fall
    below the threshold still writes the file and returns its name. *)
Theorem validation_is_advisory {tag : Type} {lib : Soup tag} :
  (forall job,
      is_complete job = true <->
      forall field,
        In field ["JobTitle"; "JobCategory"; "Location"] ->
        exists s, dict_get field job = Some (PStr s) /\ s <> EmptyString) /\
  (forall jobs w,
      jobs <> [] ->
      (fst (validate_scraped_data jobs w) = Ok true <->
       80 * List.length jobs <= 100 * List.length (filter is_complete jobs)) /\
      (100 * List.length (filter is_complete jobs) < 80 * List.length jobs ->
       fst (validate_scraped_data jobs w) = Ok false /\
       In LowCompletionRate (stdout (snd (validate_scraped_data jobs w))))) /\
  (forall w (sections : list tag) w1 jobs k,
      fetch_sections w = (Ok sections, w1) ->
      fst (extract_all sections 1 (List.length sections) [] 0 w1) = Ok (jobs, k) ->
      jobs <> [] ->
      100 * List.length (filter is_complete jobs) < 80 * List.length jobs ->
      fst (scrape_jobs w) = Ok (Some default_name) /\
      exists now,
        files (snd (scrape_jobs w)) =
          (default_name,
           [ ("Jobs", to_excel (prepare_frame jobs));
             ("Summary", summary_data (prepare_frame jobs) now) ])
          :: files w).
Proof.
  split; [exact is_complete_iff|]. split.
  - intros jobs w Hne. rewrite (validate_result jobs w Hne).
    pose proof (low_rate_iff jobs Hne) as Hlow. unfold complete_jobs in Hlow.
    destruct (Qltb (completion_rate jobs) (inject_Z 80)); cbn [fst snd stdout].
    + assert (Hlt : 100 * List.length (filter is_complete jobs) <
                    80 * List.length jobs) by (apply Hlow; reflexivity).
      split.
      * split; [intros H; discriminate H | intros H; lia].
      * intros _. split; [reflexivity|]. apply in_or_app. right. left. reflexivity.
    + assert (Hge : ~ 100 * List.length (filter is_complete jobs) <
                      80 * List.length jobs).
      { intros Hlt. apply Hlow in Hlt. discriminate Hlt. }
      split.
      * split; [intros _; lia | reflexivity].
      * intros Hlt. contradiction.
  - intros w sections w1 jobs k Hfetch Hjobs Hsome _.
    rewrite (scrape_jobs_processes w sections w1 Hfetch).
    rewrite <- (fetched_files w sections w1 Hfetch).
    assert (Hne : sections <> []).
    { intros ->. cbn in Hjobs. inversion Hjobs. subst jobs. contradiction. }
    apply (process_sections_cases sections w1 jobs k Hne Hjobs). exact Hsome.
Qed.

(** A page with one posting that has nothing in it: the validator is not
    satisfied, the file is written all the same. *)
Lemma validation_is_advisory_witness :
  fst (scrape_jobs (lib := tree_soup (Samples.page [Samples.empty_posting]))
         Samples.online) = Ok (Some default_name) /\
  exists now,
    files (snd (scrape_jobs
                  (lib := tree_soup (Samples.page [Samples.empty_posting]))
                  Samples.online)) =
      (default_name,
       [ ("Jobs",
          to_excel (prepare_frame
                      [ [ ("JobTitle", PStr EmptyString);
                          ("JobCategory", PStr EmptyString);
                          ("Location", PStr EmptyString);
                          ("JobURL", PStr EmptyString);
                          ("JobID", PStr EmptyString);
                          ("PostingDate", PStr EmptyString);
                          ("JobDescriptionSummary", PStr EmptyString);
                          ("ExperienceRequired", PStr EmptyString);
                          ("SkillsRequired", PStr EmptyString);
                          ("ContactEmail", PStr EmptyString);
                          ("CompanyBenefits", PStr EmptyString);
                          ("Salary", PStr EmptyString);
                          ("ScrapedDate", PStr "2025-06-01 12:00:00");
                          ("SourceURL", PStr BASE_URL) ] ]));
         ("Summary",
          summary_data
            (prepare_frame
               [ [ ("JobTitle", PStr EmptyString);
                   ("JobCategory", PStr EmptyString);
                   ("Location", PStr EmptyString);
                   ("JobURL", PStr EmptyString);
                   ("JobID", PStr EmptyString);
                   ("PostingDate", PStr EmptyString);
                   ("JobDescriptionSummary", PStr EmptyString);
                   ("ExperienceRequired", PStr EmptyString);
                   ("SkillsRequired", PStr EmptyString);
                   ("ContactEmail", PStr EmptyString);
                   ("CompanyBenefits", PStr EmptyString);
                   ("Salary", PStr EmptyString);
                   ("ScrapedDate", PStr "2025-06-01 12:00:00");
                   ("SourceURL", PStr BASE_URL) ] ]) now) ])
      :: files Samples.online.
Proof.
  eapply (proj2 (proj2 (validation_is_advisory
                          (lib := tree_soup (Samples.page [Samples.empty_posting]))))
            Samples.online _ _ _ 1).
  - vm_compute. reflexivity.
  - vm_compute. reflexivity.
  - discriminate.
  - vm_compute. lia.
Defined.

(** ** The workbook *)

Lemma breakdown_rows df c row :
  In row (breakdown df c) -> exists kv, row = breakdown_row kv.
Proof.
  unfold breakdown. destruct (mem c (columns df)); [|intros []].
  intros Hin. apply in_map_iff in Hin as (kv & <- & _). exists kv. reflexivity.
Qed.

Lemma to_excel_rows jobs :
  (forall d, In d jobs -> has_all_columns d = true) -> jobs <> [] ->
  to_excel (prepare_frame jobs) =
  map Text column_order ::
  map (fun d => map (fun c => cell_of (written c d)) column_order) jobs.
Proof.
  intros Hall Hne. unfold to_excel. rewrite prepare_frame_rows.
  change (columns (prepare_frame jobs))
    with (existing_columns (DataFrame_of_records jobs)).
  rewrite (existing_columns_full jobs Hne Hall). f_equal.
  rewrite map_map. apply map_ext. intros d. apply map_map.
Qed.



(** C8. In the Summary sheet of every exported collection the breakdown by
    JobCategory, and likewise the one by Location, has one row per
    distinct value of the field, each with the number of records that hold
    the value, in the order in which the counts were grouped: most
    frequent first.  A record whose field is empty has no value: its cell
    is blank and is not counted. *)
Theorem summary_breakdowns jobs filename w :
  jobs <> [] ->
  exists name jobs_sheet now by_category by_location,
    files (snd (save_jobs_to_excel jobs filename w)) =
      (name,
       [ ("Jobs", jobs_sheet);
         ("Summary",
          [ [Text "Metric"; Text "Value"];
            [Text "Total Jobs"; Number (List.length jobs)];
            [Text "Scraping Date"; Text (strftime now)];
            [Text "Source"; Text "Techversant Infotech"];
            [Text "Source URL"; Text BASE_URL];
            [Text EmptyString];
            [Text "Jobs by Category"; Text EmptyString] ]
          ++ map breakdown_row by_category
          ++ [ [Text EmptyString];
               [Text "Jobs by Location"; Text EmptyString] ]
          ++ map breakdown_row by_location) ]) :: files w /\
    is_breakdown "JobCategory" jobs by_category /\
    is_breakdown "Location" jobs by_location.
Proof.
  intros Hne.
  destruct (save_jobs_to_excel_ok jobs filename w Hne)
    as (name & _ & _ & Hfiles).
  destruct (breakdown_prepared jobs "JobCategory") as (cats & Hcats & Hc).
  { cbn. auto. }
  destruct (breakdown_prepared jobs "Location") as (locs & Hlocs & Hl).
  { cbn. auto. }
  exists name, (to_excel (prepare_frame jobs)), (clock w (ticks w)), cats, locs.
  split; [|split; assumption].
  rewrite Hfiles. unfold summary_data.
  rewrite Hcats, Hlocs, prepare_frame_len. reflexivity.
Qed.

Lemma summary_breakdowns_witness :
  exists name jobs_sheet now by_category by_location,
    files (snd (save_jobs_to_excel
                  [ [("JobCategory", PStr "Dev"); ("Location", PStr "Kochi")];
                    [("JobCategory", PStr "QA"); ("Location", PStr "Kochi")];
                    [("JobCategory", PStr "QA"); ("Location", PStr EmptyString)] ]
                  None Samples.online)) =
      (name,
       [ ("Jobs", jobs_sheet);
         ("Summary",
          [ [Text "Metric"; Text "Value"];
            [Text "Total Jobs"; Number 3];
            [Text "Scraping Date"; Text (strftime now)];
            [Text "Source"; Text "Techversant Infotech"];
            [Text "Source URL"; Text BASE_URL];
            [Text EmptyString];
            [Text "Jobs by Category"; Text EmptyString] ]
          ++ map breakdown_row by_category
          ++ [ [Text EmptyString];
               [Text "Jobs by Location"; Text EmptyString] ]
          ++ map breakdown_row by_location) ]) :: [] /\
    is_breakdown "JobCategory"
      [ [("JobCategory", PStr "Dev"); ("Location", PStr "Kochi")];
        [("JobCategory", PStr "QA"); ("Location", PStr "Kochi")];
        [("JobCategory", PStr "QA"); ("Location", PStr EmptyString)] ]
      by_category /\
    is_breakdown "Location"
      [ [("JobCategory", PStr "Dev"); ("Location", PStr "Kochi")];
        [("JobCategory", PStr "QA"); ("Location", PStr "Kochi")];
        [("JobCategory", PStr "QA"); ("Location", PStr EmptyString)] ]
      by_location.
Proof.
  apply (summary_breakdowns
           [ [("JobCategory", PStr "Dev"); ("Location", PStr "Kochi")];
             [("JobCategory", PStr "QA"); ("Location", PStr "Kochi")];
             [("JobCategory", PStr "QA"); ("Location", PStr EmptyString)] ]
           None Samples.online).
  discriminate.
Defined.

(** The summary of the three records above: QA twice before Dev once, and
    Kochi twice; the record without a location is not counted. *)
Example summary_of_three_records :
  match files (snd (save_jobs_to_excel
                      [ [("JobCategory", PStr "Dev"); ("Location", PStr "Kochi")];
                        [("JobCategory", PStr "QA"); ("Location", PStr "Kochi")];
                        [("JobCategory", PStr "QA"); ("Location", PStr EmptyString)] ]
                      None Samples.online)) with
  | [(_, [_; (_, summary)])] => skipn 7 summary
  | _ => []
  end =
  [ [Text "  QA"; Number 2]; [Text "  Dev"; Number 1];
    [Text EmptyString]; [Text "Jobs by Location"; Text EmptyString];
    [Text "  Kochi"; Number 2] ].
Proof. vm_compute. reflexivity. Qed.

(** ** The columns of the export *)

(** C10.  An apply link without [href] and [datatitle] makes JobURL and
    JobID [None], where a posting without the link gets the empty string
    for both: [apply_button.get('href')] has no default, against the
    script's own rule of an empty string for missing data. *)
Lemma apply_link_without_href_gives_None :
  (exists d w',
      extract_job_data (lib := tree_soup (Samples.page []))
        (Samples.at_top Samples.bare_apply_posting) Samples.online =
        (Ok (Some d), w') /\
      dict_get "JobURL" d = Some PNone /\
      dict_get "JobID" d = Some PNone) /\
  (exists d w',
      extract_job_data (lib := tree_soup (Samples.page []))
        (Samples.at_top Samples.empty_posting) Samples.online =
        (Ok (Some d), w') /\
      dict_get "JobURL" d = Some (PStr EmptyString) /\
      dict_get "JobID" d = Some (PStr EmptyString)).
Proof.
  split; eexists _, _; (split; [vm_compute; reflexivity|]); split; reflexivity.
Qed.

(** C10, as stated, fails there: not every field of an extracted record
    holds at least the empty string. *)
Lemma every_field_a_string_refuted :
  ~ (forall html_parser section w d w',
        extract_job_data (lib := tree_soup html_parser) section w =
          (Ok (Some d), w') ->
        forall field,
          In field column_order ->
          exists s, dict_get field d = Some (PStr s)).
Proof.
  intros claim.
  destruct (claim (Samples.page [])
              (Samples.at_top Samples.bare_apply_posting) Samples.online
              _ _ eq_refl "JobURL") as [s Hs].
  - cbn. auto 20.
  - vm_compute in Hs. discriminate Hs.
Qed.

(** X22.  Whenever extraction returns a record, the record has all
    fourteen fields of the schema as keys, the twelve other than JobURL
    and JobID each bound to a string.  So for any non-empty collection of
    extracted records the columns kept by the exporter are the full fixed
    order of fourteen, and they head the Jobs sheet. *)
Theorem records_fill_every_column {tag : Type} {lib : Soup tag} :
  (forall (s : tag) w d w',
      extract_job_data s w = (Ok (Some d), w') ->
      forall field,
        In field column_order ->
        exists v,
          dict_get field d = Some v /\
          (field <> "JobURL" -> field <> "JobID" -> exists str, v = PStr str)) /\
  (forall jobs,
      jobs <> [] ->
      (forall d, In d jobs ->
                 exists (s : tag) w w', extract_job_data s w = (Ok (Some d), w')) ->
      existing_columns (DataFrame_of_records jobs) = column_order /\
      columns (prepare_frame jobs) = column_order /\
      forall filename w,
        exists name records summary,
          files (snd (save_jobs_to_excel jobs filename w)) =
            (name,
             [ ("Jobs", map Text column_order :: records);
               ("Summary", summary) ]) :: files w).
Proof.
  split.
  - intros s w d w' He field Hin.
    apply extract_job_data_record in He as [_ Hshape].
    destruct Hshape as (title & category & location & url & jobid & posted &
                        summary & experience & skills & email & benefits &
                        now & ->).
    cbn [column_order In] in Hin.
    repeat (destruct Hin as [<- | Hin];
            [eexists; split; [reflexivity|];
             intros Hurl Hid; try contradiction; eauto|]).
    destruct Hin.
  - intros jobs Hne Hextracted.
    assert (Hall : forall d, In d jobs -> has_all_columns d = true).
    { intros d Hd. destruct (Hextracted d Hd) as (s & w & w' & He).
      apply extract_job_data_record in He as [_ Hshape].
      apply record_shape_all_columns. exact Hshape. }
    pose proof (existing_columns_full jobs Hne Hall) as Hcols.
    split; [exact Hcols|]. split; [exact Hcols|].
    intros filename w.
    destruct (save_jobs_to_excel_ok jobs filename w Hne)
      as (name & _ & _ & Hfiles).
    rewrite Hfiles, (to_excel_rows jobs Hall Hne).
    eexists _, _, _. reflexivity.
Qed.

Lemma records_fill_every_column_witness :
  exists d w',
    extract_job_data (lib := tree_soup (Samples.page []))
      (Samples.at_top Samples.bare_apply_posting) Samples.online =
      (Ok (Some d), w') /\
    dict_get "JobURL" d = Some PNone /\
    (forall field,
        In field column_order ->
        exists v,
          dict_get field d = Some v /\
          (field <> "JobURL" -> field <> "JobID" -> exists str, v = PStr str)) /\
    existing_columns (DataFrame_of_records [d]) = column_order.
Proof.
  eexists _, _. split; [vm_compute; reflexivity|]. split; [reflexivity|]. split.
  - eapply (proj1 (records_fill_every_column
                     (lib := tree_soup (Samples.page [])))
              (Samples.at_top Samples.bare_apply_posting) Samples.online).
    vm_compute. reflexivity.
  - eapply (proj2 (records_fill_every_column
                     (lib := tree_soup (Samples.page [])))).
    + discriminate.
    + intros d [<- | []].
      exists (Samples.at_top Samples.bare_apply_posting), Samples.online.
      eexists. vm_compute. reflexivity.
Defined.

(** * Further properties of the script *)

(** ** The record of a posting on a document tree *)

Section TreeRecord.

Variable html_parser : string -> list Tree.node.

Local Abbreviation tree := (tree_soup html_parser).

Lemma tree_text_or_empty_eq o w :
  text_or_empty (lib := tree) o w = (Ok (PStr (OnTree.text_of o)), w).
Proof. destruct o; reflexivity. Qed.

Lemma tree_attr_or_empty_eq o a w :
  attr_or_empty (lib := tree) o a w = (Ok (OnTree.attr_of o a), w).
Proof. destruct o; reflexivity. Qed.

Lemma tree_paragraph_after_eq section label w :
  paragraph_after (lib := tree) section label w =
  (Ok (PStr (OnTree.paragraph_text section label)), w).
Proof.
  unfold paragraph_after, OnTree.paragraph_text, OnTree.first_selected.
  erewrite bind_eq by reflexivity. cbn [find tree_soup].
  destruct (List.find _ _) as [h|] eqn:Hf; [|reflexivity].
  apply found_has_parent in Hf as [p Hp].
  erewrite bind_eq by reflexivity. cbn [parent tree_soup]. rewrite Hp.
  erewrite bind_eq by reflexivity. cbn [find_next_sibling tree_soup].
  apply tree_text_or_empty_eq.
Qed.

(** On a tree [extract_job_data] is [posting_record] at the time of the
    next reading of the clock. *)
Lemma tree_extract_job_data_eq section w :
  extract_job_data (lib := tree) section w =
  (Ok (Some (OnTree.posting_record section (clock w (ticks w)))), tick w).
Proof.
  unfold extract_job_data, try_except.
  assert (Hfields :
    extract_fields (lib := tree) section w =
    (Ok (OnTree.posting_record section (clock w (ticks w))), tick w)).
  { unfold extract_fields.
    erewrite bind_eq by reflexivity.
    erewrite bind_eq by apply tree_text_or_empty_eq.
    erewrite bind_eq by reflexivity.
    erewrite bind_eq by apply tree_text_or_empty_eq.
    erewrite bind_eq by reflexivity.
    erewrite bind_eq by apply tree_text_or_empty_eq.
    erewrite bind_eq by reflexivity.
    erewrite bind_eq by apply tree_attr_or_empty_eq.
    erewrite bind_eq by apply tree_attr_or_empty_eq.
    erewrite bind_eq by reflexivity.
    erewrite bind_eq by apply tree_text_or_empty_eq.
    erewrite bind_eq by apply tree_paragraph_after_eq.
    erewrite bind_eq by reflexivity.
    cbn [get_text find find_all tree_soup].
    unfold OnTree.posting_record, OnTree.experience_of.
    destruct (first_experience_total (Tree.text false (Tree.node_of section)))
      as [found Hfound].
    rewrite Hfound.
    erewrite bind_eq by reflexivity.
    erewrite bind_eq by reflexivity.
    erewrite bind_eq.
    2:{ rewrite tree_collect_skills; [reflexivity|].
        apply Forall_forall. intros h Hin. apply filter_In in Hin as [Hin _].
        eapply descendants_have_parent; eassumption. }
    cbn [app]. rewrite join_or_empty.
    rewrite (filter_pointwise _ _ _ skills_filter_is_heading).
    fold (Rules.skills_items Rules.contains_keyword section).
    erewrite bind_eq by reflexivity.
    rewrite (find_pointwise _ _ _ mailto_filter_is_link).
    assert (Hemail :
      match List.find Rules.is_mailto_link (Tree.descendants section) with
      | Some a =>
          href <- lift (get (Soup := tree) a "href") ;;
          py_replace "mailto:" EmptyString href
      | None => ret (PStr EmptyString)
      end w = (Ok (PStr (OnTree.email_of section)), w)).
    { unfold OnTree.email_of.
      destruct (List.find _ _) as [a|] eqn:Ha; [|reflexivity].
      apply find_some in Ha as [_ Ha]. unfold Rules.is_mailto_link in Ha.
      apply andb_prop in Ha as [_ Ha]. cbn [get tree_soup].
      destruct (Tree.attr "href" (Tree.node_of a)) as [href|]; [|discriminate].
      reflexivity. }
    rewrite (bind_eq _ _ _ _ _ Hemail).
    erewrite bind_eq by apply tree_paragraph_after_eq.
    unfold bind, datetime_now, tick. cbn.
    destruct found as [[|c m]|]; reflexivity. }
  rewrite (bind_eq _ _ _ _ _ Hfields). reflexivity.
Qed.

End TreeRecord.

(** X1. The three direct lookups.  JobTitle, JobCategory and Location are
    the stripped text of the first element, in document order, with the
    wanted tag and class; a posting without such an element gets the empty
    string for the field and is extracted all the same. *)
Theorem direct_fields_read_first_element html_parser section w :
  exists d,
    extract_job_data (lib := tree_soup html_parser) section w =
      (Ok (Some d), tick w) /\
    forall field name class,
      In (field, name, class)
         [ ("JobTitle", "h3", "crr_app_hh");
           ("JobCategory", "span", "crr_app_tp bluecrr");
           ("Location", "span", "crr_app_plc") ] ->
      (forall before e after,
          Tree.descendants section = before ++ e :: after ->
          (forall b, In b before -> Tree.selects name (ClassIs class) b = false) ->
          Tree.selects name (ClassIs class) e = true ->
          dict_get field d = Some (PStr (Tree.text true (Tree.node_of e)))) /\
      ((forall e, In e (Tree.descendants section) ->
                  Tree.selects name (ClassIs class) e = false) ->
       dict_get field d = Some (PStr EmptyString)).
Proof.
  rewrite tree_extract_job_data_eq. eexists. split; [reflexivity|].
  intros field name class Hin.
  destruct Hin as [Hin | [Hin | [Hin | []]]]; inversion Hin; subst; clear Hin;
    unfold OnTree.posting_record; cbn [dict_get String.eqb Ascii.eqb Bool.eqb];
    unfold OnTree.first_selected; split.
  all: try (intros before e after Hsplit Hbefore He;
            rewrite Hsplit, (find_first _ _ _ _ Hbefore He); reflexivity).
  all: intros Hnone; rewrite (find_nothing _ _ Hnone); reflexivity.
Qed.

Lemma direct_fields_read_first_element_witness :
  exists d,
    extract_job_data (lib := tree_soup (Samples.page []))
      (Samples.at_top (Samples.complete_posting "QA" "Pune")) Samples.online =
      (Ok (Some d), tick Samples.online) /\
    dict_get "JobCategory" d = Some (PStr "QA") /\
    exists d0,
      extract_job_data (lib := tree_soup (Samples.page []))
        (Samples.at_top Samples.empty_posting) Samples.online =
        (Ok (Some d0), tick Samples.online) /\
      dict_get "Location" d0 = Some (PStr EmptyString).
Proof.
  destruct (direct_fields_read_first_element (Samples.page [])
              (Samples.at_top (Samples.complete_posting "QA" "Pune"))
              Samples.online) as (d & He & Hfields).
  exists d. split; [exact He|]. split.
  - set (top := Samples.at_top (Samples.complete_posting "QA" "Pune")).
    set (h3 := Tree.Tag "h3" [("class", "crr_app_hh")]
                 [Tree.NavigableString "Developer"]).
    set (cat := Tree.Tag "span" [("class", "crr_app_tp bluecrr")]
                  [Tree.NavigableString "QA"]).
    set (loc := Tree.Tag "span" [("class", "crr_app_plc")]
                  [Tree.NavigableString "Pune"]).
    set (eh3 := Tree.At h3 [cat; loc] (Some top)).
    set (ecat := Tree.At cat [loc] (Some top)).
    set (eloc := Tree.At loc [] (Some top)).
    destruct (Hfields "JobCategory" "span" "crr_app_tp bluecrr") as [Hfirst _].
    { right. left. reflexivity. }
    rewrite (Hfirst
               [eh3; Tree.At (Tree.NavigableString "Developer") [] (Some eh3)]
               ecat
               [Tree.At (Tree.NavigableString "QA") [] (Some ecat); eloc;
                Tree.At (Tree.NavigableString "Pune") [] (Some eloc)]
               eq_refl).
    + reflexivity.
    + intros b [<- | [<- | []]]; reflexivity.
    + reflexivity.
  - destruct (direct_fields_read_first_element (Samples.page [])
                (Samples.at_top Samples.empty_posting) Samples.online)
      as (d0 & He0 & Hfields0).
    exists d0. split; [exact He0|].
    destruct (Hfields0 "Location" "span" "crr_app_plc") as [_ Hnone].
    { right. right. left. reflexivity. }
    apply Hnone. intros e [].
Defined.

(** X2. The apply link.  JobURL and JobID are the [href] and the
    [datatitle] attribute of one and the same element: the first link, in
    document order, of class crr_app_nw; an attribute the link lacks gives
    [None].  Without such a link both fields are the empty string. *)
Theorem apply_link_fields html_parser section w :
  exists d,
    extract_job_data (lib := tree_soup html_parser) section w =
      (Ok (Some d), tick w) /\
    (forall before a after,
        Tree.descendants section = before ++ a :: after ->
        (forall b, In b before ->
                   Tree.selects "a" (ClassIs "crr_app_nw") b = false) ->
        Tree.selects "a" (ClassIs "crr_app_nw") a = true ->
        dict_get "JobURL" d =
          Some (match Tree.attr "href" (Tree.node_of a) with
                | Some v => PStr v
                | None => PNone
                end) /\
        dict_get "JobID" d =
          Some (match Tree.attr "datatitle" (Tree.node_of a) with
                | Some v => PStr v
                | None => PNone
                end)) /\
    ((forall e, In e (Tree.descendants section) ->
                Tree.selects "a" (ClassIs "crr_app_nw") e = false) ->
     dict_get "JobURL" d = Some (PStr EmptyString) /\
     dict_get "JobID" d = Some (PStr EmptyString)).
Proof.
  rewrite tree_extract_job_data_eq. eexists. split; [reflexivity|].
  unfold OnTree.posting_record; cbn [dict_get String.eqb Ascii.eqb Bool.eqb];
    unfold OnTree.first_selected. split.
  - intros before a after Hsplit Hbefore Ha.
    rewrite Hsplit, (find_first _ _ _ _ Hbefore Ha). split; reflexivity.
  - intros Hnone. rewrite (find_nothing _ _ Hnone). split; reflexivity.
Qed.

Lemma apply_link_fields_witness :
  exists d,
    extract_job_data (lib := tree_soup (Samples.page []))
      (Samples.at_top Samples.bare_apply_posting) Samples.online =
      (Ok (Some d), tick Samples.online) /\
    dict_get "JobURL" d = Some PNone /\
    dict_get "JobID" d = Some PNone.
Proof.
  destruct (apply_link_fields (Samples.page [])
              (Samples.at_top Samples.bare_apply_posting) Samples.online)
    as (d & He & Hlink & _).
  exists d. split; [exact He|].
  set (top := Samples.at_top Samples.bare_apply_posting).
  set (a := Tree.At (Tree.Tag "a" [("class", "crr_app_nw")]
                       [Tree.NavigableString "Apply"]) [] (Some top)).
  apply (Hlink [] a [Tree.At (Tree.NavigableString "Apply") [] (Some a)] eq_refl).
  - intros b [].
  - reflexivity.
Defined.

(** X3. The two labelled paragraphs.  JobDescriptionSummary and
    CompanyBenefits are the stripped text of the first [p] element among
    the following siblings of the parent of the first [strong] element
    whose string is exactly the label.  Without such a heading, or without
    a paragraph after its block, the field is the empty string; the
    posting is never skipped for it. *)
Theorem labelled_paragraph_fields html_parser section w :
  exists d,
    extract_job_data (lib := tree_soup html_parser) section w =
      (Ok (Some d), tick w) /\
    forall field label,
      In (field, label)
         [ ("JobDescriptionSummary", "What's important to us:");
           ("CompanyBenefits", "What Company Offers:") ] ->
      ((forall e, In e (Tree.descendants section) ->
                  Tree.selects "strong" (StringIs (equals label)) e = false) ->
       dict_get field d = Some (PStr EmptyString)) /\
      (forall before h after p,
          Tree.descendants section = before ++ h :: after ->
          (forall b, In b before ->
                     Tree.selects "strong" (StringIs (equals label)) b = false) ->
          Tree.selects "strong" (StringIs (equals label)) h = true ->
          Tree.up_of h = Some p ->
          (forall para,
              Tree.next_named "p" (Tree.following_of p) (Tree.up_of p) = Some para ->
              dict_get field d = Some (PStr (Tree.text true (Tree.node_of para)))) /\
          (Tree.next_named "p" (Tree.following_of p) (Tree.up_of p) = None ->
           dict_get field d = Some (PStr EmptyString))).
Proof.
  rewrite tree_extract_job_data_eq. eexists. split; [reflexivity|].
  intros field label Hin.
  destruct Hin as [Hin | [Hin | []]]; inversion Hin; subst; clear Hin;
    unfold OnTree.posting_record; cbn [dict_get String.eqb Ascii.eqb Bool.eqb];
    unfold OnTree.paragraph_text, OnTree.first_selected; split.
  all: try (intros Hnone; rewrite (find_nothing _ _ Hnone); reflexivity).
  all: intros before h after p Hsplit Hbefore Hh Hp;
    rewrite Hsplit, (find_first _ _ _ _ Hbefore Hh), Hp; split;
    [intros para Hpara; rewrite Hpara; reflexivity
    | intros Hnone; rewrite Hnone; reflexivity].
Qed.

Lemma labelled_paragraph_fields_witness :
  exists d,
    extract_job_data (lib := tree_soup (Samples.page []))
      (Samples.at_top (Samples.complete_posting "QA" "Pune")) Samples.online =
      (Ok (Some d), tick Samples.online) /\
    dict_get "CompanyBenefits" d = Some (PStr EmptyString) /\
    exists d1,
      extract_job_data (lib := tree_soup (Samples.page []))
        (Samples.at_top Samples.benefits_posting) Samples.online =
        (Ok (Some d1), tick Samples.online) /\
      dict_get "CompanyBenefits" d1 = Some (PStr "Health cover").
Proof.
  destruct (labelled_paragraph_fields (Samples.page [])
              (Samples.at_top (Samples.complete_posting "QA" "Pune"))
              Samples.online) as (d & He & Hfields).
  exists d. split; [exact He|]. split.
  - destruct (Hfields "CompanyBenefits" "What Company Offers:") as [Hnone _].
    { right. left. reflexivity. }
    apply Hnone. intros e Hin. vm_compute in Hin.
    repeat (destruct Hin as [<- | Hin]; [reflexivity|]). destruct Hin.
  - destruct (labelled_paragraph_fields (Samples.page [])
                (Samples.at_top Samples.benefits_posting) Samples.online)
      as (d1 & He1 & Hfields1).
    exists d1. split; [exact He1|].
    destruct (Hfields1 "CompanyBenefits" "What Company Offers:") as [_ Hfirst].
    { right. left. reflexivity. }
    set (top := Samples.at_top Samples.benefits_posting).
    set (para := Tree.Tag "p" [] [Tree.NavigableString "Health cover"]).
    set (block := Tree.At (Samples.heading "What Company Offers:") [para] (Some top)).
    set (strong := Tree.At (Tree.Tag "strong" []
                              [Tree.NavigableString "What Company Offers:"])
                     [] (Some block)).
    set (epara := Tree.At para [] (Some top)).
    destruct (Hfirst [block] strong
                [ Tree.At (Tree.NavigableString "What Company Offers:") [] (Some strong);
                  epara;
                  Tree.At (Tree.NavigableString "Health cover") [] (Some epara) ]
                block eq_refl) as [Hpara _].
    + intros b [<- | []]. reflexivity.
    + reflexivity.
    + reflexivity.
    + apply (Hpara epara). reflexivity.
Defined.

(** ** Matches are pieces of the text *)

Lemma take_drop n s : s = (PyStr.take n s ++ PyStr.drop n s)%string.
Proof.
  revert s. induction n as [|n IH]; intros s; [reflexivity|].
  destruct s as [|c s]; [reflexivity|]. cbn. f_equal. apply IH.
Qed.

Lemma eat_length ic a (k : string -> option nat) s n :
  (forall t m, k t = Some m -> m <= String.length t) ->
  Re.eat ic a k s = Some n -> 0 < n <= String.length s.
Proof.
  intros Hk. unfold Re.eat. destruct s as [|c s]; [discriminate|].
  destruct (Re.atom_matches ic a c); [|discriminate].
  destruct (k s) as [m|] eqn:Hm; [|discriminate].
  cbn. intros E. inversion E. apply Hk in Hm. lia.
Qed.

Lemma match_here_length ic p :
  forall s n, Re.match_here ic p s = Some n -> n <= String.length s.
Proof.
  induction p as [|[a q] rest IH]; intros s n; cbn [Re.match_here].
  - intros E. inversion E. lia.
  - set (star := fix star (t : string) : option nat :=
                   match t with
                   | String c t' =>
                       Re.or_else
                         (if Re.atom_matches ic a c
                          then option_map S (star t') else None)
                         (Re.match_here ic rest t)
                   | EmptyString => Re.match_here ic rest EmptyString
                   end).
    assert (Hstar : forall t m, star t = Some m -> m <= String.length t).
    { induction t as [|c t IHt]; intros m; cbn [star].
      - apply IH.
      - unfold Re.or_else.
        destruct (Re.atom_matches ic a c).
        + destruct (star t) as [k|]; cbn [option_map].
          * intros E. inversion E. specialize (IHt k eq_refl). cbn. lia.
          * intros E. apply IH in E. exact E.
        + intros E. apply IH in E. exact E. }
    destruct q.
    + intros E. apply eat_length in E; [lia | exact IH].
    + unfold Re.or_else.
      destruct (Re.eat ic a (Re.match_here ic rest) s) as [k|] eqn:Hk.
      * intros E. inversion E. subst k.
        apply eat_length in Hk; [lia | exact IH].
      * apply IH.
    + apply Hstar.
    + intros E. apply eat_length in E; [lia | exact Hstar].
Qed.

Lemma match_here_positive ic p s n :
  starts_with_a_character p = true ->
  Re.match_here ic p s = Some n -> 0 < n.
Proof.
  destruct p as [|[a q] rest]; [discriminate|].
  destruct q; try discriminate; intros _; cbn [Re.match_here]; intros E.
  - apply eat_length in E; [lia | apply match_here_length].
  - eapply eat_length in E; [lia|].
    intros t m Hm.
    apply (match_here_length ic ((a, Re.Star) :: rest) t m). exact Hm.
Qed.

Lemma search_items_piece ic p s m :
  Re.search_items ic p s = Some m ->
  exists before after, s = (before ++ m ++ after)%string.
Proof.
  induction s as [|c s IH]; cbn [Re.search_items].
  - destruct (Re.match_here ic p EmptyString) as [n|]; [|discriminate].
    intros E. inversion E. exists EmptyString, EmptyString.
    destruct n; reflexivity.
  - destruct (Re.match_here ic p (String c s)) as [n|].
    + intros E. inversion E. exists EmptyString, (PyStr.drop n (String c s)).
      apply take_drop.
    + intros E. destruct (IH E) as (before & after & ->).
      exists (String c before), after. reflexivity.
Qed.

Lemma search_items_nonempty ic p s m :
  starts_with_a_character p = true ->
  Re.search_items ic p s = Some m -> m <> EmptyString.
Proof.
  intros Hp. induction s as [|c s IH]; cbn [Re.search_items].
  - destruct (Re.match_here ic p EmptyString) as [n|] eqn:Hn; [|discriminate].
    pose proof (match_here_positive _ _ _ _ Hp Hn).
    apply match_here_length in Hn. cbn in Hn. lia.
  - destruct (Re.match_here ic p (String c s)) as [n|] eqn:Hn; [|exact IH].
    pose proof (match_here_positive _ _ _ _ Hp Hn) as Hpos.
    intros E. inversion E. destruct n; [lia | discriminate].
Qed.

Lemma experience_pattern_match pattern text m :
  In pattern experience_patterns ->
  re_search pattern text = Ok (Some m) ->
  m <> EmptyString /\ exists before after, text = (before ++ m ++ after)%string.
Proof.
  intros Hin Hm. unfold re_search in Hm.
  assert (Hp : exists p, Re.compile pattern = Some p /\
                         starts_with_a_character p = true).
  { repeat (destruct Hin as [<- | Hin];
            [eexists; split; [vm_compute; reflexivity | reflexivity]|]).
    destruct Hin. }
  destruct Hp as (p & Hc & Hstart). rewrite Hc in Hm. inversion Hm as [Hs].
  split.
  - eapply search_items_nonempty; eassumption.
  - eapply search_items_piece; eassumption.
Qed.

Lemma first_experience_some patterns text m :
  first_experience patterns text = Ok (Some m) ->
  exists pattern, In pattern patterns /\ re_search pattern text = Ok (Some m).
Proof.
  induction patterns as [|p rest IH]; cbn; [discriminate|].
  destruct (re_search p text) as [[k|]|e] eqn:Hp; try discriminate.
  - intros E. inversion E. subst k. exists p. split; [left; reflexivity | exact Hp].
  - intros E. destruct (IH E) as (q & Hq & Hm). exists q. split; [right|]; assumption.
Qed.

Lemma first_experience_none_all patterns text :
  first_experience patterns text = Ok None ->
  forall pattern, In pattern patterns -> re_search pattern text = Ok None.
Proof.
  induction patterns as [|p rest IH]; cbn; [intros _ q []|].
  destruct (re_search p text) as [[k|]|e] eqn:Hp; try discriminate.
  intros E q [<- | Hq]; [exact Hp | apply IH; assumption].
Qed.

(** X4. ExperienceRequired is a contiguous piece of the text of the
    section, never text of its own making, and it is the empty string
    exactly when none of the four patterns matches: a match is never
    empty. *)
Theorem experience_is_a_piece_of_the_text html_parser section w :
  exists d v,
    extract_job_data (lib := tree_soup html_parser) section w =
      (Ok (Some d), tick w) /\
    dict_get "ExperienceRequired" d = Some (PStr v) /\
    (exists before after,
        Tree.text false (Tree.node_of section) = (before ++ v ++ after)%string) /\
    (v = EmptyString <->
     forall pattern,
       In pattern experience_patterns ->
       re_search pattern (Tree.text false (Tree.node_of section)) = Ok None).
Proof.
  rewrite tree_extract_job_data_eq. eexists _, _. split; [reflexivity|].
  split; [reflexivity|].
  unfold OnTree.experience_of.
  destruct (first_experience_total (Tree.text false (Tree.node_of section)))
    as [found Hfound].
  rewrite Hfound. destruct found as [m|].
  - destruct (first_experience_some _ _ _ Hfound) as (pattern & Hin & Hm).
    destruct (experience_pattern_match _ _ _ Hin Hm) as [Hne Hpiece].
    split; [exact Hpiece|]. split.
    + intros ->. contradiction.
    + intros Hnone. rewrite (Hnone pattern Hin) in Hm. discriminate Hm.
  - split.
    + exists EmptyString, (Tree.text false (Tree.node_of section)). reflexivity.
    + split; [intros _; apply first_experience_none_all; exact Hfound | reflexivity].
Qed.

Lemma experience_is_a_piece_of_the_text_witness :
  exists d,
    extract_job_data (lib := tree_soup (Samples.page []))
      (Samples.at_top Samples.empty_posting) Samples.online =
      (Ok (Some d), tick Samples.online) /\
    dict_get "ExperienceRequired" d = Some (PStr EmptyString).
Proof.
  destruct (experience_is_a_piece_of_the_text (Samples.page [])
              (Samples.at_top Samples.empty_posting) Samples.online)
    as (d & v & He & Hv & _ & Hempty).
  exists d. split; [exact He|]. rewrite Hv.
  rewrite (proj2 Hempty); [reflexivity|].
  intros pattern Hin.
  repeat (destruct Hin as [<- | Hin]; [reflexivity|]). destruct Hin.
Defined.

(** ** Stripping keeps what lies between the ends *)

Lemma startswith_contains sub s :
  PyStr.startswith sub s = true -> PyStr.contains sub s = true.
Proof. intros H. destruct s; cbn [PyStr.contains]; rewrite H; reflexivity. Qed.

Lemma contains_tail sub c s :
  PyStr.contains sub s = true -> PyStr.contains sub (String c s) = true.
Proof. intros H. cbn [PyStr.contains]. rewrite H. apply orb_true_r. Qed.

Lemma contains_nonempty sub s :
  sub <> EmptyString -> PyStr.contains sub s = true -> s <> EmptyString.
Proof.
  intros Hsub Hc ->. destruct sub; [contradiction | discriminate Hc].
Qed.

Lemma contains_lstrip sub s :
  first_not_space sub = true ->
  PyStr.contains sub s = true -> PyStr.contains sub (PyStr.lstrip s) = true.
Proof.
  intros Hsub. induction s as [|c s IH]; [auto|].
  cbn [PyStr.lstrip]. destruct (PyStr.is_space c) eqn:Hc; [|auto].
  intros H. apply IH. cbn [PyStr.contains] in H.
  apply orb_true_iff in H as [H | H]; [|exact H].
  destruct sub as [|a sub]; [discriminate Hsub|].
  cbn in H. apply andb_prop in H as [Ha _]. apply Ascii.eqb_eq in Ha. subst a.
  cbn in Hsub. rewrite Hc in Hsub. discriminate Hsub.
Qed.

Lemma rstrip_cons c s :
  PyStr.rstrip s <> EmptyString ->
  PyStr.rstrip (String c s) = String c (PyStr.rstrip s).
Proof.
  intros H. cbn [PyStr.rstrip]. destruct (PyStr.rstrip s); [contradiction | reflexivity].
Qed.

Lemma startswith_rstrip sub :
  last_not_space sub = true ->
  forall s, PyStr.startswith sub s = true ->
            PyStr.startswith sub (PyStr.rstrip s) = true.
Proof.
  induction sub as [|a sub IH]; [discriminate|].
  intros Hlast s Hs. destruct s as [|b s]; [discriminate Hs|].
  cbn in Hs. apply andb_prop in Hs as [Hab Hs].
  destruct sub as [|a' sub'].
  - cbn in Hlast. apply Ascii.eqb_eq in Hab. subst b.
    cbn [PyStr.rstrip]. destruct (PyStr.rstrip s).
    + destruct (PyStr.is_space a); [discriminate Hlast|].
      cbn. rewrite Ascii.eqb_refl. reflexivity.
    + cbn. rewrite Ascii.eqb_refl. reflexivity.
  - assert (Hsub : PyStr.startswith (String a' sub') (PyStr.rstrip s) = true)
      by (apply IH; assumption).
    rewrite rstrip_cons.
    + change (Ascii.eqb a b &&
              PyStr.startswith (String a' sub') (PyStr.rstrip s) = true).
      rewrite Hab, Hsub. reflexivity.
    + intros E. rewrite E in Hsub. discriminate Hsub.
Qed.

Lemma contains_rstrip sub s :
  last_not_space sub = true ->
  PyStr.contains sub s = true -> PyStr.contains sub (PyStr.rstrip s) = true.
Proof.
  intros Hlast. assert (Hne : sub <> EmptyString) by (intros ->; discriminate Hlast).
  induction s as [|c s IH]; intros H.
  - exfalso. destruct sub; [contradiction | discriminate H].
  - cbn [PyStr.contains] in H. apply orb_true_iff in H as [H | H].
    + apply startswith_contains, startswith_rstrip; assumption.
    + specialize (IH H). rewrite rstrip_cons.
      * apply contains_tail. exact IH.
      * eapply contains_nonempty; eassumption.
Qed.

Lemma contains_strip sub s :
  first_not_space sub = true -> last_not_space sub = true ->
  PyStr.contains sub s = true -> PyStr.contains sub (PyStr.strip s) = true.
Proof.
  intros Hfirst Hlast H. unfold PyStr.strip.
  apply contains_rstrip, contains_lstrip; assumption.
Qed.

(** The strings below an element that has a [string]: that one string. *)
Lemma string_of_strings n :
  forall t, Tree.string_of n = Some t -> Tree.strings n = [t].
Proof.
  induction n as [s | name attrs contents IH] using node_induction; intros t.
  - cbn. intros E. inversion E. reflexivity.
  - destruct contents as [|c [|c' rest]]; cbn [Tree.string_of]; try discriminate.
    intros Hc. inversion IH as [|? ? Pc _]; subst.
    cbn [Tree.strings]. rewrite (Pc t Hc). reflexivity.
Qed.

Lemma text_of_single_string n t :
  Tree.string_of n = Some t ->
  PyStr.strip t <> EmptyString ->
  Tree.text true n = PyStr.strip t.
Proof.
  intros Hs Hne. unfold Tree.text. rewrite (string_of_strings n t Hs).
  cbn [map filter]. destruct (PyStr.strip t); [contradiction|].
  reflexivity.
Qed.

(** X5. PostingDate is the whole stripped string of the first [p] element
    whose string contains "Posted on", not the date alone; so it is either
    empty or contains "Posted on", and it is empty exactly when the section
    has no such paragraph. *)
Theorem posting_date_is_the_whole_paragraph html_parser section w :
  exists d v,
    extract_job_data (lib := tree_soup html_parser) section w =
      (Ok (Some d), tick w) /\
    dict_get "PostingDate" d = Some (PStr v) /\
    (forall before e after t,
        Tree.descendants section = before ++ e :: after ->
        (forall b, In b before ->
                   Tree.selects "p"
                     (StringIs (and_then (PyStr.contains "Posted on"))) b = false) ->
        Tree.has_name "p" (Tree.node_of e) = true ->
        Tree.string_of (Tree.node_of e) = Some t ->
        PyStr.contains "Posted on" t = true ->
        v = PyStr.strip t /\ PyStr.contains "Posted on" v = true) /\
    ((forall e, In e (Tree.descendants section) ->
                Tree.selects "p"
                  (StringIs (and_then (PyStr.contains "Posted on"))) e = false) ->
     v = EmptyString).
Proof.
  rewrite tree_extract_job_data_eq. eexists _, _. split; [reflexivity|].
  split; [reflexivity|]. unfold OnTree.first_selected. split.
  - intros before e after t Hsplit Hbefore Hname Hstring Hposted.
    assert (Hstrip : PyStr.contains "Posted on" (PyStr.strip t) = true)
      by (apply contains_strip; [reflexivity | reflexivity | exact Hposted]).
    assert (He : Tree.selects "p"
                   (StringIs (and_then (PyStr.contains "Posted on"))) e = true).
    { unfold Tree.selects. rewrite Hname. cbn [Tree.satisfies andb].
      rewrite Hstring. unfold and_then. rewrite Hposted.
      destruct t; [discriminate Hposted | reflexivity]. }
    rewrite Hsplit, (find_first _ _ _ _ Hbefore He). cbn [OnTree.text_of].
    rewrite (text_of_single_string _ t Hstring).
    + split; [reflexivity | exact Hstrip].
    + eapply contains_nonempty; [|exact Hstrip]. discriminate.
  - intros Hnone. rewrite (find_nothing _ _ Hnone). reflexivity.
Qed.

Lemma posting_date_is_the_whole_paragraph_witness :
  exists d,
    extract_job_data (lib := tree_soup (Samples.page []))
      (Samples.at_top Samples.full_posting) Samples.online =
      (Ok (Some d), tick Samples.online) /\
    dict_get "PostingDate" d = Some (PStr "Posted on 1 June").
Proof.
  destruct (posting_date_is_the_whole_paragraph (Samples.page [])
              (Samples.at_top Samples.full_posting) Samples.online)
    as (d & v & He & Hv & Hfirst & _).
  exists d. split; [exact He|]. rewrite Hv.
  pose (all := Tree.descendants (Samples.at_top Samples.full_posting)).
  destruct (Hfirst (firstn 6 all) (nth 6 all (Samples.at_top Samples.full_posting))
              (skipn 7 all) "Posted on 1 June" eq_refl) as [Hstrip _].
  - intros b Hin. vm_compute in Hin.
    repeat (destruct Hin as [<- | Hin]; [reflexivity|]). destruct Hin.
  - reflexivity.
  - reflexivity.
  - reflexivity.
  - rewrite Hstrip. reflexivity.
Defined.

(** ** What one extraction does to the world *)

Section ExtractionEffects.

Context {tag : Type} {lib : Soup tag}.

(** A failed extraction prints one line and does nothing else. *)
Lemma extract_job_data_skip (job_section : tag) w w' :
  extract_job_data job_section w = (Ok None, w') ->
  exists m,
    w' = snd (print m w) /\
    ((exists e, m = HtmlStructureIssue e /\
                extract_fields job_section w = (Raise (AttributeError e), w)) \/
     (exists e, m = ExtractionError (str_of_exn e) /\
                (forall a, e <> AttributeError a) /\
                extract_fields job_section w = (Raise e, w))).
Proof.
  pose proof (extract_fields_post job_section w) as Hpost.
  unfold extract_job_data, try_except, bind.
  destruct (extract_fields job_section w) as [[d|e] w1]; cbn in Hpost.
  - intros E. discriminate E.
  - subst w1. destruct e; intros E; inversion E; eexists; (split; [reflexivity|]).
    + left. eexists. split; reflexivity.
    + right. exists (ValueError msg). repeat split. intros a H. discriminate H.
    + right. exists (RequestException msg). repeat split. intros a H. discriminate H.
    + right. exists (ReError msg). repeat split. intros a H. discriminate H.
    + right. exists (OtherException msg). repeat split. intros a H. discriminate H.
Qed.

End ExtractionEffects.

(** X6. A successful extraction returns a record with exactly the fourteen
    keys of the schema, in the order of their assignment, and no other;
    its Salary is the empty string.  It prints nothing, writes nothing and
    reads the clock exactly once. *)
Theorem record_keys_are_fixed {tag : Type} {lib : Soup tag}
  (job_section : tag) w d w' :
  extract_job_data job_section w = (Ok (Some d), w') ->
  dict_keys d =
    [ "JobTitle"; "JobCategory"; "Location"; "JobURL"; "JobID"; "PostingDate";
      "JobDescriptionSummary"; "ExperienceRequired"; "SkillsRequired";
      "ContactEmail"; "CompanyBenefits"; "Salary"; "ScrapedDate"; "SourceURL" ] /\
  dict_get "Salary" d = Some (PStr EmptyString) /\
  stdout w' = stdout w /\ files w' = files w /\ ticks w' = S (ticks w).
Proof.
  intros He. apply extract_job_data_record in He as [-> Hshape].
  destruct Hshape as (title & category & location & url & jobid & posted &
                      summary & experience & skills & email & benefits & now & ->).
  repeat split.
Qed.

Lemma record_keys_are_fixed_witness :
  exists d w',
    extract_job_data (lib := tree_soup (Samples.page []))
      (Samples.at_top Samples.full_posting) Samples.online = (Ok (Some d), w') /\
    List.length (dict_keys d) = 14 /\
    dict_get "Salary" d = Some (PStr EmptyString) /\
    ticks w' = 1.
Proof.
  pose proof (tree_extract_job_data_eq (Samples.page [])
                (Samples.at_top Samples.full_posting) Samples.online) as He.
  eexists _, _. split; [exact He|].
  destruct (record_keys_are_fixed (lib := tree_soup (Samples.page []))
              (Samples.at_top Samples.full_posting) Samples.online _ _ He)
    as (Hkeys & Hsalary & _ & _ & Hticks).
  split; [rewrite Hkeys; reflexivity|]. split; [exact Hsalary | exact Hticks].
Defined.

(** X7. A posting that cannot be extracted leaves one diagnostic line and
    nothing else: the line is the HTML structure warning for an
    [AttributeError] and the extraction error for any other exception;
    the clock is not read and no file is touched. *)
Theorem skipped_posting_prints_one_line {tag : Type} {lib : Soup tag}
  (job_section : tag) w w' :
  extract_job_data job_section w = (Ok None, w') ->
  exists m,
    stdout w' = stdout w ++ [m] /\
    ticks w' = ticks w /\ clock w' = clock w /\ files w' = files w /\
    ((exists e, m = HtmlStructureIssue e /\
                extract_fields job_section w = (Raise (AttributeError e), w)) \/
     (exists e, m = ExtractionError (str_of_exn e) /\
                (forall a, e <> AttributeError a) /\
                extract_fields job_section w = (Raise e, w))).
Proof.
  intros He. apply extract_job_data_skip in He as (m & -> & Hm).
  exists m. repeat split. exact Hm.
Qed.

Lemma skipped_posting_prints_one_line_witness :
  exists w' m,
    extract_job_data (lib := orphan_soup (Samples.page []))
      (Samples.at_top Samples.benefits_posting) Samples.online = (Ok None, w') /\
    stdout w' = stdout Samples.online ++ [m] /\
    ticks w' = ticks Samples.online.
Proof.
  assert (He : exists w',
             extract_job_data (lib := orphan_soup (Samples.page []))
               (Samples.at_top Samples.benefits_posting) Samples.online =
             (Ok None, w')) by (eexists; vm_compute; reflexivity).
  destruct He as [w' He]. exists w'.
  destruct (skipped_posting_prints_one_line (lib := orphan_soup (Samples.page []))
              (Samples.at_top Samples.benefits_posting) Samples.online w' He)
    as (m & Hout & Hticks & _).
  exists m. split; [exact He|]. split; [exact Hout | exact Hticks].
Defined.

(** ** The lines of the loop *)

(** X8. Every section found is accounted for.  The loop announces the
    sections one by one, numbered from the start index in document order;
    each of them ends either as one more record or as one "skipped" line,
    so records and skipped lines add up to the number of sections; the
    success counter grows by the number of records, and so does the
    number of readings of the clock. *)
Theorem every_section_is_accounted_for {tag : Type} {lib : Soup tag}
  (sections : list tag) :
  forall i n acc k w,
  exists new out w',
    extract_all sections i n acc k w =
      (Ok (acc ++ new, k + List.length new), w') /\
    stdout w' = stdout w ++ out /\
    filter is_processing out =
      map (fun j => ProcessingJob j n) (seq i (List.length sections)) /\
    List.length new + List.length (filter is_skipped out) =
      List.length sections /\
    ticks w' = ticks w + List.length new.
Proof.
  induction sections as [|s rest IH]; intros i n acc k w; cbn [extract_all].
  - exists [], [], w. rewrite !app_nil_r, !Nat.add_0_r. repeat split.
  - erewrite bind_eq by reflexivity.
    set (w1 := {| clock := clock w; ticks := ticks w;
                  stdout := stdout w ++ [ProcessingJob i n];
                  files := files w; http_get := http_get w |}).
    destruct (extract_job_data_cases s w1) as [(d & E & Hd) | (w2 & E & _)];
      rewrite (bind_eq _ _ _ _ _ E).
    + destruct (record_shape_cons d Hd) as (kv & tl & ->). cbv beta iota.
      match goal with
      | |- context [extract_all rest (S i) n ?a (S k) ?w2] =>
          destruct (IH (S i) n a (S k) w2)
            as (new & out & w' & Hrun & Hout & Hproc & Hcount & Hticks)
      end.
      exists ((kv :: tl) :: new), (ProcessingJob i n :: out), w'.
      rewrite Hrun, <- app_assoc. cbn [app List.length seq map filter is_processing
                                        is_skipped].
      rewrite Nat.add_succ_r. split; [reflexivity|]. split; [|split; [|split]].
      * rewrite Hout. cbn. rewrite <- app_assoc. reflexivity.
      * rewrite Hproc. reflexivity.
      * lia.
      * rewrite Hticks. cbn. lia.
    + cbv beta iota. erewrite bind_eq by reflexivity.
      apply extract_job_data_skip in E as (m & -> & Hm).
      match goal with
      | |- context [extract_all rest (S i) n acc k ?w3] =>
          destruct (IH (S i) n acc k w3)
            as (new & out & w' & Hrun & Hout & Hproc & Hcount & Hticks)
      end.
      exists new, (ProcessingJob i n :: m :: SkippedJob i :: out), w'.
      rewrite Hrun. split; [reflexivity|].
      assert (Hdiag : is_processing m = false /\ is_skipped m = false).
      { destruct Hm as [(e & -> & _) | (e & -> & _)]; split; reflexivity. }
      destruct Hdiag as [Hp Hs].
      cbn [app List.length seq map filter is_processing is_skipped].
      rewrite Hp, Hs. cbn [List.length]. split; [|split; [|split]].
      * rewrite Hout. cbn. rewrite <- !app_assoc. reflexivity.
      * rewrite Hproc. reflexivity.
      * lia.
      * rewrite Hticks. reflexivity.
Qed.

Lemma tree_extract_all html_parser (sections : list Tree.element) :
  forall i n acc k w,
  exists new w',
    extract_all (lib := tree_soup html_parser) sections i n acc k w =
      (Ok (acc ++ new, k + List.length sections), w') /\
    List.length new = List.length sections /\
    forall j s,
      nth_error sections j = Some s ->
      nth_error new j =
        Some (OnTree.posting_record s (clock w (ticks w + j))).
Proof.
  induction sections as [|s rest IH]; intros i n acc k w; cbn [extract_all].
  - exists [], w. rewrite app_nil_r, Nat.add_0_r. repeat split.
    intros j s Hj. destruct j; discriminate Hj.
  - erewrite bind_eq by reflexivity.
    erewrite bind_eq by apply tree_extract_job_data_eq.
    unfold OnTree.posting_record at 1. cbv beta iota.
    fold (OnTree.posting_record s). 
    match goal with
    | |- context [extract_all rest (S i) n ?a (S k) ?w2] =>
        destruct (IH (S i) n a (S k) w2) as (new & w' & Hrun & Hlen & Hnth);
        set (w2' := w2) in *
    end.
    eexists (_ :: new), w'. rewrite Hrun, <- app_assoc.
    cbn [app List.length]. rewrite Nat.add_succ_r, Hlen.
    split; [reflexivity|]. split; [reflexivity|].
    intros j s0 Hj. destruct j as [|j]; cbn [nth_error] in *.
    + inversion Hj. subst s0. rewrite Nat.add_0_r. reflexivity.
    + rewrite (Hnth j s0 Hj). subst w2'. cbn [clock ticks tick snd datetime_now].
      rewrite Nat.add_succ_r. reflexivity.
Qed.

(** X9. On a parsed page nothing is skipped: the loop returns exactly one
    record per section, in document order, and the record of the section
    at position [j] is its [posting_record] at the [j]-th reading of the
    clock after the start. *)
Theorem one_record_per_section html_parser (sections : list Tree.element) :
  forall i n acc k w,
  exists new w',
    extract_all (lib := tree_soup html_parser) sections i n acc k w =
      (Ok (acc ++ new, k + List.length sections), w') /\
    List.length new = List.length sections /\
    forall j s,
      nth_error sections j = Some s ->
      nth_error new j =
        Some (OnTree.posting_record s (clock w (ticks w + j))).
Proof.
  exact (tree_extract_all html_parser sections).
Qed.

Lemma one_record_per_section_witness :
  exists new w',
    extract_all (lib := tree_soup (Samples.page []))
      [ Samples.at_top (Samples.complete_posting "QA" "Pune");
        Samples.at_top Samples.empty_posting ] 1 2 [] 0 Samples.online =
      (Ok (new, 2), w') /\
    nth_error new 1 =
      Some (OnTree.posting_record (Samples.at_top Samples.empty_posting)
              Samples.noon).
Proof.
  destruct (one_record_per_section (Samples.page [])
              [ Samples.at_top (Samples.complete_posting "QA" "Pune");
                Samples.at_top Samples.empty_posting ] 1 2 [] 0 Samples.online)
    as (new & w' & Hrun & _ & Hnth).
  exists new, w'. split; [exact Hrun|].
  exact (Hnth 1 _ eq_refl).
Defined.

(** ** The result of a run and the files it leaves *)

(** X11. A transport failure ends the run at once.  When the GET raises a
    request exception, or answers with a status from 400 to 599, the run
    prints the start line, the fetch error and the advice to check the
    connection, returns nothing and changes nothing else: the page is
    not parsed and no file is written. *)
Theorem transport_failure_ends_the_run {tag : Type} {lib : Soup tag} w :
  (forall m,
      http_get w BASE_URL = Raise (RequestException m) ->
      scrape_jobs w =
        (Ok None,
         with_output w [StartingScrape; ErrorFetching m; CheckConnection])) /\
  (forall r,
      http_get w BASE_URL = Ok r ->
      400 <= status_code r < 600 ->
      scrape_jobs w =
        (Ok None,
         with_output w
           [StartingScrape; ErrorFetching "HTTPError"; CheckConnection])).
Proof.
  split.
  - intros m Hget.
    unfold scrape_jobs, try_except, fetch_sections, bind, requests_get.
    cbn [print http_get]. rewrite Hget. cbn. unfold with_output.
    rewrite <- !app_assoc. reflexivity.
  - intros r Hget [Hlo Hhi].
    unfold scrape_jobs, try_except, fetch_sections, bind, requests_get.
    cbn [print http_get]. rewrite Hget.
    apply Nat.leb_le in Hlo. apply Nat.ltb_lt in Hhi. rewrite Hlo, Hhi.
    cbn. unfold with_output. rewrite <- !app_assoc. reflexivity.
Qed.

Lemma transport_failure_ends_the_run_witness :
  scrape_jobs (lib := tree_soup (Samples.page [Samples.full_posting]))
    Samples.not_found =
  (Ok None,
   with_output Samples.not_found
     [StartingScrape; ErrorFetching "HTTPError"; CheckConnection]).
Proof.
  apply (proj2 (transport_failure_ends_the_run
                  (lib := tree_soup (Samples.page [Samples.full_posting]))
                  Samples.not_found)
           {| status_code := 404; content := EmptyString |} eq_refl).
  cbn. lia.
Defined.

(** ** A run on a parsed page *)




(** ** Pagination markers *)

Lemma contains_space_inside x z :
  PyStr.contains " " (x ++ " " ++ z)%string = true.
Proof.
  induction x as [|a x IH]; [reflexivity|].
  cbn [append]. apply contains_tail. exact IH.
Qed.

Lemma joined_class_is_a_class c l :
  c <> EmptyString -> PyStr.contains " " c = false ->
  String.eqb (PyStr.join " " l) c = true -> mem c l = true.
Proof.
  intros Hne Hspace Hjoin. apply String.eqb_eq in Hjoin.
  destruct l as [|x [|y r]].
  - cbn in Hjoin. congruence.
  - cbn in Hjoin. subst x. cbn. rewrite String.eqb_refl. reflexivity.
  - cbn [PyStr.join] in Hjoin. rewrite <- Hjoin, contains_space_inside in Hspace.
    discriminate Hspace.
Qed.

Lemma class_filter_is_has_class name c e :
  c <> EmptyString -> PyStr.contains " " c = false ->
  Tree.selects name (ClassIs c) e =
  Tree.has_name name (Tree.node_of e) && Markers.has_class c e.
Proof.
  intros Hne Hspace. unfold Tree.selects, Markers.has_class. f_equal.
  cbn [Tree.satisfies].
  destruct (Tree.attr "class" (Tree.node_of e)) as [v|]; [|reflexivity].
  destruct (mem c (PyStr.tokens v)) eqn:Hm; [reflexivity|].
  destruct (String.eqb (PyStr.join " " (PyStr.tokens v)) c) eqn:Hj; [|reflexivity].
  rewrite (joined_class_is_a_class c _ Hne Hspace Hj) in Hm. discriminate Hm.
Qed.

Lemma find_is_some {A} (f : A -> bool) l :
  is_some (List.find f l) = existsb f l.
Proof.
  induction l as [|x l IH]; [reflexivity|].
  cbn. destruct (f x); [reflexivity | exact IH].
Qed.

Lemma existsb_or {A} (f g : A -> bool) l :
  existsb (fun x => f x || g x) l = existsb f l || existsb g l.
Proof.
  induction l as [|x l IH]; [reflexivity|].
  cbn. rewrite IH. destruct (f x), (g x), (existsb f l), (existsb g l); reflexivity.
Qed.

(** X12. Pagination detection on a parsed page.  The detector never
    fails, prints nothing and changes nothing; it answers true exactly
    when some element below the document is a marker: a [div], [nav] or
    [ul] of class pagination, a [div] of class pager, a link whose string
    contains next, more, page or one of the two arrows in any letter case,
    or a button whose string contains "load more" in any letter case. *)
Theorem pagination_is_detected_by_markers html_parser soup w :
  exists b,
    check_pagination (lib := tree_soup html_parser) soup w = (Ok b, w) /\
    (b = true <->
     exists e, In e (Tree.descendants soup) /\
               Markers.is_pagination_marker e = true).
Proof.
  eexists. split; [reflexivity|].
  cbn [existsb]. rewrite !find_is_some, orb_false_r.
  rewrite <- !existsb_or, existsb_exists.
  assert (Hpoint : forall e,
    (Tree.selects "div" (ClassIs "pagination") e
     || Tree.selects "nav" (ClassIs "pagination") e
     || Tree.selects "div" (ClassIs "pager") e
     || Tree.selects "ul" (ClassIs "pagination") e
     || Tree.selects "a"
          (StringIs (and_then (fun text =>
             existsb (fun word => PyStr.contains word (PyStr.lower text))
               pagination_words))) e
     || Tree.selects "button"
          (StringIs (and_then (fun text =>
             PyStr.contains "load more" (PyStr.lower text)))) e) =
    Markers.is_pagination_marker e).
  { intros e. unfold Markers.is_pagination_marker.
    rewrite !class_filter_is_has_class by (discriminate || reflexivity).
    unfold Tree.selects, Markers.text_mentions. cbn [Tree.satisfies].
    destruct (Tree.string_of (Tree.node_of e)) as [[|c t]|];
      cbn [and_then PyStr.nonempty andb existsb]; rewrite ?orb_false_r;
      destruct (Tree.has_name "div" (Tree.node_of e)),
               (Tree.has_name "nav" (Tree.node_of e)),
               (Tree.has_name "ul" (Tree.node_of e)),
               (Tree.has_name "a" (Tree.node_of e)),
               (Tree.has_name "button" (Tree.node_of e)),
               (Markers.has_class "pagination" e),
               (Markers.has_class "pager" e); reflexivity. }
  split.
  - intros (e & Hin & He). exists e. split; [exact Hin|].
    rewrite <- Hpoint. rewrite !orb_assoc in He. exact He.
  - intros (e & Hin & He). exists e. split; [exact Hin|].
    rewrite <- Hpoint in He. rewrite !orb_assoc. exact He.
Qed.

(** A page whose only link reads "Homepage" counts as paginated. *)
Lemma pagination_is_detected_by_markers_witness :
  check_pagination (lib := tree_soup (Samples.page []))
    (Tree.document
       [Tree.Tag "a" [("href", "/")] [Tree.NavigableString "Homepage"]])
    Samples.online = (Ok true, Samples.online).
Proof.
  destruct (pagination_is_detected_by_markers (Samples.page [])
              (Tree.document
                 [Tree.Tag "a" [("href", "/")] [Tree.NavigableString "Homepage"]])
              Samples.online) as (b & Hrun & Hb).
  rewrite Hrun. f_equal. f_equal. apply Hb.
  eexists. split; [left; reflexivity | reflexivity].
Defined.

(** ** The name of the saved file *)






(** ** Saving, whatever the file system does *)






(** ** The run, whatever the file system does *)

Section RunOnFacts.

Context {tag : Type} {lib : Soup tag}.







End RunOnFacts.



Example refused_save_is_reported :
  stdout (snd (scrape_jobs_on
                 (lib := tree_soup (Samples.page [Samples.full_posting]))
                 read_only Samples.online)) =
  [ StartingScrape; NoPaginationDetected; FoundPostings 1; ProcessingJob 1 1;
    ExtractedJobs 1 1; DataCompleteness 1 1;
    SaveError "Permission denied"; UnexpectedError "Permission denied" ].
Proof. vm_compute. reflexivity. Qed.

(** ** The Jobs sheet of arbitrary records *)

Lemma existing_columns_kept jobs :
  existing_columns (DataFrame_of_records jobs) = kept_columns jobs.
Proof.
  unfold existing_columns, kept_columns. apply filter_ext. intros c.
  rewrite mem_columns.
  induction jobs as [|d rest IH]; [reflexivity|].
  cbn [existsb]. rewrite mem_dict_keys, IH. reflexivity.
Qed.

Lemma cell_of_written c d : cell_of (written c d) = cell_for c d.
Proof.
  unfold written, cell_for. destruct (dict_get c d) as [[|[|a s]]|]; reflexivity.
Qed.

(** X14. The Jobs sheet of any records, whatever keys they have.  The
    header lists the schema fields that at least one record binds, in the
    schema's order; keys outside the schema are dropped.  Below it comes
    one row per record, in the order of the collection, each as long as
    the header: a field holds its text when the record has a non-empty
    string there and is blank when the record lacks the key, or holds
    None or the empty string.  No cell of a record is an empty text. *)
Theorem jobs_sheet_of_any_records jobs :
  to_excel (prepare_frame jobs) =
    map Text (kept_columns jobs)
    :: map (fun d => map (fun c => cell_for c d) (kept_columns jobs)) jobs /\
  (forall c, In c (kept_columns jobs) <->
             In c column_order /\ exists d v, In d jobs /\ dict_get c d = Some v) /\
  (forall row, In row (to_excel (prepare_frame jobs)) ->
               List.length row = List.length (kept_columns jobs)) /\
  (forall row, In row (tl (to_excel (prepare_frame jobs))) ->
               ~ In (Text EmptyString) row).
Proof.
  assert (Hsheet : to_excel (prepare_frame jobs) =
    map Text (kept_columns jobs)
    :: map (fun d => map (fun c => cell_for c d) (kept_columns jobs)) jobs).
  { unfold to_excel. rewrite prepare_frame_rows.
    change (columns (prepare_frame jobs))
      with (existing_columns (DataFrame_of_records jobs)).
    rewrite existing_columns_kept, map_map. f_equal.
    apply map_ext. intros d. rewrite map_map. apply map_ext. intros c.
    apply cell_of_written. }
  split; [exact Hsheet|]. split; [|split].
  - intros c. unfold kept_columns. rewrite filter_In, existsb_exists.
    split.
    + intros [Hc (d & Hd & Hv)]. split; [exact Hc|].
      destruct (dict_get c d) as [v|] eqn:Hg; [|discriminate Hv].
      exists d, v. split; [exact Hd | exact Hg].
    + intros [Hc (d & v & Hd & Hg)]. split; [exact Hc|].
      exists d. split; [exact Hd|]. rewrite Hg. reflexivity.
  - intros row Hrow. rewrite Hsheet in Hrow. destruct Hrow as [<- | Hrow].
    + apply length_map.
    + apply in_map_iff in Hrow as (d & <- & _). apply length_map.
  - intros row Hrow Hempty. rewrite Hsheet in Hrow. cbn [tl] in Hrow.
    apply in_map_iff in Hrow as (d & <- & _).
    apply in_map_iff in Hempty as (c & Hc & _).
    unfold cell_for in Hc.
    destruct (dict_get c d) as [[|[|a s]]|]; discriminate Hc.
Qed.

(** ** The counts of a breakdown *)

Lemma list_sum_cons x l : list_sum (x :: l) = x + list_sum l.
Proof. reflexivity. Qed.

Lemma no_key_matches (a : string) ks :
  ~ In a ks ->
  list_sum (map (fun k => if String.eqb k a then 1 else 0) ks) = 0.
Proof.
  induction ks as [|k ks IH]; intros Hin; [reflexivity|].
  cbn [map]. rewrite list_sum_cons, IH by (intros H; apply Hin; right; exact H).
  destruct (String.eqb k a) eqn:Hka; [|reflexivity].
  apply String.eqb_eq in Hka. subst k. exfalso. apply Hin. left. reflexivity.
Qed.

Lemma one_key_matches (a : string) ks :
  NoDup ks -> In a ks ->
  list_sum (map (fun k => if String.eqb k a then 1 else 0) ks) = 1.
Proof.
  induction ks as [|k ks IH]; intros Hnd Hin; [destruct Hin|].
  inversion Hnd as [|? ? Hk Hnd']. subst. cbn [map]. rewrite list_sum_cons.
  destruct (String.eqb k a) eqn:Hka.
  - apply String.eqb_eq in Hka. subst k.
    rewrite (no_key_matches a ks Hk). reflexivity.
  - destruct Hin as [-> | Hin]; [rewrite String.eqb_refl in Hka; discriminate Hka|].
    rewrite (IH Hnd' Hin). reflexivity.
Qed.

Lemma list_sum_add {A} (f g : A -> nat) l :
  list_sum (map (fun x => f x + g x) l) = list_sum (map f l) + list_sum (map g l).
Proof.
  induction l as [|x l IH]; [reflexivity|].
  cbn [map]. rewrite !list_sum_cons, IH. lia.
Qed.

Lemma occurrences_add_up ks l :
  NoDup ks -> (forall x, In x l -> In x ks) ->
  list_sum (map (fun k => occurrences k l) ks) = List.length l.
Proof.
  intros Hnd. induction l as [|a l IH]; intros Hin.
  - clear Hnd Hin. induction ks as [|k ks IHk]; [reflexivity|].
    cbn [map]. rewrite list_sum_cons, IHk. reflexivity.
  - rewrite (map_ext (fun k => occurrences k (a :: l))
               (fun k => (if String.eqb k a then 1 else 0) + occurrences k l)).
    + rewrite list_sum_add, one_key_matches, IH; cbn [List.length];
        [reflexivity | | exact Hnd |].
      * intros x Hx. apply Hin. right. exact Hx.
      * apply Hin. left. reflexivity.
    + intros k. unfold occurrences. cbn [filter].
      destruct (String.eqb k a); reflexivity.
Qed.

Lemma value_counts_total vals :
  list_sum (map snd (value_counts vals)) = List.length (non_null vals).
Proof.
  rewrite (Permutation_list_sum
             (Permutation_map snd (value_counts_perm vals))).
  rewrite map_map. cbn [snd].
  apply occurrences_add_up; [apply distinct_NoDup|].
  intros x Hx. apply distinct_In. exact Hx.
Qed.

Lemma non_null_written c jobs :
  List.length (non_null (map (written c) jobs)) =
  List.length (filter (is_filled c) jobs).
Proof.
  induction jobs as [|d rest IH]; [reflexivity|].
  cbn [map filter]. unfold written at 1, is_filled at 1.
  destruct (dict_get c d) as [[|[|a s]]|];
    cbn [dfval_of empty_to_None non_null List.length]; rewrite ?IH; reflexivity.
Qed.

Lemma filter_none {A} (f : A -> bool) l :
  (forall x, In x l -> f x = false) -> filter f l = [].
Proof.
  intros Hnone. induction l as [|x l IH]; [reflexivity|].
  cbn. rewrite (Hnone x) by (left; reflexivity).
  apply IH. intros y Hy. apply Hnone. right. exact Hy.
Qed.

Lemma breakdown_total jobs c :
  In c column_order ->
  list_sum (map count_of (breakdown (prepare_frame jobs) c)) =
  List.length (filter (is_filled c) jobs).
Proof.
  intros Hc. unfold breakdown.
  change (columns (prepare_frame jobs))
    with (existing_columns (DataFrame_of_records jobs)).
  destruct (mem c (existing_columns (DataFrame_of_records jobs))) eqn:Hm.
  - rewrite map_map. cbn [count_of].
    change (fun x : string * nat => snd x) with (@snd string nat).
    rewrite value_counts_total, (prepare_frame_column jobs c Hc).
    apply non_null_written.
  - cbn. rewrite filter_none; [reflexivity|].
    intros d Hd. unfold is_filled.
    rewrite (absent_column jobs c Hc Hm d Hd). reflexivity.
Qed.

(** X15. The counts of a breakdown add up.  In the Summary of any
    collection the counts listed under Jobs by Category sum to the number
    of records that hold a non-empty JobCategory, and likewise for
    Location; a record with a blank field is counted in Total Jobs and in
    no row of that breakdown, so each sum is at most Total Jobs. *)
Theorem breakdown_counts_add_up jobs :
  let df := prepare_frame jobs in
  list_sum (map count_of (breakdown df "JobCategory")) =
    List.length (filter (is_filled "JobCategory") jobs) /\
  list_sum (map count_of (breakdown df "Location")) =
    List.length (filter (is_filled "Location") jobs) /\
  list_sum (map count_of (breakdown df "JobCategory")) <= len df /\
  list_sum (map count_of (breakdown df "Location")) <= len df.
Proof.
  cbv zeta. rewrite prepare_frame_len.
  rewrite !breakdown_total by (cbn; tauto).
  repeat split; apply filter_length_le.
Qed.

(** ** Worksheets *)

Ltac decide_nat :=
  repeat match goal with
         | |- context [Nat.eqb ?a ?b] => destruct (Nat.eqb_spec a b)
         | |- context [Nat.leb ?a ?b] => destruct (Nat.leb_spec a b)
         | |- context [Nat.ltb ?a ?b] => destruct (Nat.ltb_spec a b)
         end;
  cbn [andb orb negb]; try reflexivity; try lia.

Lemma for_each_cons {A S} (x : A) l (body : A -> S -> S) s :
  Xl.for_each (x :: l) body s = Xl.for_each l body (body x s).
Proof. reflexivity. Qed.

Lemma for_each_map {A B S} (f : A -> B) l (body : B -> S -> S) s :
  Xl.for_each (map f l) body s = Xl.for_each l (fun x => body (f x)) s.
Proof.
  revert s. induction l as [|x l IH]; intros s; [reflexivity|].
  cbn [map]. rewrite !for_each_cons. apply IH.
Qed.

(** The longest value found is at least as long as every true value, and
    is the length of one of them unless none is longer than the start. *)
Lemma longest_spec vals m :
  m <= Xl.for_each vals Xl.longer m /\
  (forall v, In v vals -> Xl.truth v = true ->
             String.length (Xl.str v) <= Xl.for_each vals Xl.longer m) /\
  (Xl.for_each vals Xl.longer m = m \/
   exists v, In v vals /\ Xl.truth v = true /\
             Xl.for_each vals Xl.longer m = String.length (Xl.str v)).
Proof.
  revert m. induction vals as [|v vals IH]; intros m.
  - cbn. split; [lia|]. split; [intros v []|]. left. reflexivity.
  - rewrite for_each_cons. destruct (IH (Xl.longer v m)) as (Hle & Hall & Hsome).
    assert (Hm : m <= Xl.longer v m).
    { unfold Xl.longer. destruct (Xl.truth v); cbn [andb]; [|lia].
      destruct (Nat.ltb_spec m (String.length (Xl.str v))); lia. }
    split; [lia|]. split.
    + intros x [<- | Hx] Ht; [|apply Hall; assumption].
      assert (String.length (Xl.str v) <= Xl.longer v m); [|lia].
      unfold Xl.longer. rewrite Ht. cbn [andb].
      destruct (Nat.ltb_spec m (String.length (Xl.str v))); lia.
    + destruct Hsome as [Heq | (x & Hx & Ht & Heq)].
      * rewrite Heq. unfold Xl.longer.
        destruct (Xl.truth v) eqn:Ht; cbn [andb]; [|left; reflexivity].
        destruct (Nat.ltb_spec m (String.length (Xl.str v)));
          [|left; reflexivity].
        right. exists v. split; [left; reflexivity|]. split; [exact Ht|].
        reflexivity.
      * right. exists x. split; [right; exact Hx|]. split; assumption.
Qed.

Lemma column_values_In ws c v :
  In v (column_values ws c) <->
  exists r, 1 <= r <= Xl.max_row ws /\ v = Xl.value (Xl.cell_at ws r c).
Proof.
  unfold column_values. rewrite in_map_iff. split.
  - intros (r & <- & Hr). apply in_seq in Hr. exists r. split; [lia | reflexivity].
  - intros (r & Hr & ->). exists r. split; [reflexivity|]. apply in_seq. lia.
Qed.

Lemma restyle_row r0 f a n ws :
  let ws' := Xl.for_each (seq a n) (fun c => Xl.restyle r0 c f) ws in
  Xl.max_row ws' = Xl.max_row ws /\
  Xl.max_column ws' = Xl.max_column ws /\
  Xl.column_dimensions ws' = Xl.column_dimensions ws /\
  Xl.row_dimensions ws' = Xl.row_dimensions ws /\
  forall r c,
    Xl.cell_at ws' r c =
    if (r =? r0) && (a <=? c) && (c <? a + n)
    then f (Xl.cell_at ws r c) else Xl.cell_at ws r c.
Proof.
  cbv zeta. revert a ws. induction n as [|n IH]; intros a ws.
  - cbn [seq Xl.for_each fold_left]. repeat split. intros r c. decide_nat.
  - cbn [seq]. rewrite for_each_cons.
    destruct (IH (S a) (Xl.restyle r0 a f ws)) as (H1 & H2 & H3 & H4 & H5).
    rewrite H1, H2, H3, H4. repeat split. intros r c. rewrite H5.
    cbn [Xl.restyle Xl.cell_at]. decide_nat.
Qed.

Lemma restyle_column c0 (g : nat -> Xl.Cell -> Xl.Cell) a n ws :
  let ws' := Xl.for_each (seq a n) (fun r => Xl.restyle r c0 (g r)) ws in
  Xl.max_row ws' = Xl.max_row ws /\
  Xl.max_column ws' = Xl.max_column ws /\
  Xl.column_dimensions ws' = Xl.column_dimensions ws /\
  Xl.row_dimensions ws' = Xl.row_dimensions ws /\
  forall r c,
    Xl.cell_at ws' r c =
    if (c =? c0) && (a <=? r) && (r <? a + n)
    then g r (Xl.cell_at ws r c) else Xl.cell_at ws r c.
Proof.
  cbv zeta. revert a ws. induction n as [|n IH]; intros a ws.
  - cbn [seq Xl.for_each fold_left]. repeat split. intros r c. decide_nat.
  - cbn [seq]. rewrite for_each_cons.
    destruct (IH (S a) (Xl.restyle a c0 (g a) ws)) as (H1 & H2 & H3 & H4 & H5).
    rewrite H1, H2, H3, H4. repeat split. intros r c. rewrite H5.
    cbn [Xl.restyle Xl.cell_at]. decide_nat; subst; reflexivity.
Qed.

(** The loop over the cells of column [c] styles them and finds the
    longest value of the column. *)
Lemma format_column_loop c rs ws0 : forall ws m,
  (forall r, Xl.value (Xl.cell_at ws r c) = Xl.value (Xl.cell_at ws0 r c)) ->
  Xl.for_each rs
    (fun r '(worksheet, max_length) =>
       let worksheet := Xl.restyle r c (Xl.format_cell r) worksheet in
       (worksheet, Xl.longer (Xl.value (Xl.cell_at worksheet r c)) max_length))
    (ws, m) =
  (Xl.for_each rs (fun r => Xl.restyle r c (Xl.format_cell r)) ws,
   Xl.for_each (map (fun r => Xl.value (Xl.cell_at ws0 r c)) rs) Xl.longer m).
Proof.
  induction rs as [|r rs IH]; intros ws m Hsame; [reflexivity|].
  cbn [map]. rewrite !for_each_cons. cbv zeta.
  assert (Hval : forall r',
    Xl.value (Xl.cell_at (Xl.restyle r c (Xl.format_cell r) ws) r' c) =
    Xl.value (Xl.cell_at ws0 r' c)).
  { intros r'. cbn [Xl.restyle Xl.cell_at]. rewrite <- Hsame.
    destruct ((r' =? r) && (c =? c)); reflexivity. }
  rewrite Hval. apply IH. exact Hval.
Qed.

Lemma format_column_eq c ws :
  format_column c ws =
  Xl.set_width c (jobs_width ws c)
    (Xl.for_each (seq 1 (Xl.max_row ws))
       (fun r => Xl.restyle r c (Xl.format_cell r)) ws).
Proof.
  unfold format_column.
  rewrite (format_column_loop c _ ws ws 0) by reflexivity. reflexivity.
Qed.

Lemma column_values_ext ws ws' c :
  Xl.max_row ws' = Xl.max_row ws ->
  (forall r, Xl.value (Xl.cell_at ws' r c) = Xl.value (Xl.cell_at ws r c)) ->
  column_values ws' c = column_values ws c.
Proof.
  intros Hrow Hval. unfold column_values. rewrite Hrow.
  apply map_ext. exact Hval.
Qed.

Lemma format_columns_loop a n ws :
  let ws' := Xl.for_each (seq a n) format_column ws in
  Xl.max_row ws' = Xl.max_row ws /\
  Xl.max_column ws' = Xl.max_column ws /\
  Xl.row_dimensions ws' = Xl.row_dimensions ws /\
  (forall r c,
      Xl.cell_at ws' r c =
      if (1 <=? r) && (r <=? Xl.max_row ws) && (a <=? c) && (c <? a + n)
      then Xl.format_cell r (Xl.cell_at ws r c) else Xl.cell_at ws r c) /\
  (forall c,
      Xl.column_dimensions ws' c =
      if (a <=? c) && (c <? a + n)
      then Some (jobs_width ws c) else Xl.column_dimensions ws c).
Proof.
  cbv zeta. revert a ws. induction n as [|n IH]; intros a ws.
  - cbn [seq Xl.for_each fold_left]. repeat split; intros; decide_nat.
  - cbn [seq]. rewrite for_each_cons.
    destruct (IH (S a) (format_column a ws)) as (H1 & H2 & H3 & H4 & H5).
    destruct (restyle_column a Xl.format_cell 1 (Xl.max_row ws) ws)
      as (G1 & G2 & G3 & G4 & G5).
    cbv zeta in G1, G2, G3, G4, G5.
    assert (Hrow : Xl.max_row (format_column a ws) = Xl.max_row ws).
    { rewrite format_column_eq. exact G1. }
    assert (Hcell : forall r c,
      Xl.cell_at (format_column a ws) r c =
      if (c =? a) && (1 <=? r) && (r <? 1 + Xl.max_row ws)
      then Xl.format_cell r (Xl.cell_at ws r c) else Xl.cell_at ws r c).
    { intros r c. rewrite format_column_eq. apply G5. }
    assert (Hval : forall r c,
      Xl.value (Xl.cell_at (format_column a ws) r c) =
      Xl.value (Xl.cell_at ws r c)).
    { intros r c. rewrite Hcell.
      destruct ((c =? a) && (1 <=? r) && (r <? 1 + Xl.max_row ws)); reflexivity. }
    rewrite H1, H2, H3, Hrow. split; [reflexivity|].
    split; [rewrite format_column_eq; exact G2|].
    split; [rewrite format_column_eq; exact G4|]. split.
    + intros r c. rewrite H4, Hrow, Hcell. decide_nat.
    + intros c. rewrite H5.
      unfold jobs_width at 1.
      rewrite (column_values_ext ws (format_column a ws) c Hrow
                 (fun r => Hval r c)).
      fold (jobs_width ws c).
      rewrite format_column_eq. cbn [Xl.set_width Xl.column_dimensions].
      rewrite G3. decide_nat. subst. reflexivity.
Qed.

Lemma set_heights a n h ws :
  let ws' := Xl.for_each (seq a n) (fun row => Xl.set_height row h) ws in
  Xl.max_row ws' = Xl.max_row ws /\
  Xl.max_column ws' = Xl.max_column ws /\
  Xl.cell_at ws' = Xl.cell_at ws /\
  Xl.column_dimensions ws' = Xl.column_dimensions ws /\
  forall r,
    Xl.row_dimensions ws' r =
    if (a <=? r) && (r <? a + n) then Some h else Xl.row_dimensions ws r.
Proof.
  cbv zeta. revert a ws. induction n as [|n IH]; intros a ws.
  - cbn [seq Xl.for_each fold_left]. repeat split. intros r. decide_nat.
  - cbn [seq]. rewrite for_each_cons.
    destruct (IH (S a) (Xl.set_height a h ws)) as (H1 & H2 & H3 & H4 & H5).
    rewrite H1, H2, H3, H4. repeat split. intros r. rewrite H5.
    cbn [Xl.set_height Xl.row_dimensions]. decide_nat.
Qed.

(** The formatted Jobs sheet, field by field. *)
Lemma format_excel_worksheet_eq ws df :
  let ws' := Xl.format_excel_worksheet ws df in
  Xl.max_row ws' = Xl.max_row ws /\
  Xl.max_column ws' = Xl.max_column ws /\
  (forall r c,
      Xl.cell_at ws' r c =
      if (1 <=? c) && (c <=? Xl.max_column ws)
      then if r =? 1 then Xl.format_header (Xl.cell_at ws r c)
           else if (2 <=? r) && (r <=? Xl.max_row ws)
                then Xl.format_cell r (Xl.cell_at ws r c)
                else Xl.cell_at ws r c
      else Xl.cell_at ws r c) /\
  (forall c,
      Xl.column_dimensions ws' c =
      if (1 <=? c) && (c <=? Xl.max_column ws)
      then Some (jobs_width ws c) else Xl.column_dimensions ws c) /\
  (forall r,
      Xl.row_dimensions ws' r =
      if (2 <=? r) && (r <=? len df + 1)
      then Some 60 else Xl.row_dimensions ws r).
Proof.
  cbv zeta. unfold Xl.format_excel_worksheet.
  set (ws1 := Xl.for_each (seq 1 (Xl.max_column ws))
                (fun c => Xl.restyle 1 c Xl.format_header) ws).
  destruct (restyle_row 1 Xl.format_header 1 (Xl.max_column ws) ws)
    as (A1 & A2 & A3 & A4 & A5).
  cbv zeta in A1, A2, A3, A4, A5. fold ws1 in A1, A2, A3, A4, A5.
  change (Xl.for_each (seq 1 (Xl.max_column ws1)) _ ws1)
    with (Xl.for_each (seq 1 (Xl.max_column ws1)) format_column ws1).
  set (ws2 := Xl.for_each (seq 1 (Xl.max_column ws1)) format_column ws1).
  destruct (format_columns_loop 1 (Xl.max_column ws1) ws1)
    as (B1 & B2 & B3 & B4 & B5).
  cbv zeta in B1, B2, B3, B4, B5. fold ws2 in B1, B2, B3, B4, B5.
  destruct (set_heights 2 (len df) 60 ws2) as (C1 & C2 & C3 & C4 & C5).
  cbv zeta in C1, C2, C3, C4, C5.
  rewrite C1, C2, C3, C4, B1, B2, A1, A2.
  split; [reflexivity|]. split; [reflexivity|]. split; [|split].
  - intros r c. rewrite B4, A1, A2, A5.
    unfold Xl.format_cell, Xl.format_header.
    decide_nat; subst; cbn; try reflexivity.
    all: destruct (Nat.ltb_spec 1 1); try lia; reflexivity.
  - intros c. rewrite B5, A2, A3.
    assert (Hw : jobs_width ws1 c = jobs_width ws c).
    { unfold jobs_width.
      rewrite (column_values_ext ws ws1 c A1); [reflexivity|].
      intros r. rewrite A5.
      destruct ((r =? 1) && (1 <=? c) && (c <? 1 + Xl.max_column ws));
        reflexivity. }
    rewrite Hw. decide_nat.
  - intros r. rewrite C5, B3, A4. decide_nat.
Qed.

(** ** Writing rows into a worksheet *)

Section WritingFacts.

Variable is_header : nat -> list cell -> bool.
Variable header : nat -> Xl.Cell -> Xl.Cell.

Lemma write_cell_eq r row c v ws :
  let ws' := (write_cell is_header header) r row (c, v) ws in
  Xl.max_row ws' = Nat.max r (Xl.max_row ws) /\
  Xl.max_column ws' = Nat.max c (Xl.max_column ws) /\
  Xl.column_dimensions ws' = Xl.column_dimensions ws /\
  Xl.row_dimensions ws' = Xl.row_dimensions ws /\
  forall r' c',
    Xl.cell_at ws' r' c' =
    if (r' =? r) && (c' =? c) then (stamp is_header header) r row v (Xl.cell_at ws r' c')
    else Xl.cell_at ws r' c'.
Proof.
  cbv zeta. unfold write_cell, stamp.
  destruct (is_header r row); cbn; repeat split; intros r' c';
    destruct ((r' =? r) && (c' =? c)); reflexivity.
Qed.

Lemma write_cells r row0 row : forall a ws,
  let ws' := Xl.for_each (combine (seq a (List.length row)) row)
               ((write_cell is_header header) r row0) ws in
  Xl.max_row ws <= Xl.max_row ws' /\
  Xl.max_column ws <= Xl.max_column ws' /\
  (row <> [] -> r <= Xl.max_row ws' /\ a + List.length row - 1 <= Xl.max_column ws') /\
  Xl.column_dimensions ws' = Xl.column_dimensions ws /\
  Xl.row_dimensions ws' = Xl.row_dimensions ws /\
  forall r' c',
    Xl.cell_at ws' r' c' =
    if (r' =? r) && (a <=? c') && (c' <? a + List.length row)
    then (stamp is_header header) r row0 (nth (c' - a) row Blank) (Xl.cell_at ws r' c')
    else Xl.cell_at ws r' c'.
Proof.
  cbv zeta. induction row as [|v row IH]; intros a ws.
  - cbn [List.length seq combine Xl.for_each fold_left].
    repeat split; try lia; try congruence. intros r' c'. decide_nat.
  - cbn [List.length seq combine]. rewrite for_each_cons.
    destruct (IH (S a) ((write_cell is_header header) r row0 (a, v) ws))
      as (H1 & H2 & H3 & H4 & H5 & H6).
    destruct (write_cell_eq r row0 a v ws) as (G1 & G2 & G3 & G4 & G5).
    cbv zeta in G1, G2, G3, G4, G5.
    rewrite G1 in H1. rewrite G2 in H2.
    split; [lia|]. split; [lia|]. split; [|split; [|split]].
    + intros _. split; [lia|]. destruct row as [|v' row'].
      * cbn [List.length] in *. lia.
      * destruct H3 as [_ H3]; [discriminate|]. cbn [List.length] in *. lia.
    + rewrite H4. exact G3.
    + rewrite H5. exact G4.
    + intros r' c'. rewrite H6, G5.
      destruct (Nat.eqb_spec r' r); cbn [andb]; [|reflexivity].
      destruct (Nat.eqb_spec c' a).
      * subst c'. rewrite Nat.sub_diag. cbn [nth]. decide_nat.
      * decide_nat. replace (c' - a) with (S (c' - S a)) by lia. reflexivity.
Qed.

Lemma write_rows rows : forall a ws,
  let ws' := Xl.for_each (combine (seq a (List.length rows)) rows) (write_row is_header header) ws in
  Xl.max_row ws <= Xl.max_row ws' /\
  Xl.max_column ws <= Xl.max_column ws' /\
  (forall i, i < List.length rows -> nth i rows [] <> [] ->
             a + i <= Xl.max_row ws' /\
             List.length (nth i rows []) <= Xl.max_column ws') /\
  Xl.column_dimensions ws' = Xl.column_dimensions ws /\
  Xl.row_dimensions ws' = Xl.row_dimensions ws /\
  forall r c,
    Xl.cell_at ws' r c =
    if (a <=? r) && (r <? a + List.length rows) && (1 <=? c)
       && (c <=? List.length (nth (r - a) rows []))
    then (stamp is_header header) r (nth (r - a) rows []) (nth (c - 1) (nth (r - a) rows []) Blank)
           (Xl.cell_at ws r c)
    else Xl.cell_at ws r c.
Proof.
  cbv zeta. induction rows as [|row rows IH]; intros a ws.
  - cbn [List.length seq combine Xl.for_each fold_left].
    repeat split; try lia. intros r c. decide_nat.
  - cbn [List.length seq combine]. rewrite for_each_cons.
    destruct (IH (S a) ((write_row is_header header) (a, row) ws))
      as (H1 & H2 & H3 & H4 & H5 & H6).
    destruct (write_cells a row row 1 ws) as (G1 & G2 & G3 & G4 & G5 & G6).
    cbv zeta in G1, G2, G3, G4, G5, G6.
    change (Xl.for_each (combine (seq 1 (List.length row)) row)
              ((write_cell is_header header) a row) ws)
      with ((write_row is_header header) (a, row) ws) in G1, G2, G3, G4, G5, G6.
    split; [lia|]. split; [lia|]. split; [|split; [|split]].
    + intros [|i] Hi Hne.
      * cbn [nth] in *. destruct (G3 Hne) as [Ga Gb]. lia.
      * cbn [nth] in *. destruct (H3 i) as [Ha Hb]; [lia | exact Hne | lia].
    + rewrite H4. exact G4.
    + rewrite H5. exact G5.
    + intros r c. rewrite H6, G6.
      destruct (Nat.eqb_spec r a).
      * subst r. rewrite Nat.sub_diag. cbn [nth]. decide_nat.
      * destruct (Nat.le_gt_cases a r) as [Hle | Hgt].
        -- replace (r - a) with (S (r - S a)) by lia. cbn [nth]. decide_nat.
        -- decide_nat.
Qed.

End WritingFacts.

Lemma size_column_eq c ws :
  size_column c ws = Xl.set_width c (summary_width ws c) ws.
Proof.
  unfold size_column, summary_width, column_values.
  rewrite for_each_map. reflexivity.
Qed.

Lemma size_columns a n ws :
  let ws' := Xl.for_each (seq a n) size_column ws in
  Xl.max_row ws' = Xl.max_row ws /\
  Xl.max_column ws' = Xl.max_column ws /\
  Xl.cell_at ws' = Xl.cell_at ws /\
  Xl.row_dimensions ws' = Xl.row_dimensions ws /\
  forall c,
    Xl.column_dimensions ws' c =
    if (a <=? c) && (c <? a + n)
    then Some (summary_width ws c) else Xl.column_dimensions ws c.
Proof.
  cbv zeta. revert a ws. induction n as [|n IH]; intros a ws.
  - cbn [seq Xl.for_each fold_left]. repeat split. intros c. decide_nat.
  - cbn [seq]. rewrite for_each_cons.
    destruct (IH (S a) (size_column a ws)) as (H1 & H2 & H3 & H4 & H5).
    rewrite H1, H2, H3, H4. repeat split.
    intros c. rewrite H5, size_column_eq.
    assert (Hw : summary_width (Xl.set_width a (summary_width ws a) ws) c =
                 summary_width ws c) by reflexivity.
    rewrite Hw. cbn [Xl.set_width Xl.column_dimensions].
    decide_nat; subst; reflexivity.
Qed.

Lemma for_each_ext {A S} (f g : A -> S -> S) l s :
  (forall x s, f x s = g x s) -> Xl.for_each l f s = Xl.for_each l g s.
Proof.
  intros Hfg. revert s. induction l as [|x l IH]; intros s; [reflexivity|].
  rewrite !for_each_cons, Hfg. apply IH.
Qed.

Lemma summary_sheet_eq rows :
  Xl.summary_sheet rows =
  Xl.for_each (seq 1 (Xl.max_column (summary_cells rows))) size_column
    (summary_cells rows).
Proof.
  unfold Xl.summary_sheet.
  assert (Hcells :
    Xl.for_each (Xl.enumerate rows)
      (fun '(row_idx, row_data) summary_sheet =>
         Xl.for_each (Xl.enumerate row_data)
           (fun '(col_idx, v) summary_sheet =>
              let summary_sheet := Xl.put row_idx col_idx v summary_sheet in
              if Xl.is_header_row row_idx row_data
              then Xl.restyle row_idx col_idx
                     (Xl.format_summary_header row_idx) summary_sheet
              else summary_sheet)
           summary_sheet)
      Xl.create_sheet = summary_cells rows).
  { unfold summary_cells. apply for_each_ext. intros [r row] ws.
    cbn [write_row]. apply for_each_ext. intros [c v] ws'. reflexivity. }
  cbv zeta in Hcells |- *. rewrite Hcells. reflexivity.
Qed.

Lemma worksheet_of_eq rows :
  Xl.worksheet_of rows =
  Xl.for_each (Xl.enumerate rows)
    (write_row (fun _ _ => false) (fun _ cell => cell)) Xl.create_sheet.
Proof.
  unfold Xl.worksheet_of. apply for_each_ext. intros [r row] ws.
  cbn [write_row]. apply for_each_ext. intros [c v] ws'. reflexivity.
Qed.

Lemma stamp_value is_header header r row v old :
  (forall r cell, Xl.value (header r cell) = Xl.value cell) ->
  Xl.value old = Blank ->
  Xl.value (stamp is_header header r row v old) = v.
Proof.
  intros Hheader Hold. unfold stamp. destruct (is_header r row);
    rewrite ?Hheader; destruct v; cbn; try reflexivity; exact Hold.
Qed.

Lemma format_summary_header_value r cell :
  Xl.value (Xl.format_summary_header r cell) = Xl.value cell.
Proof. unfold Xl.format_summary_header. destruct (r =? 1); reflexivity. Qed.

Lemma nth_nil_row (rows : sheet) r c :
  List.length rows <= r -> nth c (nth r rows []) Blank = Blank.
Proof. intros Hr. rewrite (nth_overflow rows [] Hr). destruct c; reflexivity. Qed.

(** The cells of the Summary sheet: the rows as collected, the header
    rows in their font and fill. *)
Lemma summary_cell rows r c :
  Xl.cell_at (Xl.summary_sheet rows) (S r) (S c) =
  if (r <? List.length rows) && (c <? List.length (nth r rows []))
  then stamp Xl.is_header_row Xl.format_summary_header (S r) (nth r rows [])
         (nth c (nth r rows []) Blank) Xl.new_cell
  else Xl.new_cell.
Proof.
  rewrite summary_sheet_eq.
  destruct (size_columns 1 (Xl.max_column (summary_cells rows))
              (summary_cells rows)) as (_ & _ & Hcells & _).
  cbv zeta in Hcells. rewrite Hcells. unfold summary_cells, Xl.enumerate.
  destruct (write_rows Xl.is_header_row Xl.format_summary_header rows 1
              Xl.create_sheet) as (_ & _ & _ & _ & _ & Hcell).
  cbv zeta in Hcell. rewrite Hcell.
  replace (S r - 1) with r by lia. replace (S c - 1) with c by lia.
  cbn [Xl.create_sheet Xl.cell_at]. decide_nat.
Qed.

Lemma summary_value rows r c :
  Xl.value (Xl.cell_at (Xl.summary_sheet rows) (S r) (S c)) =
  nth c (nth r rows []) Blank.
Proof.
  rewrite summary_cell.
  destruct (Nat.ltb_spec r (List.length rows)); cbn [andb].
  - destruct (Nat.ltb_spec c (List.length (nth r rows []))).
    + apply stamp_value; [apply format_summary_header_value | reflexivity].
    + rewrite nth_overflow by lia. reflexivity.
  - rewrite nth_nil_row by lia. reflexivity.
Qed.

(** X16. Styling changes no value.  Formatting a worksheet leaves the
    value of every cell and the extent of the sheet as they were, and the
    Summary worksheet holds in row r and column c exactly the entry of
    the collected rows at that place, blank where a row is shorter: the
    sheets of values are what the styled sheets contain. *)
Theorem styling_keeps_the_values :
  (forall ws df r c,
      Xl.value (Xl.cell_at (Xl.format_excel_worksheet ws df) r c) =
      Xl.value (Xl.cell_at ws r c)) /\
  (forall ws df,
      Xl.max_row (Xl.format_excel_worksheet ws df) = Xl.max_row ws /\
      Xl.max_column (Xl.format_excel_worksheet ws df) = Xl.max_column ws) /\
  (forall rows r c,
      Xl.value (Xl.cell_at (Xl.summary_sheet rows) (S r) (S c)) =
      nth c (nth r rows []) Blank).
Proof.
  split; [|split].
  - intros ws df r c.
    destruct (format_excel_worksheet_eq ws df) as (_ & _ & Hcell & _).
    cbv zeta in Hcell. rewrite Hcell.
    destruct ((1 <=? c) && (c <=? Xl.max_column ws)); [|reflexivity].
    destruct (r =? 1); [reflexivity|].
    destruct ((2 <=? r) && (r <=? Xl.max_row ws)); reflexivity.
  - intros ws df.
    destruct (format_excel_worksheet_eq ws df) as (Hrow & Hcol & _).
    split; assumption.
  - apply summary_value.
Qed.

(** X17. The styles of the formatted Jobs sheet.  In every column of the
    sheet the cell of the first row gets the header style: bold white
    12-point font on a solid 366092 fill, thin borders, centred both ways
    and wrapped.  Every cell of the rows below gets thin borders and is
    top-aligned and wrapped, its font and fill left as they were.  Cells
    outside the sheet's columns are not touched. *)
Theorem jobs_sheet_styles ws df r c :
  (1 <= c <= Xl.max_column ws -> r = 1 ->
   Xl.cell_at (Xl.format_excel_worksheet ws df) r c =
   {| Xl.value := Xl.value (Xl.cell_at ws r c);
      Xl.font := {| Xl.bold := true; Xl.color := Some "FFFFFF";
                    Xl.size := Some 12 |};
      Xl.fill := Xl.solid "366092" "366092";
      Xl.border := Xl.thin_border;
      Xl.alignment := {| Xl.horizontal := Some "center";
                         Xl.vertical := Some "center";
                         Xl.wrap_text := true |} |}) /\
  (1 <= c <= Xl.max_column ws -> 2 <= r <= Xl.max_row ws ->
   Xl.cell_at (Xl.format_excel_worksheet ws df) r c =
   {| Xl.value := Xl.value (Xl.cell_at ws r c);
      Xl.font := Xl.font (Xl.cell_at ws r c);
      Xl.fill := Xl.fill (Xl.cell_at ws r c);
      Xl.border := Xl.thin_border;
      Xl.alignment := {| Xl.horizontal := None; Xl.vertical := Some "top";
                         Xl.wrap_text := true |} |}) /\
  (c = 0 \/ Xl.max_column ws < c ->
   Xl.cell_at (Xl.format_excel_worksheet ws df) r c = Xl.cell_at ws r c).
Proof.
  destruct (format_excel_worksheet_eq ws df) as (_ & _ & Hcell & _).
  cbv zeta in Hcell. rewrite Hcell. split; [|split].
  - intros Hc ->. cbn [Nat.eqb]. decide_nat.
  - intros Hc Hr. unfold Xl.format_cell. decide_nat.
  - intros Hc. decide_nat.
Qed.

(** The header cell of a one-column sheet. *)
Lemma jobs_sheet_styles_witness :
  Xl.font (Xl.cell_at
             (Xl.format_excel_worksheet
                (Xl.worksheet_of [[Text "JobTitle"]; [Text "Tester"]])
                (prepare_frame [[("JobTitle", PStr "Tester")]])) 1 1) =
  Xl.header_font /\
  Xl.border (Xl.cell_at
               (Xl.format_excel_worksheet
                  (Xl.worksheet_of [[Text "JobTitle"]; [Text "Tester"]])
                  (prepare_frame [[("JobTitle", PStr "Tester")]])) 2 1) =
  Xl.thin_border.
Proof.
  destruct (jobs_sheet_styles
              (Xl.worksheet_of [[Text "JobTitle"]; [Text "Tester"]])
              (prepare_frame [[("JobTitle", PStr "Tester")]]) 1 1)
    as (Hheader & _ & _).
  destruct (jobs_sheet_styles
              (Xl.worksheet_of [[Text "JobTitle"]; [Text "Tester"]])
              (prepare_frame [[("JobTitle", PStr "Tester")]]) 2 1)
    as (_ & Hdata & _).
  rewrite Hheader by (vm_compute; lia || reflexivity).
  rewrite Hdata by (vm_compute; lia).
  split; reflexivity.
Defined.




(** ** The Summary sheet *)

Lemma strftime_nonempty now : exists a s, strftime now = String a s.
Proof. unfold strftime, PyStr.pad4. cbn [append]. eexists. eexists. reflexivity. Qed.

(** Among the rows of the summary only the two section headings end in an
    empty text. *)
Lemma section_rows df now row :
  In row (summary_data df now) ->
  is_section_row row = true <->
  row = [Text "Jobs by Category"; Text EmptyString] \/
  row = [Text "Jobs by Location"; Text EmptyString].
Proof.
  intros Hin. unfold summary_data in Hin.
  destruct (strftime_nonempty now) as (a & s & Hnow).
  rewrite !in_app_iff in Hin. cbn [In] in Hin.
  assert (Hcount : forall c, In row (breakdown df c) ->
            is_section_row row = true <->
            row = [Text "Jobs by Category"; Text EmptyString] \/
            row = [Text "Jobs by Location"; Text EmptyString]).
  { intros c Hb. apply breakdown_rows in Hb as (kv & ->).
    unfold breakdown_row. split; [intros H; discriminate H|].
    intros [H | H]; discriminate H. }
  destruct Hin as [Hfixed | [Hb | [Hmid | Hb]]].
  - repeat (destruct Hfixed as [<- | Hfixed];
            [rewrite ?Hnow; split;
             [intros H; try discriminate H; auto
             | intros [H | H]; try discriminate H; reflexivity]|]).
    destruct Hfixed.
  - exact (Hcount _ Hb).
  - repeat (destruct Hmid as [<- | Hmid];
            [split;
             [intros H; try discriminate H; auto
             | intros [H | H]; try discriminate H; reflexivity]|]).
    destruct Hmid.
  - exact (Hcount _ Hb).
Qed.

(** X19. The bold rows of the Summary sheet.  A written cell of the
    Summary is bold exactly when it lies in the first row or in one of
    the two section headings, Jobs by Category and Jobs by Location; the
    first row alone has white letters on the solid 366092 fill.  No
    other row is marked: not the blank separators, not the figures, and
    no row of a breakdown, whatever the category or location is called. *)
Theorem summary_headings_are_bold df now r c row :
  nth_error (summary_data df now) r = Some row ->
  c < List.length row ->
  let cell := Xl.cell_at (Xl.summary_sheet (summary_data df now)) (S r) (S c) in
  (Xl.bold (Xl.font cell) = true <->
   r = 0 \/
   row = [Text "Jobs by Category"; Text EmptyString] \/
   row = [Text "Jobs by Location"; Text EmptyString]) /\
  (Xl.fill cell = Xl.solid "366092" "366092" <-> r = 0) /\
  (Xl.color (Xl.font cell) = Some "FFFFFF" <-> r = 0) /\
  (r <> 0 -> Xl.fill cell = Xl.no_fill /\ Xl.color (Xl.font cell) = None).
Proof.
  intros Hrow Hc. cbv zeta. rewrite summary_cell.
  assert (Hr : r < List.length (summary_data df now)).
  { apply nth_error_Some. rewrite Hrow. discriminate. }
  assert (Hnth : nth r (summary_data df now) [] = row).
  { apply nth_error_nth. exact Hrow. }
  rewrite Hnth.
  destruct (Nat.ltb_spec r (List.length (summary_data df now))); [|lia].
  destruct (Nat.ltb_spec c (List.length row)); [|lia].
  cbn [andb].
  pose proof (section_rows df now row (nth_error_In _ _ Hrow)) as Hsection.
  unfold stamp, Xl.is_header_row. fold (is_section_row row).
  destruct r as [|r].
  - cbn [Nat.eqb orb]. unfold Xl.format_summary_header. cbn [Nat.eqb].
    cbn. repeat split; auto; try (intros H'; congruence); contradiction.
  - change (S (S r) =? 1) with false. cbn [orb].
    destruct (is_section_row row) eqn:Hs.
    + unfold Xl.format_summary_header. change (S (S r) =? 1) with false.
      destruct (nth c row Blank); cbn;
        (split; [split; [intros _; right; apply Hsection; reflexivity
                        | reflexivity]|]);
        (split; [split; intros H'; discriminate H'|]);
        (split; [split; intros H'; discriminate H'|]);
        intros _; split; reflexivity.
    + destruct (nth c row Blank); cbn;
        (split; [split; [intros H'; discriminate H'
                        | intros [H' | H']; [discriminate H'|];
                          apply Hsection in H'; discriminate H']|]);
        (split; [split; intros H'; discriminate H'|]);
        (split; [split; intros H'; discriminate H'|]);
        intros _; split; reflexivity.
Qed.

(** The heading of the category breakdown in the summary of one record. *)
Lemma summary_headings_are_bold_witness :
  Xl.bold
    (Xl.font
       (Xl.cell_at
          (Xl.summary_sheet
             (summary_data
                (prepare_frame [[("JobCategory", PStr "Testing")]])
                Samples.noon)) 7 1)) = true.
Proof.
  apply (summary_headings_are_bold
           (prepare_frame [[("JobCategory", PStr "Testing")]]) Samples.noon
           6 0 [Text "Jobs by Category"; Text EmptyString]).
  - reflexivity.
  - cbn. lia.
  - right. left. reflexivity.
Defined.

Lemma summary_width_spec ws c :
  15 <= summary_width ws c /\
  (forall r, 1 <= r <= Xl.max_row ws ->
             Xl.truth (Xl.value (Xl.cell_at ws r c)) = true ->
             String.length (Xl.str (Xl.value (Xl.cell_at ws r c))) + 2
             <= summary_width ws c) /\
  (summary_width ws c = 15 \/
   exists r, 1 <= r <= Xl.max_row ws /\
             Xl.truth (Xl.value (Xl.cell_at ws r c)) = true /\
             summary_width ws c =
             String.length (Xl.str (Xl.value (Xl.cell_at ws r c))) + 2).
Proof.
  unfold summary_width.
  destruct (longest_spec (column_values ws c) 0) as (_ & Hall & Hsome).
  set (longest := Xl.for_each (column_values ws c) Xl.longer 0) in *.
  split; [lia|]. split.
  - intros r Hr Ht.
    assert (String.length (Xl.str (Xl.value (Xl.cell_at ws r c))) <= longest);
      [|lia].
    apply Hall; [|exact Ht]. apply column_values_In. exists r.
    split; [exact Hr | reflexivity].
  - destruct Hsome as [Hzero | (v & Hv & Ht & Hlen)]; [left; lia|].
    apply column_values_In in Hv as (r & Hr & ->).
    destruct (Nat.le_gt_cases (longest + 2) 15); [left; lia|].
    right. exists r. split; [exact Hr|]. split; [exact Ht|]. lia.
Qed.

Lemma summary_extent rows r c row :
  nth_error rows r = Some row -> c < List.length row ->
  S r <= Xl.max_row (summary_cells rows) /\
  S c <= Xl.max_column (summary_cells rows).
Proof.
  intros Hrow Hc.
  assert (Hr : r < List.length rows).
  { apply nth_error_Some. rewrite Hrow. discriminate. }
  assert (Hnth : nth r rows [] = row) by (apply nth_error_nth; exact Hrow).
  unfold summary_cells, Xl.enumerate.
  destruct (write_rows Xl.is_header_row Xl.format_summary_header rows 1
              Xl.create_sheet) as (_ & _ & Hextent & _).
  cbv zeta in Hextent. destruct (Hextent r Hr) as [Ha Hb].
  - rewrite Hnth. destruct row; [cbn in Hc; lia | discriminate].
  - rewrite Hnth in Hb. lia.
Qed.

(** X20. The widths of the Summary sheet.  Each column that holds a
    written value gets a width of at least 15 that is two more than the
    length of the longest value of the column, numbers counted by their
    digits: every value of the sheet fits with two to spare, however long
    it is, and the width is 15 or exactly two more than the length of
    some value written in that column. *)
Theorem summary_column_widths rows r c row v :
  nth_error rows r = Some row ->
  nth_error row c = Some v ->
  exists width,
    Xl.column_dimensions (Xl.summary_sheet rows) (S c) = Some width /\
    15 <= width /\
    (Xl.truth v = true -> String.length (Xl.str v) + 2 <= width) /\
    (width = 15 \/
     exists r' row' v',
       nth_error rows r' = Some row' /\ nth_error row' c = Some v' /\
       Xl.truth v' = true /\ width = String.length (Xl.str v') + 2).
Proof.
  intros Hrow Hv.
  assert (Hc : c < List.length row).
  { apply nth_error_Some. rewrite Hv. discriminate. }
  destruct (summary_extent rows r c row Hrow Hc) as [Hr' Hc'].
  rewrite summary_sheet_eq.
  destruct (size_columns 1 (Xl.max_column (summary_cells rows))
              (summary_cells rows)) as (_ & _ & Hcells & _ & Hwidth).
  cbv zeta in Hcells, Hwidth.
  assert (Hvalue : forall r' c',
    Xl.value (Xl.cell_at (summary_cells rows) (S r') (S c')) =
    nth c' (nth r' rows []) Blank).
  { intros r' c'. rewrite <- summary_value, summary_sheet_eq, Hcells.
    reflexivity. }
  exists (summary_width (summary_cells rows) (S c)). split.
  - rewrite Hwidth. decide_nat.
  - destruct (summary_width_spec (summary_cells rows) (S c))
      as (Hmin & Hfits & Htight).
    split; [exact Hmin|]. split.
    + intros Ht. specialize (Hfits (S r)). rewrite Hvalue in Hfits.
      rewrite (nth_error_nth _ _ [] Hrow), (nth_error_nth _ _ Blank Hv) in Hfits.
      apply Hfits; [lia | exact Ht].
    + destruct Htight as [H15 | (r' & Hr'' & Ht & Hw)]; [left; exact H15|].
      right. destruct r' as [|r']; [lia|]. rewrite Hvalue in Ht, Hw.
      destruct (nth_error rows r') as [row'|] eqn:Hrow'.
      * destruct (nth_error row' c) as [v'|] eqn:Hv'.
        -- exists r', row', v'.
           rewrite (nth_error_nth _ _ [] Hrow'), (nth_error_nth _ _ Blank Hv')
             in Ht, Hw.
           repeat split; assumption.
        -- rewrite (nth_error_nth _ _ [] Hrow') in Ht.
           apply nth_error_None in Hv'. rewrite nth_overflow in Ht by exact Hv'.
           discriminate Ht.
      * apply nth_error_None in Hrow'. rewrite nth_nil_row in Ht by exact Hrow'.
        discriminate Ht.
Qed.

(** The column of the labels is as wide as its longest label needs. *)
Lemma summary_column_widths_witness :
  exists width,
    Xl.column_dimensions
      (Xl.summary_sheet
         (summary_data (prepare_frame [[("JobCategory", PStr "Testing")]])
            Samples.noon)) 1 = Some width /\
    18 <= width.
Proof.
  destruct (summary_column_widths
              (summary_data (prepare_frame [[("JobCategory", PStr "Testing")]])
                 Samples.noon)
              6 0 [Text "Jobs by Category"; Text EmptyString]
              (Text "Jobs by Category") eq_refl eq_refl)
    as (width & Hset & _ & Hfits & _).
  exists width. split; [exact Hset|]. apply (Hfits eq_refl).
Defined.
